(** * OpenSim-Pymote: the command client and its output parsers

    A shallow embedding of
      - [opensim_pymote/parsers.py]  (parse_regions, parse_users, parse_stats),
      - [opensim_pymote/models.py]   (Region, User, Stats),
      - [opensim_pymote/client.py]   (OpenSimClient: connect, is_connected, _execute),
      - [pymote.py]                  (PymoteClient: connect, is_connected, _execute_command),
    followed by the properties of the specification that concern them.

    Conventions of the model.
      - A Python [str] is a [string] whose characters are read as code points
        below 256; whitespace, digits and lower-casing follow Python on that
        range.  A [bytes] value is a [string] read as a byte sequence.
      - A Python [int] is a [Z]; [int()] refuses a literal of more than 4300
        digits, the default limit of the interpreter.
      - A Python [float] is only ever built by [float()] from a decimal
        literal and never computed with; it is represented by the exact
        rational value of that literal, in lowest terms.
      - A raising computation has type [exn + A]: [inl e] raises [e]; the
        message of an exception is its fixed text, without the interpolated
        detail.
      - [json.dumps], [json.loads], [str.encode] and [bytes.decode] are
        parameters of the clients (a [codec]); a socket is the sequence of
        outcomes of the calls of [recv] still to come, together with the bytes
        written so far. *)

From Stdlib Require Import String Ascii List ZArith QArith Bool Arith Lia.
Import ListNotations.
Local Close Scope Q_scope.
Local Open Scope list_scope.
Local Open Scope string_scope.
Local Open Scope nat_scope.

(** ** Exceptions *)

Inductive exn : Type :=
| ValueError
| IndexError
| AttributeError
| UnicodeDecodeError          (* a ValueError *)
| JSONDecodeError             (* json.JSONDecodeError, a ValueError *)
| socket_error                (* socket.error = OSError *)
| socket_timeout              (* socket.timeout, an OSError *)
| ConnectionError (msg : string)
| CommandError (msg : string).

(** [isinstance(e, ValueError)] and [isinstance(e, OSError)]. *)
Definition is_ValueError (e : exn) : bool :=
  match e with
  | ValueError | UnicodeDecodeError | JSONDecodeError => true
  | _ => false
  end.

Definition is_OSError (e : exn) : bool :=
  match e with
  | socket_error | socket_timeout => true
  | _ => false
  end.

Definition is_IndexError (e : exn) : bool :=
  match e with IndexError => true | _ => false end.

Definition M (A : Type) : Type := (exn + A)%type.
Definition ret {A} (a : A) : M A := inr a.
Definition raise {A} (e : exn) : M A := inl e.
Definition bind {A B} (m : M A) (k : A -> M B) : M B :=
  match m with
  | inl e => inl e
  | inr a => k a
  end.

Declare Scope py_scope.
Delimit Scope py_scope with py.
Notation "x <- m ;; k" := (bind m (fun x => k))
  (at level 61, m at next level, right associativity) : py_scope.
Notation "' pat <- m ;; k" := (bind m (fun x => match x with pat => k end))
  (at level 61, pat pattern, m at next level, right associativity) : py_scope.
Local Open Scope py_scope.

(** [for x in xs: s = body(s, x)], stopping at the first exception. *)
Fixpoint for_each {S A : Type} (body : S -> A -> M S) (xs : list A) (s : S) : M S :=
  match xs with
  | [] => ret s
  | x :: xs' => s' <- body s x ;; for_each body xs' s'
  end.

(** ** Characters and strings *)

Definition str := string.
Definition bytes := string.

Definition nl : ascii := "010"%char.

(** [c.isspace()] on code points below 256; also the class [\s] of [re]. *)
Definition isspace (c : ascii) : bool :=
  let n := nat_of_ascii c in
  ((9 <=? n) && (n <=? 13)) || ((28 <=? n) && (n <=? 32))
  || (n =? 133) || (n =? 160).

(** The class [\d] of [re]: the decimal digits (below 256, ['0'..'9']). *)
Definition isdigit (c : ascii) : bool :=
  let n := nat_of_ascii c in (48 <=? n) && (n <=? 57).

Definition digit_val (c : ascii) : Z := (Z.of_nat (nat_of_ascii c) - 48)%Z.

(** [c.lower()] on code points below 256. *)
Definition lower_char (c : ascii) : ascii :=
  let n := nat_of_ascii c in
  if ((65 <=? n) && (n <=? 90))
     || ((192 <=? n) && (n <=? 222) && negb (n =? 215))
  then ascii_of_nat (n + 32) else c.

Fixpoint lower (s : str) : str :=
  match s with
  | EmptyString => EmptyString
  | String c s' => String (lower_char c) (lower s')
  end.

Definition is_empty (s : str) : bool :=
  match s with EmptyString => true | _ => false end.

(** Removal of the leading, respectively trailing, characters of class [p]. *)
Fixpoint lstrip_by (p : ascii -> bool) (s : str) : str :=
  match s with
  | EmptyString => EmptyString
  | String c s' => if p c then lstrip_by p s' else s
  end.

Fixpoint rstrip_by (p : ascii -> bool) (s : str) : str :=
  match s with
  | EmptyString => EmptyString
  | String c s' =>
      match rstrip_by p s' with
      | EmptyString => if p c then EmptyString else String c EmptyString
      | r => String c r
      end
  end.

Definition lstrip : str -> str := lstrip_by isspace.
Definition rstrip : str -> str := rstrip_by isspace.

(** [s.strip()] *)
Definition strip (s : str) : str := rstrip (lstrip s).

(** [s.split(sep)] for a one-character separator: never an empty list. *)
Fixpoint split_on (sep : ascii) (s : str) : list str :=
  match s with
  | EmptyString => [EmptyString]
  | String c s' =>
      if Ascii.eqb c sep then EmptyString :: split_on sep s'
      else match split_on sep s' with
           | [] => [String c EmptyString]
           | h :: t => String c h :: t
           end
  end.

(** [s.split()]: the maximal runs of non-whitespace characters. *)
Fixpoint split (s : str) : list str :=
  match s with
  | EmptyString => []
  | String c s' =>
      if isspace c then split s'
      else match s' with
           | EmptyString => [String c EmptyString]
           | String c' _ =>
               if isspace c' then String c EmptyString :: split s'
               else match split s' with
                    | [] => [String c EmptyString]
                    | h :: t => String c h :: t
                    end
           end
  end.

(** [needle in hay] *)
Fixpoint contains (needle hay : str) : bool :=
  prefix needle hay ||
  match hay with
  | EmptyString => false
  | String _ hay' => contains needle hay'
  end.

(** [xs[i]], raising IndexError out of range (non-negative [i] only). *)
Definition index {A} (xs : list A) (i : nat) : M A :=
  match nth_error xs i with
  | Some x => ret x
  | None => raise IndexError
  end.

(** *** [int()] and [float()] *)

(** The digits of an integer literal after its first digit: digits, each
    optionally preceded by a single underscore. *)
Fixpoint int_digits (acc : Z) (s : str) : option Z :=
  match s with
  | EmptyString => Some acc
  | String c s' =>
      if isdigit c then int_digits (acc * 10 + digit_val c)%Z s'
      else if Ascii.eqb c "_" then
        match s' with
        | String d s'' =>
            if isdigit d then int_digits (acc * 10 + digit_val d)%Z s'' else None
        | EmptyString => None
        end
      else None
  end.

Definition int_unsigned (s : str) : option Z :=
  match s with
  | String c s' => if isdigit c then int_digits (digit_val c) s' else None
  | EmptyString => None
  end.

(** The whitespace that [int()] drops around a literal: the characters
    of [isspace] without the separators FS, GS, RS and US (codes 28 to 31). *)
Definition isspace_literal (c : ascii) : bool :=
  let n := nat_of_ascii c in
  isspace c && negb ((28 <=? n) && (n <=? 31)).

(** The default of [sys.get_int_max_str_digits()]: [int()] raises
    ValueError on a literal with more digits (leading zeros count; sign,
    underscores and surrounding whitespace do not). *)
Definition int_max_str_digits : nat := 4300.

Fixpoint count_digits (s : str) : nat :=
  match s with
  | EmptyString => 0
  | String c s' => (if isdigit c then 1 else 0) + count_digits s'
  end.

(** [int(s)] for a [str] in base 10: surrounding whitespace, an optional
    sign, digits with single underscores between them, at most
    [int_max_str_digits] digits; ValueError otherwise. *)
Definition int (s : str) : M Z :=
  let t := rstrip_by isspace_literal (lstrip_by isspace_literal s) in
  if int_max_str_digits <? count_digits t then raise ValueError
  else
    let r := match t with
             | String "+" u => int_unsigned u
             | String "-" u => option_map Z.opp (int_unsigned u)
             | _ => int_unsigned t
             end in
    match r with
    | Some z => ret z
    | None => raise ValueError
    end.

(** A maximal run of digits at the front of [s], and what follows it. *)
Fixpoint span_digits (s : str) : str * str :=
  match s with
  | EmptyString => (EmptyString, EmptyString)
  | String c s' =>
      if isdigit c then let (d, r) := span_digits s' in (String c d, r)
      else (EmptyString, s)
  end.

Fixpoint digits_value (acc : Z) (s : str) : Z :=
  match s with
  | EmptyString => acc
  | String c s' => digits_value (acc * 10 + digit_val c)%Z s'
  end.

Definition pyfloat := Q.

(** [float(s)] on the decimal literals [digits], [digits.] and
    [digits.digits], the only spellings the patterns of the parsers can
    capture; every other string is outside this fragment and reported as
    ValueError (the exponent, sign, [inf] and [nan] spellings that Python
    also accepts are never captured by those patterns). *)
Definition float (s : str) : M pyfloat :=
  let (ip, r) := span_digits s in
  if is_empty ip then raise ValueError
  else match r with
       | EmptyString => ret (Qred (digits_value 0 ip # 1)%Q)
       | String "." fr =>
           let (fp, r') := span_digits fr in
           if is_empty r' then
             ret (Qred (digits_value 0 (ip ++ fp)
                        # Z.to_pos (10 ^ Z.of_nat (String.length fp)))%Q)
           else raise ValueError
       | _ => raise ValueError
       end.

(** *** Regular expressions of the parsers *)

(** [(\d+)] anchored at the front of [s]: the group and the rest. *)
Definition match_int (s : str) : option (str * str) :=
  let (d, r) := span_digits s in
  if is_empty d then None else Some (d, r).

(** The pattern [NUM], one group around [\d+\.?\d*], anchored at the front
    of [s].  Every quantifier is greedy
    and none can give back a character to a later part of the pattern, so
    the match is the longest one. *)
Definition match_number (s : str) : option (str * str) :=
  let (d, r) := span_digits s in
  if is_empty d then None
  else match r with
       | String "." r1 => let (d2, r2) := span_digits r1 in Some (d ++ "." ++ d2, r2)
       | _ => Some (d, r)
       end.

(** [re.search(pattern, s).group(1)] for a pattern given by its anchored
    matcher: the leftmost position where it matches. *)
Fixpoint search {G} (m : str -> option (G * str)) (s : str) : option G :=
  match m s with
  | Some (g, _) => Some g
  | None =>
      match s with
      | EmptyString => None
      | String _ s' => search m s'
      end
  end.

(** [re.search(r'(\d+)', s)] and [re.search(NUM, s)] *)
Definition search_int : str -> option str := search match_int.
Definition search_number : str -> option str := search match_number.

Definition expect (c : ascii) (s : str) : option str :=
  match s with
  | String c' s' => if Ascii.eqb c c' then Some s' else None
  | EmptyString => None
  end.

(** [\s*] *)
Definition skip_spaces : str -> str := lstrip.

Definition obind {A B} (o : option A) (k : A -> option B) : option B :=
  match o with Some a => k a | None => None end.

(** The pattern of a position, [<NUM,\s*NUM,\s*NUM>] with [NUM] as above,
    anchored at the front of [s]: the three groups.  After a number the pattern needs [,] or [>],
    which is neither a digit nor a dot, so the greedy number is the only
    candidate. *)
Definition match_position (s : str) : option ((str * str * str) * str) :=
  obind (expect "<" s) (fun s1 =>
  obind (match_number s1) (fun '(a, s2) =>
  obind (expect "," s2) (fun s3 =>
  obind (match_number (skip_spaces s3)) (fun '(b, s4) =>
  obind (expect "," s4) (fun s5 =>
  obind (match_number (skip_spaces s5)) (fun '(c, s6) =>
  obind (expect ">" s6) (fun s7 =>
  Some ((a, b, c), s7)))))))).

Definition search_position : str -> option (str * str * str) := search match_position.

(** ** models.py *)

Record Region : Type := mkRegion {
  name : str;
  uuid : str;
  location_x : Z;
  location_y : Z;
  size_x : Z;
  size_y : Z;
  external_hostname : option str;
  port : option Z
}.

(** The [location] property, and the size written the same way. *)
Definition location (r : Region) : Z * Z := (location_x r, location_y r).
Definition size (r : Region) : Z * Z := (size_x r, size_y r).

Record User : Type := mkUser {
  first_name : str;
  last_name : str;
  user_uuid : option str;
  region : option str;
  position : option (pyfloat * pyfloat * pyfloat);
  online : bool;
  level : Z
}.

(** The [full_name] property. *)
Definition full_name (u : User) : str := first_name u ++ " " ++ last_name u.

Record Stats : Type := mkStats {
  fps : option pyfloat;
  physics_fps : option pyfloat;
  agents : option Z;
  objects : option Z;
  scripts : option Z;
  memory_mb : option pyfloat;
  uptime : option str
}.

(** [Stats()] *)
Definition Stats_default : Stats := mkStats None None None None None None None.

Definition set_fps (v : pyfloat) (s : Stats) : Stats :=
  mkStats (Some v) (physics_fps s) (agents s) (objects s) (scripts s) (memory_mb s) (uptime s).
Definition set_physics_fps (v : pyfloat) (s : Stats) : Stats :=
  mkStats (fps s) (Some v) (agents s) (objects s) (scripts s) (memory_mb s) (uptime s).
Definition set_agents (v : Z) (s : Stats) : Stats :=
  mkStats (fps s) (physics_fps s) (Some v) (objects s) (scripts s) (memory_mb s) (uptime s).
Definition set_objects (v : Z) (s : Stats) : Stats :=
  mkStats (fps s) (physics_fps s) (agents s) (Some v) (scripts s) (memory_mb s) (uptime s).
Definition set_scripts (v : Z) (s : Stats) : Stats :=
  mkStats (fps s) (physics_fps s) (agents s) (objects s) (Some v) (memory_mb s) (uptime s).
Definition set_memory_mb (v : pyfloat) (s : Stats) : Stats :=
  mkStats (fps s) (physics_fps s) (agents s) (objects s) (scripts s) (Some v) (uptime s).

(** ** parsers.py *)

(** [output.strip().split('\n')] *)
Definition lines (output : str) : list str := split_on nl (strip output).

(** *** parse_regions *)

(** The pair read from column [i] of [parts] when it is there: the column
    split on [sep] into exactly two integers, and [dflt] when the split has
    another number of parts or the column is absent. *)
Definition int_pair (parts : list str) (i : nat) (sep : ascii) (dflt : Z * Z) : M (Z * Z) :=
  if i <? length parts then
    col <- index parts i ;;
    let pair_parts := split_on sep col in
    if length pair_parts =? 2 then
      a <- index pair_parts 0 ;;
      x <- int a ;;
      b <- index pair_parts 1 ;;
      y <- int b ;;
      ret (x, y)
    else ret dflt
  else ret dflt.

(** The body of the [try] of [parse_regions]. *)
Definition region_of_parts (parts : list str) : M Region :=
  name <- index parts 0 ;;
  uuid <- (if 1 <? length parts then index parts 1 else ret "") ;;
  '(loc_x, loc_y) <- int_pair parts 2 "," (0, 0)%Z ;;
  '(size_x, size_y) <- int_pair parts 3 "x" (256, 256)%Z ;;
  port <- (if 4 <? length parts
           then p <- index parts 4 ;; v <- int p ;; ret (Some v)
           else ret None) ;;
  ret (mkRegion name uuid loc_x loc_y size_x size_y None port).

(** [except (ValueError, IndexError): continue] *)
Definition caught (e : exn) : bool := is_ValueError e || is_IndexError e.

(** One iteration of the loop of [parse_regions]. *)
Definition regions_step (regions : list Region) (line : str) : M (list Region) :=
  if is_empty (strip line) || contains "Region Name" line || contains "---" line
  then ret regions
  else
    let parts := split line in
    if length parts <? 3 then ret regions
    else match region_of_parts parts with
         | inr r => ret (regions ++ [r])%list
         | inl e => if caught e then ret regions else raise e
         end.

Definition parse_regions (output : str) : M (list Region) :=
  for_each regions_step (lines output) [].

(** *** parse_users *)

Definition position_of_line (parts : list str) (line : str)
  : M (option (pyfloat * pyfloat * pyfloat)) :=
  if 3 <? length parts then
    match search_position line with
    | Some (a, b, c) =>
        x <- float a ;; y <- float b ;; z <- float c ;; ret (Some (x, y, z))
    | None => ret None
    end
  else ret None.

(** The body of the [try] of [parse_users]. *)
Definition user_of_parts (parts : list str) (line : str) : M User :=
  first_name <- index parts 0 ;;
  last_name <- (if 1 <? length parts then index parts 1 else ret "") ;;
  region <- (if 2 <? length parts
             then r <- index parts 2 ;; ret (Some r)
             else ret None) ;;
  position <- position_of_line parts line ;;
  ret (mkUser first_name last_name None region position true 0%Z).

(** One iteration of the loop of [parse_users]. *)
Definition users_step (users : list User) (line : str) : M (list User) :=
  if is_empty (strip line) || contains "Name" line || contains "---" line
  then ret users
  else
    let parts := split line in
    if length parts <? 2 then ret users
    else match user_of_parts parts line with
         | inr u => ret (users ++ [u])%list
         | inl e => if caught e then ret users else raise e
         end.

Definition parse_users (output : str) : M (list User) :=
  for_each users_step (lines output) [].

(** *** parse_stats *)

(** [match = re.search(pat, line); if match: stats.f = conv(match.group(1))] *)
Definition assign {V} (searchf : str -> option str) (conv : str -> M V)
    (setf : V -> Stats -> Stats) (line : str) (stats : Stats) : M Stats :=
  match searchf line with
  | Some g => v <- conv g ;; ret (setf v stats)
  | None => ret stats
  end.

(** One iteration of the loop of [parse_stats]: the [if]/[elif] chain. *)
Definition stats_step (stats : Stats) (line0 : str) : M Stats :=
  let line := strip line0 in
  let low := lower line in
  if contains "fps" low && negb (contains "physics" low) then
    assign search_number float set_fps line stats
  else if contains "physics fps" low then
    assign search_number float set_physics_fps line stats
  else if contains "agents" low && negb (contains "child" low) then
    assign search_int int set_agents line stats
  else if contains "objects" low then
    assign search_int int set_objects line stats
  else if contains "scripts" low then
    assign search_int int set_scripts line stats
  else if contains "memory" low then
    assign search_number float set_memory_mb line stats
  else ret stats.

Definition parse_stats (output : str) : M Stats :=
  for_each stats_step (lines output) Stats_default.


(** *** parse_terrain_stats *)

Record TerrainInfo : Type := mkTerrainInfo {
  min_height : pyfloat;
  max_height : pyfloat;
  avg_height : pyfloat
}.

(** [match = re.search(NUM, line); if match: h = float(match.group(1))] *)
Definition read_height (line : str) (h : pyfloat) : M pyfloat :=
  match search_number line with
  | Some g => float g
  | None => ret h
  end.

(** One iteration of the loop of [parse_terrain_stats], on the three local
    variables [min_height], [max_height] and [avg_height]. *)
Definition terrain_step (h : pyfloat * pyfloat * pyfloat) (line : str)
  : M (pyfloat * pyfloat * pyfloat) :=
  let '(min_height, max_height, avg_height) := h in
  let low := lower line in
  if contains "min" low then
    v <- read_height line min_height ;; ret (v, max_height, avg_height)
  else if contains "max" low then
    v <- read_height line max_height ;; ret (min_height, v, avg_height)
  else if contains "avg" low || contains "average" low then
    v <- read_height line avg_height ;; ret (min_height, max_height, v)
  else ret h.

(** [0.0] *)
Definition zero_height : pyfloat := (0 # 1)%Q.

(** The whole body is inside [try: ... except Exception: return None]. *)
Definition parse_terrain_stats (output : str) : option TerrainInfo :=
  match for_each terrain_step (lines output) (zero_height, zero_height, zero_height) with
  | inr (min_height, max_height, avg_height) =>
      Some (mkTerrainInfo min_height max_height avg_height)
  | inl _ => None
  end.

(** ** The transport and the JSON values *)

(** A Python value as [json.loads] builds it; [PyNone] is [None]. *)
#[local] Set Warnings "-register-all".
Inductive pyval : Type :=
| PyNone
| PyBool (b : bool)
| PyInt (z : Z)
| PyFloat (q : pyfloat)
| PyStr (s : str)
| PyList (l : list pyval)
| PyDict (d : list (str * pyval)).

(** The truth value of a Python value, as [if v:] and [not v] take it. *)
Definition truthy (v : pyval) : bool :=
  match v with
  | PyNone => false
  | PyBool b => b
  | PyInt z => negb (z =? 0)%Z
  | PyFloat q => negb (Qnum q =? 0)%Z
  | PyStr s => negb (is_empty s)
  | PyList l => match l with [] => false | _ => true end
  | PyDict d => match d with [] => false | _ => true end
  end.

Fixpoint assoc (key : str) (d : list (str * pyval)) : option pyval :=
  match d with
  | [] => None
  | (k, v) :: d' => if String.eqb k key then Some v else assoc key d'
  end.

(** [v.get(key, default)]: only a dict has the method. *)
Definition get (v : pyval) (key : str) (default : pyval) : M pyval :=
  match v with
  | PyDict d => ret (match assoc key d with Some x => x | None => default end)
  | _ => raise AttributeError
  end.

(** The library functions of the wire format.  [json.loads] fails with
    JSONDecodeError and [bytes.decode] with UnicodeDecodeError, both given
    here as [None]. *)
Record codec : Type := mkCodec {
  json_dumps : pyval -> str;
  encode_utf8 : str -> bytes;
  decode_utf8 : bytes -> option str;
  json_loads : str -> option pyval
}.

(** What one call of [recv] on the socket does. *)
Inductive recv_event : Type :=
| Recv (chunk : bytes)
| RecvRaises (e : exn).

(** A socket: whether [sendall] raises, the outcomes of the calls of [recv]
    still to come, and the bytes written so far.  When the peer has nothing
    more in store, [recv] runs into the timeout set by [connect]. *)
Record Socket : Type := mkSocket {
  sendall_raises : option exn;
  incoming : list recv_event;
  sent : bytes
}.

Definition sendall (s : Socket) (data : bytes) : M unit * Socket :=
  match sendall_raises s with
  | Some e => (raise e, s)
  | None => (ret tt, mkSocket (sendall_raises s) (incoming s) (sent s ++ data))
  end.

Definition with_incoming (events : list recv_event) (s : Socket) : Socket :=
  mkSocket (sendall_raises s) events (sent s).

(** The operating system and the peer, as [connect] meets them. *)
Record network : Type := mkNetwork {
  socket_socket : M Socket;                 (* socket.socket(AF_INET, SOCK_STREAM) *)
  settimeout : pyfloat -> option exn;       (* sock.settimeout(t) *)
  socket_connect : str -> Z -> option exn   (* sock.connect((host, port)) *)
}.

(** [b"\n" in chunk] *)
Definition has_newline (chunk : bytes) : bool := contains (String nl EmptyString) chunk.

(** The structured payload of a CommandResult; [NoData] is [None]. *)
Inductive parsed : Type :=
| NoData
| RegionList (regions : list Region)
| UserList (users : list User)
| StatsRecord (stats : Stats).

(** ** client.py *)

Module Client.

Record CommandResult : Type := mkCommandResult {
  success : bool;
  output : pyval;
  data : parsed;
  error : pyval
}.

Record OpenSimClient : Type := mkClient {
  host : str;
  port : Z;
  timeout : pyfloat;
  socket : option Socket
}.

Definition set_socket (s : option Socket) (c : OpenSimClient) : OpenSimClient :=
  mkClient (host c) (port c) (timeout c) s.

(** [except socket.error as e: raise ConnectionError(...)] *)
Definition connect_handler (e : exn) : exn :=
  if is_OSError e then ConnectionError "Failed to connect" else e.

Definition connect (net : network) (c : OpenSimClient) : M bool * OpenSimClient :=
  match socket_socket net with
  | inl e => (raise (connect_handler e), c)
  | inr s =>
      let c1 := set_socket (Some s) c in
      match settimeout net (timeout c1) with
      | Some e => (raise (connect_handler e), c1)
      | None =>
          match socket_connect net (host c1) (port c1) with
          | Some e => (raise (connect_handler e), c1)
          | None => (ret true, c1)
          end
      end
  end.

Definition disconnect (c : OpenSimClient) : OpenSimClient := set_socket None c.

Definition is_connected (c : OpenSimClient) : bool :=
  match socket c with
  | Some _ => true
  | None => false
  end.

(** The argument of a parser has to be a [str]: [output.strip()]. *)
Definition as_str (v : pyval) : M str :=
  match v with
  | PyStr s => ret s
  | _ => raise AttributeError
  end.

Definition _parse_output (command : str) (output : pyval) : M parsed :=
  if contains "show regions" command then
    s <- as_str output ;; regions <- parse_regions s ;; ret (RegionList regions)
  else if contains "show users" command then
    s <- as_str output ;; users <- parse_users s ;; ret (UserList users)
  else if contains "show stats" command then
    s <- as_str output ;; stats <- parse_stats s ;; ret (StatsRecord stats)
  else ret NoData.

(** The receive loop: a zero-length read leaves the loop ([break]). *)
Fixpoint recv_loop (events : list recv_event) (response_data : bytes)
  : M bytes * list recv_event :=
  match events with
  | [] => (raise socket_timeout, [])
  | RecvRaises e :: rest => (raise e, rest)
  | Recv chunk :: rest =>
      if is_empty chunk then (ret response_data, rest)
      else
        let response_data := response_data ++ chunk in
        if has_newline chunk then (ret response_data, rest)
        else recv_loop rest response_data
  end.

(** From the received bytes to the result: decoding and classification. *)
Definition classify (cd : codec) (command : str) (parse_data : bool)
    (response_data : bytes) : M CommandResult :=
  text <- match decode_utf8 cd response_data with
          | Some t => ret t
          | None => raise UnicodeDecodeError
          end ;;
  let response_json := strip text in
  response <- match json_loads cd response_json with
              | Some v => ret v
              | None => raise JSONDecodeError
              end ;;
  success <- get response "Success" (PyBool false) ;;
  output <- get response "Result" (PyStr "") ;;
  error <- get response "Error" PyNone ;;
  if negb (truthy success) then
    ret (mkCommandResult false (PyStr "") NoData error)
  else
    data <- (if parse_data then _parse_output command output else ret NoData) ;;
    ret (mkCommandResult true output data PyNone).

(** The body of the [try] of [_execute], on the socket. *)
Definition execute_body (cd : codec) (command : str) (parse_data : bool)
    (s : Socket) : M CommandResult * Socket :=
  let request := PyDict [("Command", PyStr command); ("Parameters", PyDict [])] in
  let request_json := json_dumps cd request ++ String nl EmptyString in
  match sendall s (encode_utf8 cd request_json) with
  | (inl e, s1) => (raise e, s1)
  | (inr _, s1) =>
      match recv_loop (incoming s1) "" with
      | (inl e, rest) => (raise e, with_incoming rest s1)
      | (inr response_data, rest) =>
          (classify cd command parse_data response_data, with_incoming rest s1)
      end
  end.

(** The [except] clauses of [_execute], in their order. *)
Definition execute_handler (e : exn) : exn :=
  match e with
  | socket_timeout => ConnectionError "Command timeout"
  | JSONDecodeError => CommandError "Invalid JSON response"
  | _ => CommandError "Command execution failed"
  end.

Definition _execute (cd : codec) (command : str) (parse_data : bool)
    (c : OpenSimClient) : M CommandResult * OpenSimClient :=
  match socket c with
  | None => (raise (ConnectionError "Not connected to server"), c)
  | Some s =>
      match execute_body cd command parse_data s with
      | (inl e, s') => (raise (execute_handler e), set_socket (Some s') c)
      | (inr r, s') => (ret r, set_socket (Some s') c)
      end
  end.

Definition bytes_sent (c : OpenSimClient) : bytes :=
  match socket c with
  | Some s => sent s
  | None => ""
  end.

(** [OpenSimClient(host, port, timeout)] with the defaults of [__init__]. *)
Definition new_client (host : option str) (port : option Z) (timeout : option pyfloat)
  : OpenSimClient :=
  mkClient (match host with Some h => h | None => "127.0.0.1" end)
           (match port with Some p => p | None => 9500%Z end)
           (match timeout with Some t => t | None => (30 # 1)%Q end)
           None.

(** [CommandResult.__bool__] *)
Definition CommandResult_bool (r : CommandResult) : bool := success r.

(** [with client: body]: [__enter__] connects, [__exit__] disconnects on
    every way out of the body and lets its exception through; when
    [__enter__] raises the body and [__exit__] do not run. *)
Definition with_client {A} (net : network) (c : OpenSimClient)
    (body : OpenSimClient -> M A * OpenSimClient) : M A * OpenSimClient :=
  match connect net c with
  | (inl e, c1) => (raise e, c1)
  | (inr _, c1) => let (r, c2) := body c1 in (r, disconnect c2)
  end.

Definition show_users (cd : codec) (full : bool) (c : OpenSimClient)
  : M CommandResult * OpenSimClient :=
  let cmd := if full then "show users full" else "show users" in
  _execute cd cmd true c.

Definition show_regions (cd : codec) (c : OpenSimClient)
  : M CommandResult * OpenSimClient :=
  _execute cd "show regions" true c.

(** [if category:] holds for a non-empty string. *)
Definition show_stats (cd : codec) (category : option str) (c : OpenSimClient)
  : M CommandResult * OpenSimClient :=
  let cmd := "show stats" in
  let cmd := match category with
             | Some cat => if is_empty cat then cmd else cmd ++ " " ++ cat
             | None => cmd
             end in
  _execute cd cmd true c.

Definition terrain_stats (cd : codec) (c : OpenSimClient)
  : M CommandResult * OpenSimClient :=
  _execute cd "terrain stats" true c.

(** The truth value of a payload: [None] and the empty list are false, a
    Stats object is true. *)
Definition parsed_truthy (d : parsed) : bool :=
  match d with
  | NoData => false
  | RegionList l => match l with [] => false | _ => true end
  | UserList l => match l with [] => false | _ => true end
  | StatsRecord _ => true
  end.

(** [result.data if result.data else dflt], after a call that may raise. *)
Definition data_or (dflt : parsed) (call : M CommandResult * OpenSimClient)
  : M parsed * OpenSimClient :=
  match call with
  | (inl e, c') => (raise e, c')
  | (inr result, c') =>
      (ret (if parsed_truthy (data result) then data result else dflt), c')
  end.

(** [get_users], [get_regions] (default: the empty list) and [get_stats]
    (default: [None]). *)
Definition get_users (cd : codec) (full : bool) (c : OpenSimClient)
  : M parsed * OpenSimClient :=
  data_or (UserList []) (show_users cd full c).

Definition get_regions (cd : codec) (c : OpenSimClient) : M parsed * OpenSimClient :=
  data_or (RegionList []) (show_regions cd c).

Definition get_stats (cd : codec) (category : option str) (c : OpenSimClient)
  : M parsed * OpenSimClient :=
  data_or NoData (show_stats cd category c).

End Client.

(** ** pymote.py *)

Module Pymote.

Record PymoteClient : Type := mkClient {
  host : str;
  port : Z;
  timeout : pyfloat;
  _socket : option Socket;
  _connected : bool
}.

Definition set_socket (s : option Socket) (c : PymoteClient) : PymoteClient :=
  mkClient (host c) (port c) (timeout c) s (_connected c).

Definition set_connected (b : bool) (c : PymoteClient) : PymoteClient :=
  mkClient (host c) (port c) (timeout c) (_socket c) b.

(** [except Exception as e: raise ConnectionError(...)] *)
Definition connect_handler (e : exn) : exn := ConnectionError "Failed to connect".

Definition connect (net : network) (c : PymoteClient) : M bool * PymoteClient :=
  match socket_socket net with
  | inl e => (raise (connect_handler e), c)
  | inr s =>
      let c1 := set_socket (Some s) c in
      match settimeout net (timeout c1) with
      | Some e => (raise (connect_handler e), c1)
      | None =>
          match socket_connect net (host c1) (port c1) with
          | Some e => (raise (connect_handler e), c1)
          | None => (ret true, set_connected true c1)
          end
      end
  end.

Definition disconnect (c : PymoteClient) : PymoteClient :=
  match _socket c with
  | Some _ => set_connected false (set_socket None c)
  | None => c
  end.

Definition is_connected (c : PymoteClient) : bool := _connected c.

(** The receive loop: a zero-length read raises ConnectionError. *)
Fixpoint recv_loop (events : list recv_event) (response_data : bytes)
  : M bytes * list recv_event :=
  match events with
  | [] => (raise socket_timeout, [])
  | RecvRaises e :: rest => (raise e, rest)
  | Recv chunk :: rest =>
      if is_empty chunk then (raise (ConnectionError "Connection closed by server"), rest)
      else
        let response_data := response_data ++ chunk in
        if has_newline chunk then (ret response_data, rest)
        else recv_loop rest response_data
  end.

(** From the received bytes to the text of the result. *)
Definition classify (cd : codec) (response_data : bytes) : M pyval :=
  text <- match decode_utf8 cd response_data with
          | Some t => ret t
          | None => raise UnicodeDecodeError
          end ;;
  response <- match json_loads cd text with
              | Some v => ret v
              | None => raise JSONDecodeError
              end ;;
  success <- get response "Success" (PyBool false) ;;
  if negb (truthy success) then
    error <- get response "Error" (PyStr "Unknown error") ;;
    raise (CommandError "Command failed")
  else get response "Result" (PyStr "").

(** [parameters or {}] *)
Definition parameters_or_empty (parameters : option (list (str * str))) : pyval :=
  match parameters with
  | Some (p :: ps) => PyDict (map (fun kv => (fst kv, PyStr (snd kv))) (p :: ps))
  | _ => PyDict []
  end.

(** The body of the [try] of [_execute_command], on the socket. *)
Definition execute_body (cd : codec) (request : pyval) (s : Socket) : M pyval * Socket :=
  let request_json := json_dumps cd request ++ String nl EmptyString in
  match sendall s (encode_utf8 cd request_json) with
  | (inl e, s1) => (raise e, s1)
  | (inr _, s1) =>
      match recv_loop (incoming s1) "" with
      | (inl e, rest) => (raise e, with_incoming rest s1)
      | (inr response_data, rest) =>
          (classify cd response_data, with_incoming rest s1)
      end
  end.

(** The [except] clauses of [_execute_command], in their order; the last
    one lets ConnectionError and CommandError through. *)
Definition execute_handler (e : exn) : exn :=
  match e with
  | JSONDecodeError => CommandError "Invalid response from server"
  | socket_timeout => ConnectionError "Command timeout"
  | ConnectionError _ | CommandError _ => e
  | _ => CommandError "Command execution error"
  end.

Definition _execute_command (cd : codec) (command : str)
    (parameters : option (list (str * str))) (c : PymoteClient)
  : M pyval * PymoteClient :=
  match _connected c, _socket c with
  | true, Some s =>
      let request := PyDict [("Command", PyStr command);
                             ("Parameters", parameters_or_empty parameters)] in
      match execute_body cd request s with
      | (inl e, s') => (raise (execute_handler e), set_socket (Some s') c)
      | (inr r, s') => (ret r, set_socket (Some s') c)
      end
  | _, _ => (raise (ConnectionError "Not connected to server"), c)
  end.

Definition bytes_sent (c : PymoteClient) : bytes :=
  match _socket c with
  | Some s => sent s
  | None => ""
  end.

(** [PymoteClient(host, port)] with the default timeout of [__init__]. *)
Definition new_client (host : str) (port : Z) : PymoteClient :=
  mkClient host port (30 # 1)%Q None false.

(** [with client: body], as for the other client. *)
Definition with_client {A} (net : network) (c : PymoteClient)
    (body : PymoteClient -> M A * PymoteClient) : M A * PymoteClient :=
  match connect net c with
  | (inl e, c1) => (raise e, c1)
  | (inr _, c1) => let (r, c2) := body c1 in (r, disconnect c2)
  end.

(** [quick_command(command, host, port)] *)
Definition quick_command (net : network) (cd : codec) (command : str)
    (host : str) (port : Z) : M pyval * PymoteClient :=
  with_client net (new_client host port)
    (fun client => _execute_command cd command None client).

End Pymote.

(** * Vocabulary of the statements *)

Fixpoint all_digits (s : str) : bool :=
  match s with
  | EmptyString => true
  | String c s' => isdigit c && all_digits s'
  end.

(** [s] does not start with a digit. *)
Definition no_digit_head (s : str) : bool :=
  match s with
  | EmptyString => true
  | String c _ => negb (isdigit c)
  end.

(** The shape of a group of [NUM]: digits, or digits, a dot and digits. *)
Inductive number_shape : str -> Prop :=
| shape_int d :
    all_digits d = true -> is_empty d = false -> number_shape d
| shape_frac d f :
    all_digits d = true -> is_empty d = false -> all_digits f = true ->
    number_shape (d ++ "." ++ f).

Definition raises_only {A} (P : exn -> bool) (m : M A) : Prop :=
  match m with
  | inl e => P e = true
  | inr _ => True
  end.


(** The table of the region example. *)
Definition regions_header : str := "Region Name  Region UUID  Location  Size  Port".
Definition regions_alpha : str := "Alpha  1111-...  1000,1000  256x256  9000".
Definition regions_abc : str := "Alpha  1111-...  abc  256x256  9000".

(** [output] has the line [line]. *)
Definition has_line (output line : str) : Prop := In line (lines output).

(** The guards of the first three branches of [parse_stats], on a raw line. *)
Definition fps_rule (line : str) : bool :=
  let low := lower (strip line) in
  contains "fps" low && negb (contains "physics" low).

Definition physics_fps_rule (line : str) : bool :=
  contains "physics fps" (lower (strip line)).

Definition agents_rule (line : str) : bool :=
  let low := lower (strip line) in
  contains "agents" low && negb (contains "child" low).

(** The statistics example read for every input that has the two lines. *)
Definition stats_fps_on_any_input : Prop :=
  forall output,
    has_line output "Physics FPS: 54.2" -> has_line output "FPS: 55.0" ->
    exists stats, parse_stats output = inr stats
                  /\ physics_fps stats = Some (271 # 5)%Q
                  /\ fps stats = Some (55 # 1)%Q.

Definition stats_agents_on_any_input : Prop :=
  forall output,
    has_line output "Child Agents: 3" -> has_line output "Agents: 10" ->
    exists stats, parse_stats output = inr stats /\ agents stats = Some 10%Z.

Definition later_fps_output : str :=
  "Physics FPS: 54.2" ++ String nl ("FPS: 55.0" ++ String nl "FPS: 60.0").

Definition later_agents_output : str :=
  "Child Agents: 3" ++ String nl ("Agents: 10" ++ String nl "Agents: 11").

(** The position of a User read off the pattern whatever the number of
    columns of the line. *)
Definition position_whatever_the_columns : Prop :=
  forall line u a b c,
    users_step [] line = inr [u] ->
    search_position line = Some (a, b, c) ->
    exists x y z, float a = inr x /\ float b = inr y /\ float c = inr z
                  /\ position u = Some (x, y, z).

(** A read that neither ends the stream nor carries a newline. *)
Definition open_chunk (chunk : bytes) : bool :=
  negb (is_empty chunk) && negb (has_newline chunk).

(** The bytes of a sequence of reads, one after the other. *)
Definition joined (chunks : list bytes) : bytes := fold_right append "" chunks.

(** The peer closes before any newline: reads without a newline, then a
    zero-length read. *)
Definition closes_before_newline (chunks : list bytes) (rest : list recv_event)
  : list recv_event :=
  (map Recv chunks ++ Recv "" :: rest)%list.

Definition dq : str := String "034"%char EmptyString.

(** The response frame [{"Success": false}] followed by a newline. *)
Definition failure_frame : str := "{" ++ dq ++ "Success" ++ dq ++ ": false}".
Definition failure_chunk : bytes := failure_frame ++ String nl EmptyString.

(** A codec that knows this one frame, for running the clients on it. *)
Definition one_frame_codec : codec :=
  mkCodec (fun _ => "{}") (fun s => s) (fun b => Some b)
          (fun s => if String.eqb s failure_frame
                    then Some (PyDict [("Success", PyBool false)]) else None).

Definition closed_socket : Socket := mkSocket None [Recv ""] "".
Definition failing_socket : Socket := mkSocket None [Recv failure_chunk] "".

(** A network where the socket is created and the peer refuses the connection. *)
Definition refusing_network : network :=
  mkNetwork (inr (mkSocket None [] "")) (fun _ => None) (fun _ _ => Some socket_error).

(** [n] times the digit 1. *)
Fixpoint ones (n : nat) : str :=
  match n with
  | 0 => EmptyString
  | Datatypes.S n' => String "1" (ones n')
  end.

(** The first run of digits of the line, the one the integer rules of
    [parse_stats] hand to [int()], is within the limit of [int()]. *)
Definition within_digit_limit (line : str) : bool :=
  match search_int (strip line) with
  | Some g => String.length g <=? int_max_str_digits
  | None => true
  end.

(** An agents line whose number has one digit more than [int()] takes. *)
Definition long_agents_line : str := "Agents: " ++ ones 4301.

(** A network where the socket is created, the peer refuses the connection,
    and the socket, never connected, refuses to send. *)
Definition unconnected_socket : Socket := mkSocket (Some socket_error) [] "".
Definition refused_network : network :=
  mkNetwork (inr unconnected_socket) (fun _ => None) (fun _ _ => Some socket_error).

(** ** Vocabulary of the further properties *)

(** [s] has no whitespace character. *)
Fixpoint no_space (s : str) : bool :=
  match s with
  | EmptyString => true
  | String c s' => negb (isspace c) && no_space s'
  end.

(** A column of [split]: non-empty and free of whitespace. *)
Definition is_token (s : str) : Prop := is_empty s = false /\ no_space s = true.

(** What one line contributes to the result of a list parser. *)
Definition line_regions (line : str) : list Region :=
  match regions_step [] line with
  | inr regions => regions
  | inl _ => []
  end.

Definition line_users (line : str) : list User :=
  match users_step [] line with
  | inr users => users
  | inl _ => []
  end.

(** The line has one of the keywords of [parse_stats]. *)
Definition stats_keyword (line : str) : bool :=
  let low := lower (strip line) in
  contains "fps" low || contains "agents" low || contains "objects" low
  || contains "scripts" low || contains "memory" low.

(** The line has one of the keywords of [parse_terrain_stats]. *)
Definition terrain_keyword (line : str) : bool :=
  let low := lower line in
  contains "min" low || contains "max" low || contains "avg" low
  || contains "average" low.

(** The request frame of client.py for a command. *)
Definition client_request (cd : codec) (command : str) : bytes :=
  encode_utf8 cd
    (json_dumps cd (PyDict [("Command", PyStr command); ("Parameters", PyDict [])])
     ++ String nl EmptyString).

(** The request frame of pymote.py for a command and its parameters. *)
Definition pymote_request (cd : codec) (command : str)
    (parameters : option (list (str * str))) : bytes :=
  encode_utf8 cd
    (json_dumps cd (PyDict [("Command", PyStr command);
                            ("Parameters", Pymote.parameters_or_empty parameters)])
     ++ String nl EmptyString).

(** Reads without a newline, then a read that carries one. *)
Definition frame_then (chunks : list bytes) (last : bytes) (rest : list recv_event)
  : list recv_event :=
  (map Recv chunks ++ Recv last :: rest)%list.

(** Reads without a newline, then a call of [recv] that raises. *)
Definition raises_then (chunks : list bytes) (e : exn) (rest : list recv_event)
  : list recv_event :=
  (map Recv chunks ++ RecvRaises e :: rest)%list.

(** The socket after a request was written and the reads up to [rest] consumed. *)
Definition socket_after (s : Socket) (request : bytes) (rest : list recv_event) : Socket :=
  mkSocket (sendall_raises s) rest (sent s ++ request).

(** The state that pymote.py keeps: connected only with a socket. *)
Definition pymote_well_formed (c : Pymote.PymoteClient) : Prop :=
  Pymote._connected c = true -> Pymote._socket c <> None.

(** A network where the socket is created and the peer accepts; the socket
    then behaves as [s]. *)
Definition accepting_network (s : Socket) : network :=
  mkNetwork (inr s) (fun _ => None) (fun _ _ => None).

(** The response frame [{"Success": true, "Result": "..."}] as a dict. *)
Definition success_response (result : str) : pyval :=
  PyDict [("Success", PyBool true); ("Result", PyStr result)].

(** A codec whose [json.loads] answers [response] on every text. *)
Definition constant_codec (response : pyval) : codec :=
  mkCodec (fun _ => "{}") (fun s => s) (fun b => Some b) (fun _ => Some response).

Definition one_line : bytes := "{}" ++ String nl EmptyString.

(** The three heights of the terrain parser are not negative. *)
Definition nonneg3 (h : pyfloat * pyfloat * pyfloat) : Prop :=
  let '(a, b, c) := h in (0 <= a)%Q /\ (0 <= b)%Q /\ (0 <= c)%Q.

(** The outcome of client.py once the response bytes are there. *)
Definition client_outcome (cd : codec) (command : str) (parse_data : bool)
    (response_data : bytes) : M Client.CommandResult :=
  match Client.classify cd command parse_data response_data with
  | inl e => inl (Client.execute_handler e)
  | inr r => inr r
  end.

(** The outcome of pymote.py once the response bytes are there. *)
Definition pymote_outcome (cd : codec) (response_data : bytes) : M pyval :=
  match Pymote.classify cd response_data with
  | inl e => inl (Pymote.execute_handler e)
  | inr v => inr v
  end.

(** A read that carries the end of a frame. *)
Definition closing_chunk (chunk : bytes) : bool :=
  negb (is_empty chunk) && has_newline chunk.

(** The only exceptions that the clients let out of [execute]. *)
Definition documented_error (e : exn) : Prop :=
  (exists msg, e = ConnectionError msg) \/ (exists msg, e = CommandError msg).

(** [d.get(key, default)] on the items of a dict. *)
Definition dict_get (d : list (str * pyval)) (key : str) (default : pyval) : pyval :=
  match assoc key d with
  | Some x => x
  | None => default
  end.

(** The value is not a JSON object. *)
Definition not_dict (v : pyval) : Prop := forall d, v <> PyDict d.

(** The first call of [connect] into the library that raises, and what it
    raises: the creation of the socket, [settimeout], or [connect]. *)
Definition connect_raises (net : network) (host : str) (port : Z) (timeout : pyfloat)
    (e0 : exn) : Prop :=
  socket_socket net = inl e0
  \/ (exists s, socket_socket net = inr s /\ settimeout net timeout = Some e0)
  \/ (exists s, socket_socket net = inr s /\ settimeout net timeout = None
                 /\ socket_connect net host port = Some e0).
(** *** Small checks of the model against the docstrings of the source *)

Example split_example :
  split "DefaultRegion   1234-5678  1000,1000	256x256 9000 " =
  ["DefaultRegion"; "1234-5678"; "1000,1000"; "256x256"; "9000"].
Proof. reflexivity. Qed.

Example int_examples :
  int "1000" = inr 1000%Z /\ int " -12 " = inr (-12)%Z /\ int "1_000" = inr 1000%Z
  /\ int "abc" = inl ValueError /\ int "" = inl ValueError /\ int "1__0" = inl ValueError
  /\ int "12a" = inl ValueError.
Proof. repeat split; reflexivity. Qed.

Example float_examples :
  float "54.2" = inr (271 # 5)%Q /\ float "55.0" = inr (55 # 1)%Q
  /\ float "128" = inr (128 # 1)%Q /\ float "130.5" = inr (261 # 2)%Q
  /\ float "7." = inr (7 # 1)%Q.
Proof. repeat split; reflexivity. Qed.

Example search_examples :
  search_number "Physics FPS: 54.2" = Some "54.2"
  /\ search_int "Active Scripts: 56 of 70" = Some "56"
  /\ search_position "John Doe DefaultRegion <128, 128.5,25>" = Some ("128", "128.5", "25")
  /\ search_position "<1,2> <3,4,5>" = Some ("3", "4", "5").
Proof. repeat split; reflexivity. Qed.


(** * Properties of the parsers *)

(** ** The loop combinator *)

Lemma for_each_app {S A} (body : S -> A -> M S) (xs ys : list A) (s : S) :
  for_each body (xs ++ ys)%list s = (s' <- for_each body xs s ;; for_each body ys s').
Proof.
  revert s; induction xs as [|x xs IH]; intro s; simpl; [reflexivity|].
  destruct (body s x) as [e|s1]; simpl; [reflexivity|apply IH].
Qed.

(** A line that leaves the accumulator alone can be removed from the input. *)
Lemma for_each_skip {S A} (body : S -> A -> M S) (xs ys : list A) (x : A) (s : S) :
  (forall s0, body s0 x = ret s0) ->
  for_each body (xs ++ x :: ys)%list s = for_each body (xs ++ ys)%list s.
Proof.
  intro Hx. rewrite !for_each_app.
  destruct (for_each body xs s) as [e|s1]; simpl; [reflexivity|].
  rewrite Hx; reflexivity.
Qed.

(** A loop whose body never raises never raises. *)
Lemma for_each_total {S A} (body : S -> A -> M S) (P : S -> nat -> Prop) :
  (forall s n x, P s n -> exists s', body s x = inr s' /\ P s' (1 + n)) ->
  forall xs s n, P s n ->
    exists s', for_each body xs s = inr s' /\ P s' (length xs + n).
Proof.
  intros Hbody xs; induction xs as [|x xs IH]; intros s n Hs; simpl.
  - exists s; split; [reflexivity|assumption].
  - destruct (Hbody s n x Hs) as [s1 [E1 P1]]. rewrite E1; simpl.
    destruct (IH s1 (1 + n) P1) as [s2 [E2 P2]].
    exists s2; split; [assumption|].
    replace (Datatypes.S (length xs + n)) with (length xs + (1 + n)) by lia.
    assumption.
Qed.

(** ** Digits *)



Ltac each_char c :=
  destruct c as [[] [] [] [] [] [] [] []]; try reflexivity; try discriminate.

Lemma digit_not_space c : isdigit c = true -> isspace_literal c = false.
Proof. each_char c. Qed.

Lemma digit_not_sign c :
  isdigit c = true ->
  Ascii.eqb c "+" = false /\ Ascii.eqb c "-" = false /\ Ascii.eqb c "_" = false
  /\ Ascii.eqb c "." = false.
Proof. each_char c; intros _; repeat split. Qed.

Lemma span_digits_spec s d r :
  span_digits s = (d, r) ->
  s = d ++ r /\ all_digits d = true /\ no_digit_head r = true.
Proof.
  revert d r; induction s as [|c s IH]; intros d r; simpl.
  - intros [= <- <-]; repeat split.
  - destruct (isdigit c) eqn:Ec.
    + destruct (span_digits s) as [d1 r1]. intros [= <- <-].
      destruct (IH d1 r1 eq_refl) as [-> [Hd Hr]].
      simpl; rewrite Ec, Hd; repeat split; assumption.
    + intros [= <- <-]; simpl; rewrite Ec; repeat split.
Qed.

Lemma span_digits_app d r :
  all_digits d = true -> no_digit_head r = true -> span_digits (d ++ r) = (d, r).
Proof.
  intros Hd Hr; induction d as [|c d IH]; simpl in *.
  - destruct r as [|c r]; [reflexivity|]. simpl in *.
    destruct (isdigit c); [discriminate|reflexivity].
  - apply andb_prop in Hd as [Hc Hd]. rewrite Hc, (IH Hd); reflexivity.
Qed.

Lemma span_digits_all d : all_digits d = true -> span_digits d = (d, "").
Proof.
  induction d as [|c d IH]; simpl; [reflexivity|].
  intro H; apply andb_prop in H as [Hc Hd]. rewrite Hc, (IH Hd); reflexivity.
Qed.

Lemma all_digits_lstrip d :
  all_digits d = true -> lstrip_by isspace_literal d = d.
Proof.
  destruct d as [|c d]; simpl; [reflexivity|].
  intro H; apply andb_prop in H as [Hc _].
  rewrite (digit_not_space c Hc); reflexivity.
Qed.

Lemma all_digits_rstrip d :
  all_digits d = true -> rstrip_by isspace_literal d = d.
Proof.
  induction d as [|c d IH]; simpl; [reflexivity|].
  intro H; apply andb_prop in H as [Hc Hd]. rewrite (IH Hd).
  destruct d; [rewrite (digit_not_space c Hc)|]; reflexivity.
Qed.

Lemma int_digits_all_digits d acc :
  all_digits d = true -> int_digits acc d = Some (digits_value acc d).
Proof.
  revert acc; induction d as [|c d IH]; intros acc; simpl; [reflexivity|].
  intro H; apply andb_prop in H as [Hc Hd]. rewrite Hc. apply IH, Hd.
Qed.

Lemma count_digits_all d : all_digits d = true -> count_digits d = String.length d.
Proof.
  induction d as [|c d IH]; simpl; [reflexivity|].
  intro H; apply andb_prop in H as [Hc Hd]. rewrite Hc, (IH Hd). reflexivity.
Qed.

(** [int()] accepts every non-empty string of digits within its limit, and
    raises ValueError on a string of digits beyond it. *)
Lemma int_all_digits d :
  all_digits d = true -> is_empty d = false ->
  String.length d <= int_max_str_digits ->
  int d = inr (digits_value 0 d).
Proof.
  intros Hd Hne Hlen. unfold int.
  rewrite (all_digits_lstrip d Hd), (all_digits_rstrip d Hd).
  rewrite (count_digits_all d Hd).
  apply Nat.ltb_ge in Hlen. rewrite Hlen.
  destruct d as [|c d]; [discriminate|].
  simpl in Hd; apply andb_prop in Hd as [Hc Hd].
  assert (Hu : int_unsigned (String c d) = Some (digits_value 0 (String c d))).
  { simpl. rewrite Hc. rewrite (int_digits_all_digits d _ Hd). reflexivity. }
  destruct (digit_not_sign c Hc) as [Hp [Hm _]].
  assert (Hsel : match String c d with
                 | String "+" u => int_unsigned u
                 | String "-" u => option_map Z.opp (int_unsigned u)
                 | _ => int_unsigned (String c d)
                 end = int_unsigned (String c d)).
  { clear - Hp Hm. revert Hp Hm.
    destruct c as [[] [] [] [] [] [] [] []]; intros Hp Hm;
      solve [reflexivity | discriminate]. }
  rewrite Hsel, Hu. reflexivity.
Qed.

(** ** The patterns capture what the conversions accept *)

Lemma search_sound {G} (m : str -> option (G * str)) s g :
  search m s = Some g -> exists s' r, m s' = Some (g, r).
Proof.
  induction s as [|c s IH]; simpl.
  - destruct (m "") as [[g' r]|] eqn:E; [|discriminate].
    intros [= ->]; eauto.
  - destruct (m (String c s)) as [[g' r]|] eqn:E; [|exact IH].
    intros [= ->]; eauto.
Qed.

(** The group of [(\d+)] is a non-empty string of digits. *)
Lemma match_int_digits s g r :
  match_int s = Some (g, r) -> all_digits g = true /\ is_empty g = false.
Proof.
  unfold match_int. destruct (span_digits s) as [d r0] eqn:E.
  destruct (is_empty d) eqn:Ed; [discriminate|]. intros [= <- <-].
  destruct (span_digits_spec _ _ _ E) as [_ [Hd _]]. split; assumption.
Qed.

Lemma int_too_long d :
  all_digits d = true -> int_max_str_digits < String.length d ->
  int d = inl ValueError.
Proof.
  intros Hd Hlen. unfold int.
  rewrite (all_digits_lstrip d Hd), (all_digits_rstrip d Hd).
  rewrite (count_digits_all d Hd).
  apply Nat.ltb_lt in Hlen. rewrite Hlen. reflexivity.
Qed.

Lemma int_raises s e : int s = inl e -> e = ValueError.
Proof.
  unfold int.
  destruct (int_max_str_digits <? _); [intros [= <-]; reflexivity|].
  match goal with
  | |- match ?r with Some _ => _ | None => _ end = _ -> _ => destruct r
  end; [discriminate|intros [= <-]; reflexivity].
Qed.

Lemma search_int_convertible line g :
  search_int line = Some g -> String.length g <= int_max_str_digits ->
  int g = inr (digits_value 0 g).
Proof.
  intros H Hlen. destruct (search_sound _ _ _ H) as [s' [r Hm]].
  destruct (match_int_digits _ _ _ Hm) as [Hd Hne].
  apply int_all_digits; assumption.
Qed.

Lemma search_int_digits line g : search_int line = Some g -> all_digits g = true.
Proof.
  intro H. destruct (search_sound _ _ _ H) as [s' [r Hm]].
  apply (match_int_digits _ _ _ Hm).
Qed.


Lemma match_number_shape s g r : match_number s = Some (g, r) -> number_shape g.
Proof.
  unfold match_number. destruct (span_digits s) as [d r0] eqn:E.
  destruct (is_empty d) eqn:Ed; [discriminate|].
  destruct (span_digits_spec _ _ _ E) as [_ [Hd _]].
  assert (Hint : Some (d, r0) = Some (g, r) -> number_shape g).
  { intros [= <- <-]. constructor; assumption. }
  destruct r0 as [|c r1]; [exact Hint|].
  destruct (Ascii.eqb_spec c ".") as [->|Hc].
  - destruct (span_digits r1) as [d2 r2] eqn:E2. intros [= <- <-].
    destruct (span_digits_spec _ _ _ E2) as [_ [Hd2 _]].
    constructor; assumption.
  - revert Hint. clear - Hc.
    destruct c as [[] [] [] [] [] [] [] []]; try (intros Hint; exact Hint).
    exfalso; apply Hc; reflexivity.
Qed.

(** [float()] accepts every group of [NUM]. *)
Lemma float_number_shape g : number_shape g -> exists q, float g = inr q.
Proof.
  intros [d Hd Hne | d f Hd Hne Hf]; unfold float.
  - rewrite (span_digits_all d Hd), Hne. eauto.
  - rewrite (span_digits_app d ("." ++ f) Hd eq_refl), Hne. simpl.
    rewrite (span_digits_all f Hf). simpl. eauto.
Qed.

Lemma search_number_convertible line g :
  search_number line = Some g -> exists q, float g = inr q.
Proof.
  intro H. destruct (search_sound _ _ _ H) as [s' [r Hm]].
  apply float_number_shape, (match_number_shape _ _ _ Hm).
Qed.

Lemma match_position_shape s a b c r :
  match_position s = Some ((a, b, c), r) ->
  number_shape a /\ number_shape b /\ number_shape c.
Proof.
  unfold match_position, obind.
  destruct (expect "<" s) as [s1|]; [|discriminate].
  destruct (match_number s1) as [[a' s2]|] eqn:Ea; [|discriminate].
  destruct (expect "," s2) as [s3|]; [|discriminate].
  destruct (match_number (skip_spaces s3)) as [[b' s4]|] eqn:Eb; [|discriminate].
  destruct (expect "," s4) as [s5|]; [|discriminate].
  destruct (match_number (skip_spaces s5)) as [[c' s6]|] eqn:Ec; [|discriminate].
  destruct (expect ">" s6) as [s7|]; [|discriminate].
  intros [= <- <- <- <-].
  repeat split; eapply match_number_shape; eassumption.
Qed.

Lemma search_position_convertible line a b c :
  search_position line = Some (a, b, c) ->
  exists x y z, float a = inr x /\ float b = inr y /\ float c = inr z.
Proof.
  intro H. destruct (search_sound _ _ _ H) as [s' [r Hm]].
  destruct (match_position_shape _ _ _ _ _ Hm) as [Ha [Hb Hc]].
  destruct (float_number_shape a Ha) as [x Hx].
  destruct (float_number_shape b Hb) as [y Hy].
  destruct (float_number_shape c Hc) as [z Hz].
  exists x, y, z; auto.
Qed.

(** ** What the bodies of the [try] blocks can raise *)


Lemma raises_only_ret {A} P (a : A) : raises_only P (ret a).
Proof. exact I. Qed.

Lemma raises_only_bind {A B} P (m : M A) (k : A -> M B) :
  raises_only P m -> (forall a, raises_only P (k a)) -> raises_only P (bind m k).
Proof. destruct m as [e|a]; simpl; auto. Qed.

Lemma raises_only_index {A} (xs : list A) i : raises_only caught (index xs i).
Proof. unfold index; destruct (nth_error xs i); exact I || reflexivity. Qed.

Lemma raises_only_int s : raises_only caught (int s).
Proof.
  unfold int.
  destruct (int_max_str_digits <? _); [reflexivity|].
  match goal with
  | |- raises_only _ (match ?r with Some _ => _ | None => _ end) => destruct r
  end; exact I || reflexivity.
Qed.

Lemma raises_only_float s : raises_only caught (float s).
Proof.
  unfold float. destruct (span_digits s) as [ip r].
  destruct (is_empty ip); [reflexivity|].
  destruct r as [|c fr]; [exact I|].
  destruct (span_digits fr) as [fp r'].
  destruct c as [[] [] [] [] [] [] [] []]; try reflexivity.
  simpl. destruct (is_empty r'); exact I || reflexivity.
Qed.

Ltac raises_only_tac :=
  repeat first
    [ exact I
    | apply raises_only_ret
    | apply raises_only_index
    | apply raises_only_int
    | apply raises_only_float
    | apply raises_only_bind; [|intros]
    | match goal with
      | |- raises_only _ (if ?b then _ else _) => destruct b
      | |- raises_only _ (match ?x with (_, _) => _ end) => destruct x
      | |- raises_only _ (match ?x with Some _ => _ | None => _ end) => destruct x
      end ].

Lemma int_pair_caught parts i sep dflt : raises_only caught (int_pair parts i sep dflt).
Proof. unfold int_pair. raises_only_tac. Qed.

Lemma region_of_parts_caught parts : raises_only caught (region_of_parts parts).
Proof.
  unfold region_of_parts.
  repeat first [ apply int_pair_caught | progress raises_only_tac ].
Qed.

Lemma user_of_parts_caught parts line : raises_only caught (user_of_parts parts line).
Proof. unfold user_of_parts, position_of_line. raises_only_tac. Qed.

(** ** One iteration of each loop *)

(** A line either leaves the list of regions alone or appends one Region. *)
Lemma regions_step_cases regions line :
  regions_step regions line = inr regions
  \/ exists r, regions_step regions line = inr (regions ++ [r])%list
               /\ region_of_parts (split line) = inr r.
Proof.
  unfold regions_step.
  destruct (is_empty (strip line) || contains "Region Name" line || contains "---" line);
    [left; reflexivity|].
  destruct (length (split line) <? 3); [left; reflexivity|].
  pose proof (region_of_parts_caught (split line)) as Hc.
  destruct (region_of_parts (split line)) as [e|r]; simpl in Hc.
  - rewrite Hc. left; reflexivity.
  - right. exists r. split; reflexivity.
Qed.

Lemma users_step_cases users line :
  users_step users line = inr users
  \/ exists u, users_step users line = inr (users ++ [u])%list
               /\ user_of_parts (split line) line = inr u.
Proof.
  unfold users_step.
  destruct (is_empty (strip line) || contains "Name" line || contains "---" line);
    [left; reflexivity|].
  destruct (length (split line) <? 2); [left; reflexivity|].
  pose proof (user_of_parts_caught (split line) line) as Hc.
  destruct (user_of_parts (split line) line) as [e|u]; simpl in Hc.
  - rewrite Hc. left; reflexivity.
  - right. exists u. split; reflexivity.
Qed.

Lemma assign_int_total searchf setf line stats :
  (forall g, searchf line = Some g -> exists v, int g = inr v) ->
  assign searchf int setf line stats = inr stats
  \/ exists v, assign searchf int setf line stats = inr (setf v stats).
Proof.
  intro H. unfold assign. destruct (searchf line) as [g|]; [|left; reflexivity].
  destruct (H g eq_refl) as [v ->]. right; exists v; reflexivity.
Qed.

Lemma assign_float_total setf line stats :
  assign search_number float setf line stats = inr stats
  \/ exists v, assign search_number float setf line stats = inr (setf v stats).
Proof.
  unfold assign. destruct (search_number line) as [g|] eqn:E; [|left; reflexivity].
  destruct (search_number_convertible _ _ E) as [v ->]. right; exists v; reflexivity.
Qed.

Lemma assign_agents_total setf line stats :
  (forall g, search_int line = Some g -> String.length g <= int_max_str_digits) ->
  assign search_int int setf line stats = inr stats
  \/ exists v, assign search_int int setf line stats = inr (setf v stats).
Proof.
  intro Hlim. apply assign_int_total. intros g Hg.
  rewrite (search_int_convertible _ _ Hg (Hlim g Hg)). eauto.
Qed.

Lemma within_digit_limit_spec line g :
  within_digit_limit line = true -> search_int (strip line) = Some g ->
  String.length g <= int_max_str_digits.
Proof.
  unfold within_digit_limit. intros H Hg. rewrite Hg in H.
  apply Nat.leb_le. exact H.
Qed.

(** A line whose first number is within the limit of [int()] does not make
    [parse_stats] raise. *)
Lemma stats_step_total stats line :
  within_digit_limit line = true -> exists stats', stats_step stats line = inr stats'.
Proof.
  intro Hlim. unfold stats_step.
  repeat match goal with
         | |- exists _, (if ?b then _ else _) = _ => destruct b
         end;
    try (eexists; reflexivity).
  all: match goal with
       | |- exists _, assign search_number float ?f ?l ?s = _ =>
           destruct (assign_float_total f l s) as [E|[v E]]; rewrite E; eauto
       | |- exists _, assign search_int int ?f ?l ?s = _ =>
           destruct (assign_agents_total f l s
                       (fun g Hg => within_digit_limit_spec line g Hlim Hg))
             as [E|[v E]]; rewrite E; eauto
       end.
Qed.

Lemma assign_int_raises searchf setf line stats e :
  assign searchf int setf line stats = inl e -> e = ValueError.
Proof.
  unfold assign, bind. destruct (searchf line) as [g|]; [|discriminate].
  destruct (int g) as [e0|v] eqn:E; [|discriminate].
  intros [= <-]. apply (int_raises _ _ E).
Qed.

Lemma assign_float_raises setf line stats e :
  assign search_number float setf line stats = inl e -> e = ValueError.
Proof.
  destruct (assign_float_total setf line stats) as [E|[v E]]; rewrite E; discriminate.
Qed.

(** The only exception that a line can make [parse_stats] raise is the
    ValueError of [int()]. *)
Lemma stats_step_raises stats line e : stats_step stats line = inl e -> e = ValueError.
Proof.
  unfold stats_step.
  repeat match goal with
         | |- (if ?b then _ else _) = _ -> _ => destruct b
         end;
    try discriminate;
    first [apply assign_float_raises | apply assign_int_raises].
Qed.

Lemma parse_regions_total output :
  exists regions, parse_regions output = inr regions
                  /\ length regions <= length (lines output).
Proof.
  destruct (for_each_total regions_step (fun rs n => length rs <= n)) with
    (xs := lines output) (s := @nil Region) (n := 0) as [rs [E H]].
  - intros s n x Hs. destruct (regions_step_cases s x) as [E|[r [E _]]]; rewrite E.
    + eexists; split; [reflexivity|lia].
    + eexists; split; [reflexivity|]. rewrite length_app; simpl; lia.
  - simpl; lia.
  - exists rs. split; [exact E|lia].
Qed.

Lemma parse_users_total output :
  exists users, parse_users output = inr users
                /\ length users <= length (lines output).
Proof.
  destruct (for_each_total users_step (fun us n => length us <= n)) with
    (xs := lines output) (s := @nil User) (n := 0) as [us [E H]].
  - intros s n x Hs. destruct (users_step_cases s x) as [E|[u [E _]]]; rewrite E.
    + eexists; split; [reflexivity|lia].
    + eexists; split; [reflexivity|]. rewrite length_app; simpl; lia.
  - simpl; lia.
  - exists us. split; [exact E|lia].
Qed.

Lemma for_each_stats_total ls stats :
  Forall (fun line => within_digit_limit line = true) ls ->
  exists stats', for_each stats_step ls stats = inr stats'.
Proof.
  intro Hall; revert stats; induction Hall as [|l ls Hl _ IH]; intro stats; simpl.
  - eexists; reflexivity.
  - destruct (stats_step_total stats l Hl) as [s1 ->]. simpl. apply IH.
Qed.

Lemma for_each_stats_raises ls stats e :
  for_each stats_step ls stats = inl e -> e = ValueError.
Proof.
  revert stats; induction ls as [|l ls IH]; intro stats; simpl; [discriminate|].
  destruct (stats_step stats l) as [e0|s1] eqn:E; simpl.
  - intros [= <-]. apply (stats_step_raises _ _ _ E).
  - apply IH.
Qed.

Lemma parse_stats_total output :
  Forall (fun line => within_digit_limit line = true) (lines output) ->
  exists stats, parse_stats output = inr stats.
Proof. apply for_each_stats_total. Qed.

Lemma parse_stats_raises output e : parse_stats output = inl e -> e = ValueError.
Proof. apply for_each_stats_raises. Qed.

(** ** Lines that contribute a record *)

Lemma regions_step_contributes line r :
  regions_step [] line = inr [r] ->
  region_of_parts (split line) = inr r /\ 3 <= length (split line).
Proof.
  unfold regions_step.
  destruct (is_empty (strip line) || contains "Region Name" line || contains "---" line);
    [discriminate|].
  destruct (length (split line) <? 3) eqn:El; [discriminate|].
  apply Nat.ltb_ge in El.
  destruct (region_of_parts (split line)) as [e|r'].
  - destruct (caught e); discriminate.
  - simpl. intros [= ->]. split; [reflexivity|assumption].
Qed.

Lemma users_step_contributes line u :
  users_step [] line = inr [u] ->
  user_of_parts (split line) line = inr u /\ 2 <= length (split line).
Proof.
  unfold users_step.
  destruct (is_empty (strip line) || contains "Name" line || contains "---" line);
    [discriminate|].
  destruct (length (split line) <? 2) eqn:El; [discriminate|].
  apply Nat.ltb_ge in El.
  destruct (user_of_parts (split line) line) as [e|u'].
  - destruct (caught e); discriminate.
  - simpl. intros [= ->]. split; [reflexivity|assumption].
Qed.

Lemma region_of_parts_inv parts r :
  region_of_parts parts = inr r ->
  index parts 0 = inr (name r)
  /\ int_pair parts 2 "," (0, 0)%Z = inr (location r)
  /\ int_pair parts 3 "x" (256, 256)%Z = inr (size r).
Proof.
  unfold region_of_parts, bind.
  destruct (index parts 0) as [|n]; [discriminate|].
  destruct (if 1 <? length parts then index parts 1 else ret "") as [|u]; [discriminate|].
  destruct (int_pair parts 2 "," (0, 0)%Z) as [|[lx ly]]; [discriminate|].
  destruct (int_pair parts 3 "x" (256, 256)%Z) as [|[sx sy]]; [discriminate|].
  match goal with |- match ?p with inl _ => _ | inr _ => _ end = _ -> _ =>
    destruct p as [|p']; [discriminate|] end.
  intros [= <-]. repeat split.
Qed.

Lemma nth_error_lt {A} (xs : list A) i x : nth_error xs i = Some x -> (i <? length xs) = true.
Proof.
  intro H. apply Nat.ltb_lt. apply nth_error_Some. congruence.
Qed.

(** The column is there and splits into another number of parts: the default. *)
Lemma int_pair_default parts i sep dflt col :
  nth_error parts i = Some col -> length (split_on sep col) <> 2 ->
  int_pair parts i sep dflt = inr dflt.
Proof.
  intros Hc Hl. unfold int_pair, index. rewrite (nth_error_lt _ _ _ Hc), Hc. simpl.
  destruct (Nat.eqb_spec (length (split_on sep col)) 2); [contradiction|reflexivity].
Qed.

(** The column is there and splits into two parts: both are converted. *)
Lemma int_pair_two parts i sep dflt col a b :
  nth_error parts i = Some col -> split_on sep col = [a; b] ->
  int_pair parts i sep dflt = (x <- int a ;; y <- int b ;; ret (x, y)).
Proof.
  intros Hc Hs. unfold int_pair, index. rewrite (nth_error_lt _ _ _ Hc), Hc. simpl.
  rewrite Hs. simpl. destruct (int a); reflexivity.
Qed.

Lemma length_two {A} (xs : list A) : length xs = 2 -> exists a b, xs = [a; b].
Proof.
  destruct xs as [|a [|b [|c xs]]]; try discriminate. eauto.
Qed.

(** ** The region parser *)

(** C3. On the header line followed by the line of region Alpha the region
    parser returns exactly one Region, with name "Alpha", location
    (1000,1000), size (256,256) and port 9000; a data line whose location
    column is the token "abc" yields location (0,0); and a line that splits
    into fewer than 3 whitespace columns contributes no Region. *)
Theorem parse_regions_table :
  parse_regions (regions_header ++ String nl regions_alpha)
    = inr [mkRegion "Alpha" "1111-..." 1000 1000 256 256 None (Some 9000%Z)]
  /\ parse_regions regions_abc
    = inr [mkRegion "Alpha" "1111-..." 0 0 256 256 None (Some 9000%Z)]
  /\ (forall line r,
        nth_error (split line) 2 = Some "abc" ->
        regions_step [] line = inr [r] -> location r = (0, 0)%Z)
  /\ (forall line regions,
        length (split line) < 3 -> regions_step regions line = inr regions)
  /\ (forall output before after line,
        lines output = (before ++ line :: after)%list ->
        length (split line) < 3 ->
        parse_regions output = for_each regions_step (before ++ after)%list []).
Proof.
  split; [reflexivity|]. split; [reflexivity|].
  assert (Hshort : forall line regions,
             length (split line) < 3 -> regions_step regions line = inr regions).
  { intros line regions Hl. unfold regions_step.
    apply Nat.ltb_lt in Hl. rewrite Hl.
    destruct (is_empty (strip line) || contains "Region Name" line
              || contains "---" line); reflexivity. }
  split; [|split; [exact Hshort|]].
  - intros line r Hcol Hstep.
    destruct (regions_step_contributes _ _ Hstep) as [Hr _].
    destruct (region_of_parts_inv _ _ Hr) as [_ [Hloc _]].
    rewrite (int_pair_default _ 2 "," (0, 0)%Z "abc" Hcol) in Hloc.
    + congruence.
    + simpl; discriminate.
  - intros output before after line Hlines Hl.
    unfold parse_regions. rewrite Hlines.
    apply for_each_skip. intro s0. apply Hshort, Hl.
Qed.

Lemma parse_regions_table_witness :
  location (mkRegion "Alpha" "1111-..." 0 0 256 256 None (Some 9000%Z)) = (0, 0)%Z
  /\ regions_step [] "Alpha  1111-..." = inr []
  /\ parse_regions ("Alpha  1111-..." ++ String nl regions_alpha)
     = for_each regions_step [regions_alpha] [].
Proof.
  destruct parse_regions_table as [_ [_ [Habc [Hshort Hout]]]].
  split; [|split].
  - apply (Habc regions_abc); reflexivity.
  - apply Hshort. simpl. lia.
  - apply (Hout _ [] [regions_alpha] "Alpha  1111-..."); [reflexivity|simpl; lia].
Defined.

(** C9. In the region parser a data line whose location column splits on
    the comma into exactly two parts, one of which fails integer conversion,
    contributes no Region (for example "abc,def"); the location of a
    contributed Region is the two converted integers when the split has
    exactly two parts, and the default (0,0) only otherwise. *)
Theorem region_location_conversion :
  (forall line regions col a b,
      nth_error (split line) 2 = Some col ->
      split_on "," col = [a; b] ->
      int a = inl ValueError \/ int b = inl ValueError ->
      regions_step regions line = inr regions)
  /\ parse_regions "Alpha 1111 abc,def 256x256 9000" = inr []
  /\ (forall line r col,
        nth_error (split line) 2 = Some col ->
        regions_step [] line = inr [r] ->
        (length (split_on "," col) = 2 ->
         exists a b, split_on "," col = [a; b]
                     /\ int a = inr (location_x r) /\ int b = inr (location_y r))
        /\ (length (split_on "," col) <> 2 -> location r = (0, 0)%Z)).
Proof.
  split; [|split; [reflexivity|]].
  - intros line regions col a b Hcol Hsplit Hfail.
    destruct (regions_step_cases regions line) as [E|[r [_ Hr]]]; [exact E|].
    exfalso.
    destruct (region_of_parts_inv _ _ Hr) as [_ [Hloc _]].
    rewrite (int_pair_two _ 2 "," (0, 0)%Z col a b Hcol Hsplit) in Hloc.
    unfold bind in Hloc.
    destruct Hfail as [Ha|Hb].
    + rewrite Ha in Hloc; discriminate.
    + destruct (int a); [discriminate|]. rewrite Hb in Hloc; discriminate.
  - intros line r col Hcol Hstep.
    destruct (regions_step_contributes _ _ Hstep) as [Hr _].
    destruct (region_of_parts_inv _ _ Hr) as [_ [Hloc _]].
    split.
    + intro Hlen. destruct (length_two _ Hlen) as [a [b Hsplit]].
      exists a, b. split; [exact Hsplit|].
      rewrite (int_pair_two _ 2 "," (0, 0)%Z col a b Hcol Hsplit) in Hloc.
      unfold bind in Hloc.
      destruct (int a) as [|x]; [discriminate|].
      destruct (int b) as [|y]; [discriminate|].
      simpl in Hloc. unfold location in Hloc. injection Hloc as <- <-. split; reflexivity.
    + intro Hlen.
      rewrite (int_pair_default _ 2 "," (0, 0)%Z col Hcol Hlen) in Hloc. congruence.
Qed.

Lemma region_location_conversion_witness :
  regions_step [] "Alpha 1111 abc,def 256x256 9000" = inr []
  /\ (exists a b, split_on "," "1000,1000" = [a; b]
                  /\ int a = inr 1000%Z /\ int b = inr 1000%Z)
  /\ location (mkRegion "Alpha" "1111-..." 0 0 256 256 None (Some 9000%Z)) = (0, 0)%Z.
Proof.
  destruct region_location_conversion as [Hdrop [_ Hloc]].
  split; [|split].
  - apply (Hdrop _ [] "abc,def" "abc" "def"); [reflexivity|reflexivity|].
    left; reflexivity.
  - apply (Hloc regions_alpha
             (mkRegion "Alpha" "1111-..." 1000 1000 256 256 None (Some 9000%Z))
             "1000,1000"); reflexivity.
  - apply (Hloc regions_abc
             (mkRegion "Alpha" "1111-..." 0 0 256 256 None (Some 9000%Z)) "abc");
      [reflexivity|reflexivity|]. simpl; discriminate.
Defined.

(** ** The user parser *)

Lemma user_of_parts_position parts line u :
  user_of_parts parts line = inr u -> position_of_line parts line = inr (position u).
Proof.
  unfold user_of_parts, bind.
  destruct (index parts 0) as [|f]; [discriminate|].
  destruct (if 1 <? length parts then index parts 1 else ret "") as [|l]; [discriminate|].
  match goal with |- match ?p with inl _ => _ | inr _ => _ end = _ -> _ =>
    destruct p as [|rg]; [discriminate|] end.
  destruct (position_of_line parts line) as [|p]; [discriminate|].
  intros [= <-]. reflexivity.
Qed.

(** C5 (as stated, refuted).  The line "Jane Doe <1,2,3>" has three
    whitespace columns: it produces a User, the pattern occurs in it, and
    the position of the User is absent. *)
Lemma position_whatever_the_columns_fails :
  parse_users "Jane Doe <1,2,3>"
    = inr [mkUser "Jane" "Doe" None (Some "<1,2,3>") None true 0%Z]
  /\ search_position "Jane Doe <1,2,3>" = Some ("1", "2", "3")
  /\ ~ position_whatever_the_columns.
Proof.
  split; [reflexivity|]. split; [reflexivity|].
  intro H.
  destruct (H "Jane Doe <1,2,3>"
              (mkUser "Jane" "Doe" None (Some "<1,2,3>") None true 0%Z)
              "1" "2" "3" eq_refl eq_refl) as [x [y [z [_ [_ [_ Hp]]]]]].
  discriminate Hp.
Qed.

(** C5 (amended).  For every line that produces a User: when the line has
    more than three whitespace columns, the position is the three numbers
    captured by the leftmost occurrence of the pattern, converted to floats,
    and is absent when the pattern does not occur; when the line has three
    or fewer columns the position is absent. *)
Theorem position_needs_four_columns line u :
  users_step [] line = inr [u] ->
  (3 < length (split line) ->
   forall a b c, search_position line = Some (a, b, c) ->
     exists x y z, float a = inr x /\ float b = inr y /\ float c = inr z
                   /\ position u = Some (x, y, z))
  /\ (3 < length (split line) -> search_position line = None -> position u = None)
  /\ (length (split line) <= 3 -> position u = None).
Proof.
  intro Hstep.
  destruct (users_step_contributes _ _ Hstep) as [Hu _].
  apply user_of_parts_position in Hu. unfold position_of_line in Hu.
  split; [|split].
  - intros Hl a b c Hs. apply Nat.ltb_lt in Hl. rewrite Hl, Hs in Hu.
    destruct (search_position_convertible _ _ _ _ Hs) as [x [y [z [Hx [Hy Hz]]]]].
    rewrite Hx, Hy, Hz in Hu. unfold bind, ret in Hu.
    exists x, y, z. repeat split; congruence.
  - intros Hl Hs. apply Nat.ltb_lt in Hl. rewrite Hl, Hs in Hu.
    unfold ret in Hu. congruence.
  - intros Hl. apply Nat.ltb_ge in Hl. rewrite Hl in Hu.
    unfold ret in Hu. congruence.
Qed.

Lemma position_needs_four_columns_witness :
  (exists x y z, float "128.0" = inr x /\ float "130.5" = inr y /\ float "25.0" = inr z
                 /\ Some (128 # 1, 261 # 2, 25 # 1)%Q = Some (x, y, z))
  /\ @None (pyfloat * pyfloat * pyfloat) = None.
Proof.
  split.
  - apply (position_needs_four_columns
             "Jane Doe DefaultRegion <128.0, 130.5, 25.0>"
             (mkUser "Jane" "Doe" None (Some "DefaultRegion")
                     (Some (128 # 1, 261 # 2, 25 # 1)%Q) true 0%Z)
             eq_refl); [simpl; lia|reflexivity].
  - apply (position_needs_four_columns "Jane Doe <1,2,3>"
             (mkUser "Jane" "Doe" None (Some "<1,2,3>") None true 0%Z) eq_refl).
    simpl; lia.
Defined.

(** C10. The user parser skips every line that contains "Name" anywhere,
    data lines included: such a line contributes no User, as the line of a
    user standing in region "NameOfRegion" shows. *)
Theorem parse_users_skips_Name :
  (forall line users, contains "Name" line = true -> users_step users line = inr users)
  /\ (forall output before after line,
        lines output = (before ++ line :: after)%list ->
        contains "Name" line = true ->
        parse_users output = for_each users_step (before ++ after)%list [])
  /\ parse_users "John Doe NameOfRegion <1, 2, 3>" = inr []
  /\ parse_users "John Doe nameOfRegion <1, 2, 3>"
     = inr [mkUser "John" "Doe" None (Some "nameOfRegion")
                   (Some (1 # 1, 2 # 1, 3 # 1)%Q) true 0%Z].
Proof.
  assert (Hskip : forall line users,
             contains "Name" line = true -> users_step users line = inr users).
  { intros line users Hn. unfold users_step. rewrite Hn.
    rewrite orb_true_r. reflexivity. }
  split; [exact Hskip|]. split; [|split; reflexivity].
  intros output before after line Hlines Hn.
  unfold parse_users. rewrite Hlines.
  apply for_each_skip. intro s0. apply Hskip, Hn.
Qed.

Lemma parse_users_skips_Name_witness :
  users_step [] "John Doe NameOfRegion <1, 2, 3>" = inr []
  /\ parse_users ("Jane Roe Lobby" ++ String nl "John Doe NameOfRegion <1, 2, 3>")
     = for_each users_step ["Jane Roe Lobby"] [].
Proof.
  destruct parse_users_skips_Name as [Hskip [Hout _]].
  split.
  - apply Hskip. reflexivity.
  - apply (Hout _ ["Jane Roe Lobby"] [] "John Doe NameOfRegion <1, 2, 3>"); reflexivity.
Defined.

(** ** The statistics parser *)

Lemma assign_keeps {V W} (proj : Stats -> W) searchf (conv : str -> M V) setf line st st' :
  (forall v s, proj (setf v s) = proj s) ->
  assign searchf conv setf line st = inr st' -> proj st' = proj st.
Proof.
  intros Hset. unfold assign, bind, ret.
  destruct (searchf line) as [g|]; [|congruence].
  destruct (conv g) as [|v]; [discriminate|].
  intros [= <-]. apply Hset.
Qed.

Ltac keeps_tac :=
  unfold ret;
  repeat match goal with
         | |- (if ?b then _ else _) = _ -> _ => destruct b
         end;
  try (intros [= <-]; reflexivity);
  try (apply assign_keeps; reflexivity).

(** A line outside the fps rule leaves [fps] alone, and likewise for the
    physics-fps and the agents rules. *)
Lemma stats_step_keeps_fps line st st' :
  fps_rule line = false -> stats_step st line = inr st' -> fps st' = fps st.
Proof. unfold fps_rule, stats_step. intros ->. keeps_tac. Qed.

Lemma stats_step_keeps_physics_fps line st st' :
  physics_fps_rule line = false -> stats_step st line = inr st' ->
  physics_fps st' = physics_fps st.
Proof. unfold physics_fps_rule, stats_step. intros ->. keeps_tac. Qed.

Lemma stats_step_keeps_agents line st st' :
  agents_rule line = false -> stats_step st line = inr st' -> agents st' = agents st.
Proof. unfold agents_rule, stats_step. intros ->. keeps_tac. Qed.

Lemma for_each_stats_keeps {W} (proj : Stats -> W) (rule : str -> bool) :
  (forall line st st', rule line = false -> stats_step st line = inr st' ->
                       proj st' = proj st) ->
  forall ls st st',
    Forall (fun l => rule l = false) ls ->
    for_each stats_step ls st = inr st' -> proj st' = proj st.
Proof.
  intros Hkeep ls; induction ls as [|l ls IH]; intros st st' Hall; simpl.
  - unfold ret. congruence.
  - inversion Hall as [|? ? Hl Hls]; subst.
    destruct (stats_step st l) as [|st1] eqn:E; simpl; [discriminate|].
    intro H. rewrite (IH _ _ Hls H). apply (Hkeep _ _ _ Hl E).
Qed.

(** The field set by a line survives when no later line falls under the
    rule of that field: whenever the parser returns, the field has the value
    of that line, and the parser returns when every line is within the limit
    of [int()]. *)
Lemma last_line_wins {W} (proj : Stats -> option W) (rule : str -> bool) L w :
  (forall line st st', rule line = false -> stats_step st line = inr st' ->
                       proj st' = proj st) ->
  (forall st st', stats_step st L = inr st' -> proj st' = Some w) ->
  forall output before after,
    lines output = (before ++ L :: after)%list ->
    Forall (fun l => rule l = false) after ->
    (forall stats, parse_stats output = inr stats -> proj stats = Some w)
    /\ (Forall (fun l => within_digit_limit l = true) (lines output) ->
        exists stats, parse_stats output = inr stats /\ proj stats = Some w).
Proof.
  intros Hkeep HL output before after Hlines Hafter.
  assert (Hret : forall stats, parse_stats output = inr stats -> proj stats = Some w).
  { intros stats. unfold parse_stats. rewrite Hlines, for_each_app.
    destruct (for_each stats_step before Stats_default) as [|st1]; simpl;
      [discriminate|].
    destruct (stats_step st1 L) as [|st2] eqn:E2; simpl; [discriminate|].
    intro E3.
    rewrite (for_each_stats_keeps proj rule Hkeep _ _ _ Hafter E3).
    apply (HL _ _ E2). }
  split; [exact Hret|].
  intro Hlim. destruct (parse_stats_total output Hlim) as [stats E].
  exists stats. split; [exact E|apply Hret, E].
Qed.

(** C4 (as stated, refuted).  A later line of the same kind overwrites the
    field: both lines of each example are present and the parser returns
    fps = 60.0, respectively agents = 11. *)
Lemma parse_stats_later_line_wins :
  (has_line later_fps_output "Physics FPS: 54.2"
   /\ has_line later_fps_output "FPS: 55.0"
   /\ option_map fps (match parse_stats later_fps_output with
                      | inr st => Some st | inl _ => None end)
      = Some (Some (60 # 1)%Q))
  /\ (has_line later_agents_output "Child Agents: 3"
      /\ has_line later_agents_output "Agents: 10"
      /\ option_map agents (match parse_stats later_agents_output with
                            | inr st => Some st | inl _ => None end)
         = Some (Some 11%Z))
  /\ ~ stats_fps_on_any_input
  /\ ~ stats_agents_on_any_input.
Proof.
  assert (F1 : has_line later_fps_output "Physics FPS: 54.2") by (left; reflexivity).
  assert (F2 : has_line later_fps_output "FPS: 55.0") by (right; left; reflexivity).
  assert (A1 : has_line later_agents_output "Child Agents: 3") by (left; reflexivity).
  assert (A2 : has_line later_agents_output "Agents: 10") by (right; left; reflexivity).
  split; [repeat split; assumption || reflexivity|].
  split; [repeat split; assumption || reflexivity|].
  split.
  - intro H. destruct (H later_fps_output F1 F2) as [st [E [_ Hf]]].
    vm_compute in E. injection E as <-. discriminate Hf.
  - intro H. destruct (H later_agents_output A1 A2) as [st [E Ha]].
    vm_compute in E. injection E as <-. discriminate Ha.
Qed.

(** C4 (amended).  On every input all of whose lines are within the limit
    of [int()] (no first number of more than 4300 digits) the stats parser
    returns a record.  Whenever it returns on an input that has the line
    "FPS: 55.0" with no later line under the fps rule, fps = 55.0; on an
    input that has the line "Physics FPS: 54.2" with no later line under the
    physics-fps rule, physics_fps = 54.2; on an input that has the line
    "Agents: 10" with no later line under the agents rule, agents = 10.
    There is no cross-assignment: the physics line is outside the fps rule
    and sets physics_fps only, the fps line sets fps only, and the line
    "Child Agents: 3" is outside the agents rule and changes nothing. *)
Theorem parse_stats_last_matching_line :
  (forall output before after,
      lines output = (before ++ "FPS: 55.0" :: after)%list ->
      Forall (fun l => fps_rule l = false) after ->
      (forall stats, parse_stats output = inr stats -> fps stats = Some (55 # 1)%Q)
      /\ (Forall (fun l => within_digit_limit l = true) (lines output) ->
          exists stats, parse_stats output = inr stats
                        /\ fps stats = Some (55 # 1)%Q))
  /\ (forall output before after,
        lines output = (before ++ "Physics FPS: 54.2" :: after)%list ->
        Forall (fun l => physics_fps_rule l = false) after ->
        (forall stats, parse_stats output = inr stats ->
                       physics_fps stats = Some (271 # 5)%Q)
        /\ (Forall (fun l => within_digit_limit l = true) (lines output) ->
            exists stats, parse_stats output = inr stats
                          /\ physics_fps stats = Some (271 # 5)%Q))
  /\ (forall output before after,
        lines output = (before ++ "Agents: 10" :: after)%list ->
        Forall (fun l => agents_rule l = false) after ->
        (forall stats, parse_stats output = inr stats -> agents stats = Some 10%Z)
        /\ (Forall (fun l => within_digit_limit l = true) (lines output) ->
            exists stats, parse_stats output = inr stats
                          /\ agents stats = Some 10%Z))
  /\ (fps_rule "Physics FPS: 54.2" = false
      /\ physics_fps_rule "FPS: 55.0" = false
      /\ agents_rule "Child Agents: 3" = false)
  /\ (forall st,
        stats_step st "Physics FPS: 54.2" = inr (set_physics_fps (271 # 5)%Q st)
        /\ stats_step st "FPS: 55.0" = inr (set_fps (55 # 1)%Q st)
        /\ stats_step st "Child Agents: 3" = inr st
        /\ stats_step st "Agents: 10" = inr (set_agents 10%Z st)).
Proof.
  assert (Hlines : forall st,
             stats_step st "Physics FPS: 54.2" = inr (set_physics_fps (271 # 5)%Q st)
             /\ stats_step st "FPS: 55.0" = inr (set_fps (55 # 1)%Q st)
             /\ stats_step st "Child Agents: 3" = inr st
             /\ stats_step st "Agents: 10" = inr (set_agents 10%Z st)).
  { intro st. repeat split; reflexivity. }
  split; [|split; [|split; [|split; [repeat split; reflexivity|exact Hlines]]]].
  - apply (last_line_wins fps fps_rule); [exact stats_step_keeps_fps|].
    intros st st' E. destruct (Hlines st) as [_ [H _]]. rewrite H in E.
    injection E as <-. reflexivity.
  - apply (last_line_wins physics_fps physics_fps_rule);
      [exact stats_step_keeps_physics_fps|].
    intros st st' E. destruct (Hlines st) as [H _]. rewrite H in E.
    injection E as <-. reflexivity.
  - apply (last_line_wins agents agents_rule); [exact stats_step_keeps_agents|].
    intros st st' E. destruct (Hlines st) as [_ [_ [_ H]]]. rewrite H in E.
    injection E as <-. reflexivity.
Qed.

Lemma parse_stats_last_matching_line_witness :
  (exists stats, parse_stats ("Physics FPS: 54.2" ++ String nl "FPS: 55.0") = inr stats
                 /\ fps stats = Some (55 # 1)%Q)
  /\ (exists stats, parse_stats ("Physics FPS: 54.2" ++ String nl "FPS: 55.0") = inr stats
                    /\ physics_fps stats = Some (271 # 5)%Q)
  /\ agents (mkStats None None (Some 10%Z) None None None None) = Some 10%Z.
Proof.
  destruct parse_stats_last_matching_line as [Hf [Hp [Ha _]]].
  split; [|split].
  - apply (Hf _ ["Physics FPS: 54.2"] []); [reflexivity|constructor|].
    repeat constructor.
  - apply (Hp _ [] ["FPS: 55.0"]); [reflexivity| |].
    + constructor; [reflexivity|constructor].
    + repeat constructor.
  - apply (Ha ("Agents: 10" ++ String nl "Child Agents: 3") [] ["Child Agents: 3"]);
      [reflexivity| |reflexivity].
    constructor; [reflexivity|constructor].
Defined.

(** ** Exceptions that escape a parser *)

(** A line under the agents rule whose number is beyond the limit of
    [int()] makes the loop body raise. *)
Lemma stats_step_long_agents st line g :
  fps_rule line = false -> physics_fps_rule line = false -> agents_rule line = true ->
  search_int (strip line) = Some g -> int_max_str_digits < String.length g ->
  stats_step st line = inl ValueError.
Proof.
  unfold fps_rule, physics_fps_rule, agents_rule, stats_step.
  intros -> -> -> Hg Hlen. unfold assign. rewrite Hg.
  rewrite (int_too_long g (search_int_digits _ _ Hg) Hlen). reflexivity.
Qed.

(** C6 (where the claim fails).  For every input string the region parser
    and the user parser return a list, no longer than the number of lines;
    the stats parser returns a Stats record on every input whose lines are
    within the limit of [int()], and the only exception it ever raises is
    ValueError.  It does raise it: on an agents, objects or scripts line
    whose number has more than 4300 digits the ValueError of [int()] escapes,
    as on the line "Agents: " followed by 4301 digits. *)
Theorem stats_parser_lets_ValueError_escape :
  (forall output,
      (exists regions, parse_regions output = inr regions
                       /\ length regions <= length (lines output))
      /\ (exists users, parse_users output = inr users
                        /\ length users <= length (lines output)))
  /\ (forall output,
        Forall (fun line => within_digit_limit line = true) (lines output) ->
        exists stats, parse_stats output = inr stats)
  /\ (forall output e, parse_stats output = inl e -> e = ValueError)
  /\ (forall output before after line g,
        lines output = (before ++ line :: after)%list ->
        Forall (fun l => within_digit_limit l = true) before ->
        fps_rule line = false -> physics_fps_rule line = false ->
        agents_rule line = true ->
        search_int (strip line) = Some g -> int_max_str_digits < String.length g ->
        parse_stats output = inl ValueError)
  /\ int (ones 4301) = inl ValueError
  /\ parse_stats long_agents_line = inl ValueError
  /\ parse_stats ("FPS: 55.0" ++ String nl long_agents_line) = inl ValueError.
Proof.
  split; [intro output; split; [apply parse_regions_total|apply parse_users_total]|].
  split; [exact parse_stats_total|].
  split; [exact parse_stats_raises|].
  split.
  { intros output before after line g Hlines Hbefore Hf Hp Ha Hg Hlen.
    unfold parse_stats. rewrite Hlines, for_each_app.
    destruct (for_each_stats_total before Stats_default Hbefore) as [st1 ->]. simpl.
    rewrite (stats_step_long_agents st1 line g Hf Hp Ha Hg Hlen). reflexivity. }
  split; [|split]; vm_compute; reflexivity.
Qed.

Lemma stats_parser_lets_ValueError_escape_witness :
  (exists stats, parse_stats ("Agents: " ++ ones 12) = inr stats)
  /\ ValueError = ValueError
  /\ parse_stats ("Objects: 7" ++ String nl long_agents_line) = inl ValueError.
Proof.
  destruct stats_parser_lets_ValueError_escape as [_ [Hret [Hraise [Hlong _]]]].
  split; [|split].
  - apply Hret. repeat constructor.
  - apply (Hraise long_agents_line). vm_compute. reflexivity.
  - apply (Hlong _ ["Objects: 7"] [] long_agents_line (ones 4301));
      first [vm_compute; reflexivity | repeat constructor].
Defined.

(** * Properties of the clients *)

(** ** The receive loops *)

Lemma client_recv_loop_closed chunks rest acc :
  Forall (fun ch => open_chunk ch = true) chunks ->
  Client.recv_loop (closes_before_newline chunks rest) acc
  = (inr (acc ++ joined chunks), rest).
Proof.
  unfold closes_before_newline.
  intro H; revert acc; induction H as [|ch chunks Hch _ IH]; intro acc; simpl.
  - replace (acc ++ "") with acc; [reflexivity|].
    clear; induction acc; simpl; congruence.
  - unfold open_chunk in Hch. apply andb_prop in Hch as [He Hn].
    apply negb_true_iff in He. apply negb_true_iff in Hn.
    rewrite He, Hn, IH. f_equal. f_equal.
    clear; induction acc; simpl; congruence.
Qed.

(** pymote.py: a zero-length read before any newline raises ConnectionError. *)
Lemma pymote_recv_loop_closed chunks rest acc :
  Forall (fun ch => open_chunk ch = true) chunks ->
  Pymote.recv_loop (closes_before_newline chunks rest) acc
  = (inl (ConnectionError "Connection closed by server"), rest).
Proof.
  unfold closes_before_newline.
  intro H; revert acc; induction H as [|ch chunks Hch _ IH]; intro acc; simpl.
  - reflexivity.
  - unfold open_chunk in Hch. apply andb_prop in Hch as [He Hn].
    apply negb_true_iff in He. apply negb_true_iff in Hn.
    rewrite He, Hn. apply IH.
Qed.

(** The sibling client does what the specification says on a closed
    connection. *)
Lemma pymote_execute_peer_close cd command parameters c s chunks rest :
  Pymote._connected c = true ->
  Pymote._socket c = Some s ->
  sendall_raises s = None ->
  incoming s = closes_before_newline chunks rest ->
  Forall (fun ch => open_chunk ch = true) chunks ->
  fst (Pymote._execute_command cd command parameters c)
  = inl (ConnectionError "Connection closed by server").
Proof.
  intros Hc Hs Hsend Hin Hopen.
  unfold Pymote._execute_command, Pymote.execute_body, sendall.
  rewrite Hc, Hs, Hsend. simpl incoming. rewrite Hin.
  rewrite (pymote_recv_loop_closed chunks rest "" Hopen). reflexivity.
Qed.

(** ** What the classification of client.py can raise and return *)

Lemma client_parse_output_raises command out e :
  Client._parse_output command out = inl e -> e = AttributeError \/ e = ValueError.
Proof.
  unfold Client._parse_output, Client.as_str.
  destruct (contains "show regions" command).
  { destruct out; simpl; try (intros [= <-]; left; reflexivity).
    destruct (parse_regions_total s) as [rs [-> _]]. discriminate. }
  destruct (contains "show users" command).
  { destruct out; simpl; try (intros [= <-]; left; reflexivity).
    destruct (parse_users_total s) as [us [-> _]]. discriminate. }
  destruct (contains "show stats" command).
  { destruct out; simpl; try (intros [= <-]; left; reflexivity).
    destruct (parse_stats s) as [e0|st] eqn:E; simpl; [|discriminate].
    intros [= <-]. right. apply (parse_stats_raises _ _ E). }
  discriminate.
Qed.

Lemma get_raises v key dflt e : get v key dflt = inl e -> e = AttributeError.
Proof. destruct v; simpl; intros [= <-]; reflexivity. Qed.

Lemma client_classify_raises cd command parse_data response_data e :
  Client.classify cd command parse_data response_data = inl e ->
  e = UnicodeDecodeError \/ e = JSONDecodeError \/ e = AttributeError
  \/ e = ValueError.
Proof.
  unfold Client.classify.
  destruct (decode_utf8 cd response_data) as [t|]; simpl; [|intros [= <-]; auto].
  destruct (json_loads cd (strip t)) as [v|]; simpl; [|intros [= <-]; auto].
  destruct (get v "Success" (PyBool false)) as [e1|sv] eqn:E1; simpl;
    [intros [= <-]; right; right; left; eapply get_raises; eassumption|].
  destruct (get v "Result" (PyStr "")) as [e2|ov] eqn:E2; simpl;
    [intros [= <-]; right; right; left; eapply get_raises; eassumption|].
  destruct (get v "Error" PyNone) as [e3|ev] eqn:E3; simpl;
    [intros [= <-]; right; right; left; eapply get_raises; eassumption|].
  destruct (truthy sv); simpl; [|discriminate].
  destruct parse_data; simpl; [|discriminate].
  destruct (Client._parse_output command ov) as [e4|dv] eqn:E4; simpl; [|discriminate].
  intros [= <-]. right; right.
  destruct (client_parse_output_raises _ _ _ E4) as [->| ->]; auto.
Qed.

(** The part of the invariant of CommandResult that client.py keeps: a
    failure has the empty output and no payload, a success has no error. *)
Lemma client_classify_result cd command parse_data response_data r :
  Client.classify cd command parse_data response_data = inr r ->
  (Client.success r = false ->
   Client.output r = PyStr "" /\ Client.data r = NoData)
  /\ (Client.success r = true -> Client.error r = PyNone).
Proof.
  unfold Client.classify.
  destruct (decode_utf8 cd response_data) as [t|]; simpl; [|discriminate].
  destruct (json_loads cd (strip t)) as [v|]; simpl; [|discriminate].
  destruct (get v "Success" (PyBool false)) as [e1|sv]; simpl; [discriminate|].
  destruct (get v "Result" (PyStr "")) as [e2|ov]; simpl; [discriminate|].
  destruct (get v "Error" PyNone) as [e3|ev]; simpl; [discriminate|].
  destruct (truthy sv); simpl.
  - destruct (if parse_data then Client._parse_output command ov else ret NoData)
      as [e4|dv]; simpl; [discriminate|].
    intros [= <-]; simpl. split; [discriminate|reflexivity].
  - intros [= <-]; simpl. split; [split; reflexivity|discriminate].
Qed.

Lemma client_execute_on_socket cd command parse_data c s :
  Client.socket c = Some s ->
  sendall_raises s = None ->
  fst (Client._execute cd command parse_data c)
  = match Client.recv_loop (incoming s) "" with
    | (inl e, _) => inl (Client.execute_handler e)
    | (inr response_data, _) =>
        match Client.classify cd command parse_data response_data with
        | inl e => inl (Client.execute_handler e)
        | inr r => inr r
        end
    end.
Proof.
  intros Hs Hsend.
  unfold Client._execute, Client.execute_body, sendall. rewrite Hs, Hsend.
  simpl incoming.
  destruct (Client.recv_loop (incoming s) "") as [[e|response_data] rest];
    [reflexivity|].
  destruct (Client.classify cd command parse_data response_data); reflexivity.
Qed.

(** ** Claims on the clients *)

(** C1 (client.py, where the claim fails).  On a connected OpenSimClient
    whose peer closes before any newline, [_execute] decodes and classifies
    what was received so far: it returns a CommandResult or raises
    CommandError, never ConnectionError; when nothing was received it raises
    CommandError "Invalid JSON response". *)
Theorem client_execute_peer_close cd command parse_data c s chunks rest :
  Client.socket c = Some s ->
  sendall_raises s = None ->
  incoming s = closes_before_newline chunks rest ->
  Forall (fun ch => open_chunk ch = true) chunks ->
  fst (Client._execute cd command parse_data c)
    = match Client.classify cd command parse_data (joined chunks) with
      | inl e => inl (Client.execute_handler e)
      | inr r => inr r
      end
  /\ (forall e, fst (Client._execute cd command parse_data c) = inl e ->
                exists msg, e = CommandError msg)
  /\ (chunks = [] -> decode_utf8 cd "" = Some "" -> json_loads cd "" = None ->
      fst (Client._execute cd command parse_data c)
      = inl (CommandError "Invalid JSON response")).
Proof.
  intros Hs Hsend Hin Hopen.
  assert (E : fst (Client._execute cd command parse_data c)
              = match Client.classify cd command parse_data (joined chunks) with
                | inl e => inl (Client.execute_handler e)
                | inr r => inr r
                end).
  { rewrite (client_execute_on_socket cd command parse_data c s Hs Hsend), Hin.
    rewrite (client_recv_loop_closed chunks rest "" Hopen). reflexivity. }
  split; [exact E|]. split.
  - intros e He. rewrite E in He.
    destruct (Client.classify cd command parse_data (joined chunks)) as [e0|r] eqn:Ec;
      [|discriminate].
    injection He as <-.
    destruct (client_classify_raises _ _ _ _ _ Ec) as [H|[H|[H|H]]];
      subst e0; simpl; eauto.
  - intros -> Hd Hj. rewrite E. unfold Client.classify. simpl joined.
    rewrite Hd. simpl. change (strip "") with "". rewrite Hj. reflexivity.
Qed.

Lemma client_execute_peer_close_witness :
  fst (Client._execute one_frame_codec "show version" false
         (Client.mkClient "127.0.0.1" 9500 (30 # 1)%Q (Some closed_socket)))
  = inl (CommandError "Invalid JSON response").
Proof.
  apply (client_execute_peer_close one_frame_codec "show version" false
           (Client.mkClient "127.0.0.1" 9500 (30 # 1)%Q (Some closed_socket))
           closed_socket [] []);
    try reflexivity. constructor.
Defined.

(** C2 (client.py, where the claim fails).  When the response decodes to an
    object whose Success flag is false and that has no Error field,
    [_execute] returns a CommandResult with success false, the empty output
    and the error unset. *)
Theorem client_execute_failure_without_error cd command parse_data c s chunk rest text d :
  Client.socket c = Some s ->
  sendall_raises s = None ->
  incoming s = Recv chunk :: rest ->
  is_empty chunk = false ->
  has_newline chunk = true ->
  decode_utf8 cd chunk = Some text ->
  json_loads cd (strip text) = Some (PyDict d) ->
  assoc "Success" d = Some (PyBool false) ->
  assoc "Error" d = None ->
  fst (Client._execute cd command parse_data c)
  = inr (Client.mkCommandResult false (PyStr "") NoData PyNone).
Proof.
  intros Hs Hsend Hin Hne Hnl Hd Hj Hsucc Herr.
  rewrite (client_execute_on_socket cd command parse_data c s Hs Hsend), Hin.
  simpl. rewrite Hne, Hnl. unfold Client.classify. simpl.
  rewrite Hd. simpl. rewrite Hj. simpl. rewrite Hsucc, Herr. reflexivity.
Qed.

Lemma client_execute_failure_without_error_witness :
  fst (Client._execute one_frame_codec "kick user No Body" false
         (Client.mkClient "127.0.0.1" 9500 (30 # 1)%Q (Some failing_socket)))
  = inr (Client.mkCommandResult false (PyStr "") NoData PyNone).
Proof.
  apply (client_execute_failure_without_error one_frame_codec "kick user No Body"
           false _ failing_socket failure_chunk [] failure_chunk
           [("Success", PyBool false)]); reflexivity.
Defined.

(** X25. On an OpenSimClient that holds no socket, and on a PymoteClient
    that is not marked connected or holds no socket, [execute] raises
    ConnectionError "Not connected to server" and leaves the client, its
    socket and the bytes written to it as they were, for every command: no
    byte is sent. *)
Theorem execute_not_connected cd command :
  (forall parse_data c,
      Client.is_connected c = false ->
      Client._execute cd command parse_data c
        = (inl (ConnectionError "Not connected to server"), c)
      /\ Client.bytes_sent (snd (Client._execute cd command parse_data c))
         = Client.bytes_sent c)
  /\ (forall parameters c,
        Pymote.is_connected c = false \/ Pymote._socket c = None ->
        Pymote._execute_command cd command parameters c
          = (inl (ConnectionError "Not connected to server"), c)
        /\ Pymote.bytes_sent (snd (Pymote._execute_command cd command parameters c))
           = Pymote.bytes_sent c).
Proof.
  split.
  - intros parse_data c Hc.
    assert (E : Client._execute cd command parse_data c
                = (inl (ConnectionError "Not connected to server"), c)).
    { unfold Client._execute. unfold Client.is_connected in Hc.
      destruct (Client.socket c); [discriminate|reflexivity]. }
    rewrite E. split; reflexivity.
  - intros parameters c Hc.
    assert (E : Pymote._execute_command cd command parameters c
                = (inl (ConnectionError "Not connected to server"), c)).
    { unfold Pymote._execute_command. unfold Pymote.is_connected in Hc.
      destruct Hc as [-> | ->]; [reflexivity|].
      destruct (Pymote._connected c); reflexivity. }
    rewrite E. split; reflexivity.
Qed.

Lemma execute_not_connected_witness :
  Client._execute one_frame_codec "show regions" true
     (Client.mkClient "127.0.0.1" 9500 (30 # 1)%Q None)
   = (inl (ConnectionError "Not connected to server"),
      Client.mkClient "127.0.0.1" 9500 (30 # 1)%Q None)
  /\ Pymote.bytes_sent
       (snd (Pymote._execute_command one_frame_codec "show regions" None
               (Pymote.mkClient "127.0.0.1" 9500 (30 # 1)%Q (Some failing_socket) false)))
     = "".
Proof.
  destruct (execute_not_connected one_frame_codec "show regions") as [Hc Hp].
  split.
  - apply (Hc true (Client.mkClient "127.0.0.1" 9500 (30 # 1)%Q None)). reflexivity.
  - apply (Hp None
             (Pymote.mkClient "127.0.0.1" 9500 (30 # 1)%Q (Some failing_socket) false)).
    left; reflexivity.
Defined.

(** pymote.py keeps the state of C8: after a failed [connect] of a
    disconnected PymoteClient, [is_connected()] is false. *)
Lemma pymote_connect_failure net c e c' :
  Pymote.is_connected c = false ->
  Pymote.connect net c = (inl e, c') ->
  e = ConnectionError "Failed to connect" /\ Pymote.is_connected c' = false.
Proof.
  intros Hc. unfold Pymote.connect, Pymote.is_connected in *.
  destruct (socket_socket net) as [e0|s].
  - intros [= <- <-]. split; [reflexivity|assumption].
  - simpl. destruct (settimeout net (Pymote.timeout c)) as [e1|].
    + intros [= <- <-]. split; [reflexivity|assumption].
    + destruct (socket_connect net (Pymote.host c) (Pymote.port c)) as [e2|].
      * intros [= <- <-]. split; [reflexivity|assumption].
      * discriminate.
Qed.

(** C8 (client.py, where the claim fails).  When the socket is created and
    the connection attempt fails with a socket error, [connect] of
    OpenSimClient raises ConnectionError and leaves the new socket in the
    client, so that [is_connected()] called next returns true. *)
Theorem client_connect_failure_keeps_socket net c s e :
  socket_socket net = inr s ->
  settimeout net (Client.timeout c) = None ->
  socket_connect net (Client.host c) (Client.port c) = Some e ->
  is_OSError e = true ->
  Client.connect net c
    = (inl (ConnectionError "Failed to connect"), Client.set_socket (Some s) c)
  /\ Client.is_connected (snd (Client.connect net c)) = true.
Proof.
  intros Hs Ht Hc He.
  assert (E : Client.connect net c
              = (inl (ConnectionError "Failed to connect"),
                 Client.set_socket (Some s) c)).
  { unfold Client.connect. rewrite Hs. simpl. rewrite Ht, Hc.
    unfold Client.connect_handler. rewrite He. reflexivity. }
  rewrite E. split; reflexivity.
Qed.

Lemma client_connect_failure_keeps_socket_witness :
  Client.is_connected (Client.mkClient "127.0.0.1" 9500 (30 # 1)%Q None) = false
  /\ Client.is_connected
       (snd (Client.connect refusing_network
               (Client.mkClient "127.0.0.1" 9500 (30 # 1)%Q None))) = true.
Proof.
  split; [reflexivity|].
  apply (client_connect_failure_keeps_socket refusing_network
           (Client.mkClient "127.0.0.1" 9500 (30 # 1)%Q None)
           (mkSocket None [] "") socket_error); reflexivity.
Defined.

(** pymote.py after a failed [connect] of a client that was not connected:
    [_execute_command] raises ConnectionError before any write. *)
Lemma pymote_execute_after_failed_connect net c e c' cd command parameters :
  Pymote.is_connected c = false ->
  Pymote.connect net c = (inl e, c') ->
  Pymote._execute_command cd command parameters c'
  = (inl (ConnectionError "Not connected to server"), c').
Proof.
  intros Hc Hconn.
  destruct (pymote_connect_failure net c e c' Hc Hconn) as [_ Hc'].
  unfold Pymote.is_connected in Hc'. unfold Pymote._execute_command.
  rewrite Hc'. reflexivity.
Qed.

(** C7 (client.py, where the claim fails).  An OpenSimClient whose [connect]
    was refused has no connection but still holds the socket that was
    created.  [_execute] on it passes the test of the connection, calls
    [sendall] on the unconnected socket and turns the socket error of that
    call into CommandError "Command execution failed"; it does not raise
    ConnectionError. *)
Theorem client_execute_after_failed_connect net c s e cd command parse_data :
  socket_socket net = inr s ->
  settimeout net (Client.timeout c) = None ->
  socket_connect net (Client.host c) (Client.port c) = Some e ->
  is_OSError e = true ->
  sendall_raises s = Some socket_error ->
  fst (Client.connect net c) = inl (ConnectionError "Failed to connect")
  /\ Client._execute cd command parse_data (snd (Client.connect net c))
     = (inl (CommandError "Command execution failed"), snd (Client.connect net c))
  /\ (forall msg, fst (Client._execute cd command parse_data (snd (Client.connect net c)))
                  <> inl (ConnectionError msg)).
Proof.
  intros Hs Ht Hc He Hsend.
  assert (E : Client.connect net c
              = (inl (ConnectionError "Failed to connect"),
                 Client.set_socket (Some s) c)).
  { unfold Client.connect. rewrite Hs. simpl. rewrite Ht, Hc.
    unfold Client.connect_handler. rewrite He. reflexivity. }
  assert (X : Client._execute cd command parse_data (Client.set_socket (Some s) c)
              = (inl (CommandError "Command execution failed"),
                 Client.set_socket (Some s) c)).
  { unfold Client._execute, Client.execute_body, sendall. simpl.
    rewrite Hsend. reflexivity. }
  rewrite E. simpl. rewrite X. simpl.
  split; [reflexivity|]. split; [reflexivity|]. intros msg H. discriminate H.
Qed.

Lemma client_execute_after_failed_connect_witness :
  Client._execute one_frame_codec "show version" false
    (snd (Client.connect refused_network (Client.mkClient "127.0.0.1" 9500 (30 # 1)%Q None)))
  = (inl (CommandError "Command execution failed"),
     Client.mkClient "127.0.0.1" 9500 (30 # 1)%Q (Some unconnected_socket)).
Proof.
  destruct (client_execute_after_failed_connect refused_network
              (Client.mkClient "127.0.0.1" 9500 (30 # 1)%Q None)
              unconnected_socket socket_error one_frame_codec "show version" false
              eq_refl eq_refl eq_refl eq_refl eq_refl) as [_ [H _]].
  exact H.
Defined.

(** * Further properties of the parsers *)

Lemma for_each_invariant {S A} (body : S -> A -> M S) (P : S -> Prop) :
  (forall s x s', P s -> body s x = inr s' -> P s') ->
  forall xs s s', P s -> for_each body xs s = inr s' -> P s'.
Proof.
  intros Hbody xs; induction xs as [|x xs IH]; intros s s' Hs; simpl.
  - unfold ret. intros [= <-]. exact Hs.
  - destruct (body s x) as [e|s1] eqn:E; simpl; [discriminate|].
    apply IH. apply (Hbody s x s1 Hs E).
Qed.

(** ** Columns *)

Lemma split_tokens s : Forall is_token (split s).
Proof.
  induction s as [|c s IH]; simpl; [constructor|].
  destruct (isspace c) eqn:Ec; [exact IH|].
  assert (Hone : is_token (String c "")).
  { split; [reflexivity|]. simpl. rewrite Ec. reflexivity. }
  destruct s as [|c' s']; [constructor; [exact Hone|constructor]|].
  destruct (isspace c') eqn:Ec'; [constructor; assumption|].
  destruct (split (String c' s')) as [|h t].
  - constructor; [exact Hone|constructor].
  - inversion IH as [|? ? [Hh1 Hh2] Ht]; subst.
    constructor; [|exact Ht].
    split; [reflexivity|]. simpl. rewrite Ec, Hh2. reflexivity.
Qed.

Lemma index_In {A} (xs : list A) i x : index xs i = inr x -> In x xs.
Proof.
  unfold index. destruct (nth_error xs i) as [y|] eqn:E; [|discriminate].
  intros [= <-]. eapply nth_error_In; eassumption.
Qed.

Lemma split_index_token s i t : index (split s) i = inr t -> is_token t.
Proof.
  intro H. apply index_In in H.
  pose proof (split_tokens s) as Hall.
  rewrite Forall_forall in Hall. apply Hall, H.
Qed.

(** ** Each line is parsed on its own *)

Lemma regions_step_acc regions line :
  regions_step regions line = inr (regions ++ line_regions line)%list.
Proof.
  unfold line_regions, regions_step.
  destruct (is_empty (strip line) || contains "Region Name" line || contains "---" line);
    [simpl; rewrite app_nil_r; reflexivity|].
  destruct (length (split line) <? 3); [simpl; rewrite app_nil_r; reflexivity|].
  pose proof (region_of_parts_caught (split line)) as Hc.
  destruct (region_of_parts (split line)) as [e|r]; simpl in Hc.
  - rewrite Hc. simpl. rewrite app_nil_r. reflexivity.
  - reflexivity.
Qed.

Lemma users_step_acc users line :
  users_step users line = inr (users ++ line_users line)%list.
Proof.
  unfold line_users, users_step.
  destruct (is_empty (strip line) || contains "Name" line || contains "---" line);
    [simpl; rewrite app_nil_r; reflexivity|].
  destruct (length (split line) <? 2); [simpl; rewrite app_nil_r; reflexivity|].
  pose proof (user_of_parts_caught (split line) line) as Hc.
  destruct (user_of_parts (split line) line) as [e|u]; simpl in Hc.
  - rewrite Hc. simpl. rewrite app_nil_r. reflexivity.
  - reflexivity.
Qed.

Lemma for_each_flat_map {S A} (step : list S -> A -> M (list S)) (contrib : A -> list S) :
  (forall acc x, step acc x = inr (acc ++ contrib x)%list) ->
  forall xs acc, for_each step xs acc = inr (acc ++ flat_map contrib xs)%list.
Proof.
  intros Hstep xs; induction xs as [|x xs IH]; intro acc; simpl.
  - rewrite app_nil_r. reflexivity.
  - rewrite Hstep. simpl. rewrite IH, app_assoc. reflexivity.
Qed.

(** X1. The list parsers treat each line on its own: the result of the
    region parser, and of the user parser, is the concatenation in input
    order of what each line of the input contributes, which is at most one
    record. *)
Theorem list_parsers_line_by_line output :
  parse_regions output = inr (flat_map line_regions (lines output))
  /\ parse_users output = inr (flat_map line_users (lines output))
  /\ Forall (fun line => length (line_regions line) <= 1
                         /\ length (line_users line) <= 1) (lines output).
Proof.
  split; [|split].
  - unfold parse_regions.
    rewrite (for_each_flat_map regions_step line_regions regions_step_acc). reflexivity.
  - unfold parse_users.
    rewrite (for_each_flat_map users_step line_users users_step_acc). reflexivity.
  - apply Forall_forall. intros line _. split.
    + unfold line_regions.
      destruct (regions_step_cases [] line) as [E|[r [E _]]]; rewrite E; simpl; lia.
    + unfold line_users.
      destruct (users_step_cases [] line) as [E|[u [E _]]]; rewrite E; simpl; lia.
Qed.

(** ** The fields of the records *)

Lemma line_regions_In line r :
  In r (line_regions line) -> regions_step [] line = inr [r].
Proof.
  unfold line_regions.
  destruct (regions_step_cases [] line) as [E|[r' [E _]]]; rewrite E; simpl.
  - contradiction.
  - intros [<-|[]]. reflexivity.
Qed.

Lemma line_users_In line u :
  In u (line_users line) -> users_step [] line = inr [u].
Proof.
  unfold line_users.
  destruct (users_step_cases [] line) as [E|[u' [E _]]]; rewrite E; simpl.
  - contradiction.
  - intros [<-|[]]. reflexivity.
Qed.

Lemma region_of_parts_fields parts r :
  region_of_parts parts = inr r ->
  index parts 0 = inr (name r)
  /\ (if 1 <? length parts then index parts 1 else ret "") = inr (uuid r)
  /\ int_pair parts 3 "x" (256, 256)%Z = inr (size r)
  /\ (if 4 <? length parts
      then p <- index parts 4 ;; v <- int p ;; ret (Some v)
      else ret None) = inr (port r)
  /\ external_hostname r = None.
Proof.
  unfold region_of_parts, bind.
  destruct (index parts 0) as [|n]; [discriminate|].
  destruct (if 1 <? length parts then index parts 1 else ret "") as [|u]; [discriminate|].
  destruct (int_pair parts 2 "," (0, 0)%Z) as [|[lx ly]]; [discriminate|].
  destruct (int_pair parts 3 "x" (256, 256)%Z) as [|[sx sy]]; [discriminate|].
  match goal with |- match ?p with inl _ => _ | inr _ => _ end = _ -> _ =>
    destruct p as [|p']; [discriminate|] end.
  intros [= <-]. repeat split.
Qed.

Lemma user_of_parts_fields parts line u :
  user_of_parts parts line = inr u ->
  index parts 0 = inr (first_name u)
  /\ (if 1 <? length parts then index parts 1 else ret "") = inr (last_name u)
  /\ (if 2 <? length parts then r <- index parts 2 ;; ret (Some r) else ret None)
     = inr (region u)
  /\ user_uuid u = None /\ online u = true /\ level u = 0%Z.
Proof.
  unfold user_of_parts, bind.
  destruct (index parts 0) as [|f]; [discriminate|].
  destruct (if 1 <? length parts then index parts 1 else ret "") as [|l]; [discriminate|].
  match goal with |- match ?p with inl _ => _ | inr _ => _ end = _ -> _ =>
    destruct p as [|rg]; [discriminate|] end.
  destruct (position_of_line parts line) as [|p]; [discriminate|].
  intros [= <-]. repeat split.
Qed.

Lemma int_pair_absent parts i sep dflt :
  length parts <= i -> int_pair parts i sep dflt = inr dflt.
Proof.
  intro H. unfold int_pair. apply Nat.ltb_ge in H. rewrite H. reflexivity.
Qed.

(** X2. Every Region that the region parser returns has for name and uuid
    the first two whitespace columns of its line: both are non-empty and
    contain no whitespace (a region name of several words is cut to its
    first word), and the external hostname is never set. *)
Theorem parse_regions_names output regions :
  parse_regions output = inr regions ->
  Forall (fun r => is_token (name r) /\ is_token (uuid r)
                   /\ external_hostname r = None
                   /\ exists line, In line (lines output)
                                   /\ nth_error (split line) 0 = Some (name r)
                                   /\ nth_error (split line) 1 = Some (uuid r))
         regions.
Proof.
  destruct (list_parsers_line_by_line output) as [E _]. rewrite E.
  intros [= <-]. apply Forall_forall. intros r Hr.
  apply in_flat_map in Hr as [line [Hline Hr]].
  apply line_regions_In in Hr.
  destruct (regions_step_contributes _ _ Hr) as [Hparts Hlen].
  destruct (region_of_parts_fields _ _ Hparts) as [Hn [Hu [_ [_ Hh]]]].
  assert (H1 : (1 <? length (split line)) = true) by (apply Nat.ltb_lt; lia).
  rewrite H1 in Hu.
  split; [eapply split_index_token; eassumption|].
  split; [eapply split_index_token; eassumption|].
  split; [exact Hh|].
  exists line. split; [exact Hline|].
  unfold index in Hn, Hu.
  destruct (nth_error (split line) 0); [|discriminate].
  destruct (nth_error (split line) 1); [|discriminate].
  injection Hn as ->. injection Hu as ->. split; reflexivity.
Qed.

Lemma parse_regions_names_witness :
  Forall (fun r => is_token (name r) /\ is_token (uuid r)
                   /\ external_hostname r = None
                   /\ exists line,
                        In line (lines "My Region  1111  1000,1000")
                        /\ nth_error (split line) 0 = Some (name r)
                        /\ nth_error (split line) 1 = Some (uuid r))
         [mkRegion "My" "Region" 0 0 256 256 None None].
Proof.
  apply (parse_regions_names "My Region  1111  1000,1000"). reflexivity.
Defined.

(** X3. For a line that contributes a Region: the size is the two integers
    of the fourth column when it splits on "x" into exactly two parts, and
    256 by 256 when it splits otherwise or the line has three columns; the
    port is the integer of the fifth column, and absent when the line has no
    fifth column. *)
Theorem region_size_and_port line r :
  regions_step [] line = inr [r] ->
  (forall col, nth_error (split line) 3 = Some col ->
     (length (split_on "x" col) = 2 ->
      exists a b, split_on "x" col = [a; b]
                  /\ int a = inr (size_x r) /\ int b = inr (size_y r))
     /\ (length (split_on "x" col) <> 2 -> size r = (256, 256)%Z))
  /\ (length (split line) <= 3 -> size r = (256, 256)%Z)
  /\ (forall p, nth_error (split line) 4 = Some p ->
        exists v, int p = inr v /\ port r = Some v)
  /\ (length (split line) <= 4 -> port r = None).
Proof.
  intro Hstep.
  destruct (regions_step_contributes _ _ Hstep) as [Hparts _].
  destruct (region_of_parts_fields _ _ Hparts) as [_ [_ [Hsize [Hport _]]]].
  split; [|split; [|split]].
  - intros col Hcol. split.
    + intro Hlen. destruct (length_two _ Hlen) as [a [b Hsplit]].
      exists a, b. split; [exact Hsplit|].
      rewrite (int_pair_two _ 3 "x" (256, 256)%Z col a b Hcol Hsplit) in Hsize.
      unfold bind in Hsize.
      destruct (int a) as [|x]; [discriminate|].
      destruct (int b) as [|y]; [discriminate|].
      simpl in Hsize. unfold size in Hsize. injection Hsize as <- <-.
      split; reflexivity.
    + intro Hlen.
      rewrite (int_pair_default _ 3 "x" (256, 256)%Z col Hcol Hlen) in Hsize.
      congruence.
  - intro Hlen. rewrite (int_pair_absent _ 3 "x" (256, 256)%Z Hlen) in Hsize.
    congruence.
  - intros p Hp. rewrite (nth_error_lt _ _ _ Hp) in Hport.
    unfold index, bind in Hport. rewrite Hp in Hport. simpl in Hport.
    destruct (int p) as [|v]; [discriminate|].
    exists v. split; [reflexivity|]. unfold ret in Hport. congruence.
  - intro Hlen. apply Nat.ltb_ge in Hlen. rewrite Hlen in Hport.
    unfold ret in Hport. congruence.
Qed.

Lemma region_size_and_port_witness :
  (exists a b, split_on "x" "512x256" = [a; b]
               /\ int a = inr 512%Z /\ int b = inr 256%Z)
  /\ (exists v, int "9000" = inr v /\ Some 9000%Z = Some v)
  /\ size (mkRegion "Beta" "2222" 0 0 256 256 None None) = (256, 256)%Z
  /\ port (mkRegion "Beta" "2222" 0 0 256 256 None None) = None.
Proof.
  destruct (region_size_and_port "Alpha 1111 1000,1000 512x256 9000"
              (mkRegion "Alpha" "1111" 1000 1000 512 256 None (Some 9000%Z)) eq_refl)
    as [Hsize [_ [Hport _]]].
  destruct (region_size_and_port "Beta 2222 0,0"
              (mkRegion "Beta" "2222" 0 0 256 256 None None) eq_refl)
    as [_ [Hdef [_ Hnone]]].
  split; [apply (Hsize "512x256"); reflexivity|].
  split; [apply (Hport "9000"); reflexivity|].
  split; [apply Hdef; simpl; lia|apply Hnone; simpl; lia].
Defined.

(** X4. Every User that the user parser returns is marked online, has level
    0 and no uuid; its first and last name are the first two whitespace
    columns of its line, and its region the third column when the line has
    one, absent otherwise. *)
Theorem parse_users_fields output users :
  parse_users output = inr users ->
  Forall (fun u => online u = true /\ level u = 0%Z /\ user_uuid u = None
                   /\ is_token (first_name u) /\ is_token (last_name u)
                   /\ exists line, In line (lines output)
                                   /\ nth_error (split line) 0 = Some (first_name u)
                                   /\ nth_error (split line) 1 = Some (last_name u)
                                   /\ nth_error (split line) 2 = region u)
         users.
Proof.
  destruct (list_parsers_line_by_line output) as [_ [E _]]. rewrite E.
  intros [= <-]. apply Forall_forall. intros u Hu.
  apply in_flat_map in Hu as [line [Hline Hu]].
  apply line_users_In in Hu.
  destruct (users_step_contributes _ _ Hu) as [Hparts Hlen].
  destruct (user_of_parts_fields _ _ _ Hparts) as [Hf [Hl [Hr [Hid [Hon Hlv]]]]].
  assert (H1 : (1 <? length (split line)) = true) by (apply Nat.ltb_lt; lia).
  rewrite H1 in Hl.
  split; [exact Hon|]. split; [exact Hlv|]. split; [exact Hid|].
  split; [eapply split_index_token; eassumption|].
  split; [eapply split_index_token; eassumption|].
  exists line. split; [exact Hline|].
  unfold index in Hf, Hl.
  destruct (nth_error (split line) 0); [|discriminate].
  destruct (nth_error (split line) 1); [|discriminate].
  injection Hf as ->. injection Hl as ->. split; [reflexivity|]. split; [reflexivity|].
  destruct (2 <? length (split line)) eqn:E2.
  - unfold index, bind, ret in Hr.
    destruct (nth_error (split line) 2); [|discriminate]. congruence.
  - apply Nat.ltb_ge in E2. unfold ret in Hr. injection Hr as <-.
    apply nth_error_None. exact E2.
Qed.

Lemma parse_users_fields_witness :
  Forall (fun u => online u = true /\ level u = 0%Z /\ user_uuid u = None
                   /\ is_token (first_name u) /\ is_token (last_name u)
                   /\ exists line,
                        In line (lines "Jane Doe")
                        /\ nth_error (split line) 0 = Some (first_name u)
                        /\ nth_error (split line) 1 = Some (last_name u)
                        /\ nth_error (split line) 2 = region u)
         [mkUser "Jane" "Doe" None None None true 0%Z].
Proof.
  apply (parse_users_fields "Jane Doe"). reflexivity.
Defined.

(** ** The statistics parser on unrecognised input *)

Lemma prefix_contains b s : prefix b s = true -> contains b s = true.
Proof.
  intro H. destruct s as [|c s].
  - change (contains b "") with (prefix b "" || false). rewrite H. reflexivity.
  - change (contains b (String c s)) with (prefix b (String c s) || contains b s).
    rewrite H. reflexivity.
Qed.

Lemma prefix_app_contains a b s : prefix (a ++ b) s = true -> contains b s = true.
Proof.
  revert s; induction a as [|c a IH]; intros s; simpl.
  - apply prefix_contains.
  - destruct s as [|c' s']; simpl; [discriminate|].
    destruct (ascii_dec c c'); [|discriminate].
    intro H. rewrite (IH _ H). apply orb_true_r.
Qed.

(** A string that contains [a ++ b] contains [b]. *)
Lemma contains_app_r a b s : contains (a ++ b) s = true -> contains b s = true.
Proof.
  induction s as [|c s IH].
  - intro H. change (contains (a ++ b) "") with (prefix (a ++ b) "" || false) in H.
    rewrite orb_false_r in H. apply prefix_app_contains in H. exact H.
  - intro H. change (contains (a ++ b) (String c s))
      with (prefix (a ++ b) (String c s) || contains (a ++ b) s) in H.
    apply orb_prop in H as [H|H].
    + apply prefix_app_contains in H. exact H.
    + change (contains b (String c s)) with (prefix b (String c s) || contains b s).
      rewrite (IH H). apply orb_true_r.
Qed.

Lemma stats_step_keeps_uptime line st st' :
  stats_step st line = inr st' -> uptime st' = uptime st.
Proof. unfold stats_step. keeps_tac. Qed.

Lemma stats_step_no_keyword line st :
  stats_keyword line = false -> stats_step st line = inr st.
Proof.
  unfold stats_keyword, stats_step. intro H.
  repeat (apply orb_false_elim in H as [H ?]).
  assert (Hp : contains "physics fps" (lower (strip line)) = false).
  { destruct (contains "physics fps" (lower (strip line))) eqn:E; [|reflexivity].
    apply (contains_app_r "physics " "fps") in E. congruence. }
  rewrite H, Hp.
  repeat match goal with
         | Hc : contains _ _ = false |- _ => rewrite Hc; clear Hc
         end.
  reflexivity.
Qed.

(** X5. The stats parser never sets the uptime field; and on an input none
    of whose lines has one of the keywords fps, agents, objects, scripts or
    memory (in any case) it returns the Stats record with every field
    unset. *)
Theorem parse_stats_unset_fields output :
  (forall stats, parse_stats output = inr stats -> uptime stats = None)
  /\ (Forall (fun line => stats_keyword line = false) (lines output) ->
      parse_stats output = inr Stats_default).
Proof.
  split.
  - intros stats. unfold parse_stats.
    apply (for_each_invariant stats_step (fun st => uptime st = None)); [|reflexivity].
    intros s x s' Hs E. rewrite (stats_step_keeps_uptime _ _ _ E). exact Hs.
  - unfold parse_stats. generalize Stats_default.
    induction (lines output) as [|l ls IH]; intros st Hall; simpl; [reflexivity|].
    inversion Hall as [|? ? Hl Hls]; subst.
    rewrite (stats_step_no_keyword l st Hl). simpl. apply IH, Hls.
Qed.

Lemma parse_stats_unset_fields_witness :
  uptime (mkStats None None (Some 3%Z) None None None None) = None
  /\ parse_stats ("Uptime: 3 days" ++ String nl "Region: Alpha") = inr Stats_default.
Proof.
  split.
  - apply (parse_stats_unset_fields "Uptime: 3 days, Agents: 5"). reflexivity.
  - apply (parse_stats_unset_fields ("Uptime: 3 days" ++ String nl "Region: Alpha")).
    repeat constructor.
Defined.

(** ** The terrain parser *)

Lemma all_digits_app a b :
  all_digits a = true -> all_digits b = true -> all_digits (a ++ b) = true.
Proof.
  intros Ha Hb; induction a as [|c a IH]; simpl in *; [exact Hb|].
  apply andb_prop in Ha as [Hc Ha]. rewrite Hc, (IH Ha). reflexivity.
Qed.

Lemma digit_val_nonneg c : isdigit c = true -> (0 <= digit_val c)%Z.
Proof. each_char c; intros _; vm_compute; discriminate. Qed.

Lemma digits_value_nonneg d acc :
  all_digits d = true -> (0 <= acc)%Z -> (0 <= digits_value acc d)%Z.
Proof.
  revert acc; induction d as [|c d IH]; intros acc Hd Hacc; simpl; [exact Hacc|].
  simpl in Hd. apply andb_prop in Hd as [Hc Hd].
  apply IH; [exact Hd|]. pose proof (digit_val_nonneg c Hc). lia.
Qed.

Lemma Qred_nonneg z p : (0 <= z)%Z -> (0 <= Qred (z # p))%Q.
Proof.
  intro H. rewrite Qred_correct. unfold Qle. simpl. lia.
Qed.

(** [float()] reads no sign: its value on a captured group is not negative. *)
Lemma float_nonneg g q : float g = inr q -> (0 <= q)%Q.
Proof.
  unfold float. destruct (span_digits g) as [ip r] eqn:E.
  destruct (span_digits_spec _ _ _ E) as [_ [Hip _]].
  destruct (is_empty ip); [discriminate|].
  destruct r as [|c fr].
  - intros [= <-]. apply Qred_nonneg, digits_value_nonneg; [exact Hip|lia].
  - destruct (span_digits fr) as [fp r'] eqn:E'.
    destruct (span_digits_spec _ _ _ E') as [_ [Hfp _]].
    destruct (Ascii.eqb_spec c ".") as [->|Hc].
    + destruct (is_empty r'); [|discriminate].
      intros [= <-]. apply Qred_nonneg, digits_value_nonneg; [|lia].
      apply all_digits_app; assumption.
    + clear - Hc. destruct c as [[] [] [] [] [] [] [] []]; try discriminate.
      exfalso; apply Hc; reflexivity.
Qed.

Lemma read_height_total line h :
  (0 <= h)%Q -> exists v, read_height line h = inr v /\ (0 <= v)%Q.
Proof.
  intro Hh. unfold read_height.
  destruct (search_number line) as [g|] eqn:E; [|exists h; split; [reflexivity|exact Hh]].
  destruct (search_number_convertible _ _ E) as [q Hq].
  exists q. split; [exact Hq|]. apply (float_nonneg _ _ Hq).
Qed.

Lemma terrain_step_total h line :
  nonneg3 h -> exists h', terrain_step h line = inr h' /\ nonneg3 h'.
Proof.
  destruct h as [[mn mx] av]. intros [Hmn [Hmx Hav]]. unfold terrain_step.
  destruct (contains "min" (lower line)).
  { destruct (read_height_total line mn Hmn) as [v [-> Hv]].
    eexists; split; [reflexivity|]. repeat split; assumption. }
  destruct (contains "max" (lower line)).
  { destruct (read_height_total line mx Hmx) as [v [-> Hv]].
    eexists; split; [reflexivity|]. repeat split; assumption. }
  destruct (contains "avg" (lower line) || contains "average" (lower line)).
  { destruct (read_height_total line av Hav) as [v [-> Hv]].
    eexists; split; [reflexivity|]. repeat split; assumption. }
  eexists; split; [reflexivity|]. repeat split; assumption.
Qed.

Lemma terrain_step_no_keyword h line :
  terrain_keyword line = false -> terrain_step h line = inr h.
Proof.
  unfold terrain_keyword, terrain_step. intro H. destruct h as [[mn mx] av].
  repeat (apply orb_false_elim in H as [H ?]).
  rewrite H.
  repeat match goal with
         | Hc : contains _ _ = false |- _ => rewrite Hc; clear Hc
         end.
  reflexivity.
Qed.

(** X6. The terrain parser never returns None: for every input it returns a
    TerrainInfo.  None of its three heights is negative, since the pattern
    reads an unsigned number (a height written "-5.5" comes back as 5.5);
    and when no line has one of the keywords min, max, avg or average the
    three heights are 0.0. *)
Theorem parse_terrain_stats_total output :
  (exists t, parse_terrain_stats output = Some t
             /\ (0 <= min_height t)%Q /\ (0 <= max_height t)%Q
             /\ (0 <= avg_height t)%Q)
  /\ (Forall (fun line => terrain_keyword line = false) (lines output) ->
      parse_terrain_stats output
      = Some (mkTerrainInfo zero_height zero_height zero_height)).
Proof.
  split.
  - unfold parse_terrain_stats.
    destruct (for_each_total terrain_step (fun h _ => nonneg3 h)) with
      (xs := lines output) (s := (zero_height, zero_height, zero_height)) (n := 0)
      as [[[mn mx] av] [E [Hmn [Hmx Hav]]]].
    + intros s n x Hs. destruct (terrain_step_total s x Hs) as [h' [E' H']]. eauto.
    + repeat split; discriminate.
    + rewrite E. eexists; split; [reflexivity|]. repeat split; assumption.
  - unfold parse_terrain_stats.
    assert (H : forall ls h, Forall (fun line => terrain_keyword line = false) ls ->
                             for_each terrain_step ls h = inr h).
    { induction ls as [|l ls IH]; intros h Hall; simpl; [reflexivity|].
      inversion Hall as [|? ? Hl Hls]; subst.
      rewrite (terrain_step_no_keyword h l Hl). simpl. apply IH, Hls. }
    intro Hall. rewrite (H _ _ Hall). reflexivity.
Qed.

Lemma parse_terrain_stats_total_witness :
  parse_terrain_stats "Terrain is flat" = Some (mkTerrainInfo zero_height zero_height zero_height)
  /\ parse_terrain_stats ("Min: -5.5" ++ String nl "Max: 30")
     = Some (mkTerrainInfo (11 # 2)%Q (30 # 1)%Q zero_height).
Proof.
  split; [|reflexivity].
  apply (parse_terrain_stats_total "Terrain is flat"). repeat constructor.
Defined.

(** * Further properties of the clients *)

(** ** The receive loops on a complete frame and on an error *)

Lemma append_empty_r (s : string) : s ++ "" = s.
Proof. induction s; simpl; congruence. Qed.

Lemma append_assoc (a b c : string) : (a ++ b) ++ c = a ++ (b ++ c).
Proof. induction a; simpl; congruence. Qed.

Lemma open_chunk_inv ch :
  open_chunk ch = true -> is_empty ch = false /\ has_newline ch = false.
Proof.
  unfold open_chunk. intro H. apply andb_prop in H as [He Hn].
  apply negb_true_iff in He. apply negb_true_iff in Hn. split; assumption.
Qed.

Lemma closing_chunk_inv ch :
  closing_chunk ch = true -> is_empty ch = false /\ has_newline ch = true.
Proof.
  unfold closing_chunk. intro H. apply andb_prop in H as [He Hn].
  apply negb_true_iff in He. split; assumption.
Qed.

Lemma client_recv_loop_frame chunks last rest acc :
  Forall (fun ch => open_chunk ch = true) chunks ->
  closing_chunk last = true ->
  Client.recv_loop (frame_then chunks last rest) acc
  = (inr (acc ++ joined chunks ++ last), rest).
Proof.
  unfold frame_then. intros H Hlast. apply closing_chunk_inv in Hlast as [He Hn].
  revert acc; induction H as [|ch chunks Hch _ IH]; intro acc; simpl.
  - rewrite He, Hn. reflexivity.
  - apply open_chunk_inv in Hch as [He' Hn'].
    rewrite He', Hn', IH, !append_assoc. reflexivity.
Qed.

Lemma pymote_recv_loop_frame chunks last rest acc :
  Forall (fun ch => open_chunk ch = true) chunks ->
  closing_chunk last = true ->
  Pymote.recv_loop (frame_then chunks last rest) acc
  = (inr (acc ++ joined chunks ++ last), rest).
Proof.
  unfold frame_then. intros H Hlast. apply closing_chunk_inv in Hlast as [He Hn].
  revert acc; induction H as [|ch chunks Hch _ IH]; intro acc; simpl.
  - rewrite He, Hn. reflexivity.
  - apply open_chunk_inv in Hch as [He' Hn'].
    rewrite He', Hn', IH, !append_assoc. reflexivity.
Qed.

Lemma client_recv_loop_raises chunks e rest acc :
  Forall (fun ch => open_chunk ch = true) chunks ->
  Client.recv_loop (raises_then chunks e rest) acc = (inl e, rest).
Proof.
  unfold raises_then. intros H.
  revert acc; induction H as [|ch chunks Hch _ IH]; intro acc; simpl.
  - reflexivity.
  - apply open_chunk_inv in Hch as [He' Hn']. rewrite He', Hn'. apply IH.
Qed.

Lemma pymote_recv_loop_raises chunks e rest acc :
  Forall (fun ch => open_chunk ch = true) chunks ->
  Pymote.recv_loop (raises_then chunks e rest) acc = (inl e, rest).
Proof.
  unfold raises_then. intros H.
  revert acc; induction H as [|ch chunks Hch _ IH]; intro acc; simpl.
  - reflexivity.
  - apply open_chunk_inv in Hch as [He' Hn']. rewrite He', Hn'. apply IH.
Qed.

(** ** [execute] on a socket that takes the request *)

Lemma client_execute_unfold cd command parse_data c s :
  Client.socket c = Some s ->
  sendall_raises s = None ->
  Client._execute cd command parse_data c
  = match Client.recv_loop (incoming s) "" with
    | (inl e, rest) =>
        (inl (Client.execute_handler e),
         Client.set_socket (Some (socket_after s (client_request cd command) rest)) c)
    | (inr response_data, rest) =>
        (client_outcome cd command parse_data response_data,
         Client.set_socket (Some (socket_after s (client_request cd command) rest)) c)
    end.
Proof.
  intros Hs Hsend.
  unfold Client._execute, Client.execute_body, sendall, client_outcome,
    socket_after, client_request, with_incoming.
  rewrite Hs, Hsend. simpl.
  destruct (Client.recv_loop (incoming s) "") as [[e|response_data] rest];
    [reflexivity|].
  destruct (Client.classify cd command parse_data response_data); reflexivity.
Qed.

Lemma pymote_execute_unfold cd command parameters c s :
  Pymote._connected c = true ->
  Pymote._socket c = Some s ->
  sendall_raises s = None ->
  Pymote._execute_command cd command parameters c
  = match Pymote.recv_loop (incoming s) "" with
    | (inl e, rest) =>
        (inl (Pymote.execute_handler e),
         Pymote.set_socket
           (Some (socket_after s (pymote_request cd command parameters) rest)) c)
    | (inr response_data, rest) =>
        (pymote_outcome cd response_data,
         Pymote.set_socket
           (Some (socket_after s (pymote_request cd command parameters) rest)) c)
    end.
Proof.
  intros Hc Hs Hsend.
  unfold Pymote._execute_command, Pymote.execute_body, sendall, pymote_outcome,
    socket_after, pymote_request, with_incoming.
  rewrite Hc, Hs, Hsend. simpl.
  destruct (Pymote.recv_loop (incoming s) "") as [[e|response_data] rest];
    [reflexivity|].
  destruct (Pymote.classify cd response_data); reflexivity.
Qed.

Lemma client_execute_frame cd command parse_data c s chunks last rest :
  Client.socket c = Some s ->
  sendall_raises s = None ->
  incoming s = frame_then chunks last rest ->
  Forall (fun ch => open_chunk ch = true) chunks ->
  closing_chunk last = true ->
  Client._execute cd command parse_data c
  = (client_outcome cd command parse_data (joined chunks ++ last),
     Client.set_socket (Some (socket_after s (client_request cd command) rest)) c).
Proof.
  intros Hs Hsend Hin Hopen Hlast.
  rewrite (client_execute_unfold cd command parse_data c s Hs Hsend), Hin.
  rewrite (client_recv_loop_frame chunks last rest "" Hopen Hlast). reflexivity.
Qed.

Lemma pymote_execute_frame cd command parameters c s chunks last rest :
  Pymote._connected c = true ->
  Pymote._socket c = Some s ->
  sendall_raises s = None ->
  incoming s = frame_then chunks last rest ->
  Forall (fun ch => open_chunk ch = true) chunks ->
  closing_chunk last = true ->
  Pymote._execute_command cd command parameters c
  = (pymote_outcome cd (joined chunks ++ last),
     Pymote.set_socket
       (Some (socket_after s (pymote_request cd command parameters) rest)) c).
Proof.
  intros Hc Hs Hsend Hin Hopen Hlast.
  rewrite (pymote_execute_unfold cd command parameters c s Hc Hs Hsend), Hin.
  rewrite (pymote_recv_loop_frame chunks last rest "" Hopen Hlast). reflexivity.
Qed.

(** X7. On a connected client whose socket takes the request, [execute]
    writes the request frame, reads up to and including the first chunk
    that carries a newline, and classifies the bytes read so far; the reads
    that follow stay on the socket for the next command.  This holds for
    [_execute] of client.py and for [_execute_command] of pymote.py. *)
Theorem execute_reads_one_frame cd command chunks last rest :
  Forall (fun ch => open_chunk ch = true) chunks ->
  closing_chunk last = true ->
  (forall parse_data c s,
      Client.socket c = Some s ->
      sendall_raises s = None ->
      incoming s = frame_then chunks last rest ->
      Client._execute cd command parse_data c
      = (client_outcome cd command parse_data (joined chunks ++ last),
         Client.set_socket (Some (socket_after s (client_request cd command) rest)) c))
  /\ (forall parameters c s,
        Pymote._connected c = true ->
        Pymote._socket c = Some s ->
        sendall_raises s = None ->
        incoming s = frame_then chunks last rest ->
        Pymote._execute_command cd command parameters c
        = (pymote_outcome cd (joined chunks ++ last),
           Pymote.set_socket
             (Some (socket_after s (pymote_request cd command parameters) rest)) c)).
Proof.
  intros Hopen Hlast. split.
  - intros parse_data c s Hs Hsend Hin.
    apply (client_execute_frame cd command parse_data c s chunks last rest); assumption.
  - intros parameters c s Hc Hs Hsend Hin.
    apply (pymote_execute_frame cd command parameters c s chunks last rest); assumption.
Qed.

Lemma execute_reads_one_frame_witness :
  Client._execute (constant_codec (success_response "ok")) "show version" false
    (Client.mkClient "h" 9500 (30 # 1)%Q
       (Some (mkSocket None [Recv "{"; Recv one_line; Recv one_line] "")))
  = (inr (Client.mkCommandResult true (PyStr "ok") NoData PyNone),
     Client.mkClient "h" 9500 (30 # 1)%Q
       (Some (mkSocket None [Recv one_line] one_line)))
  /\ Pymote._execute_command (constant_codec (success_response "ok")) "show version" None
       (Pymote.mkClient "h" 9500 (30 # 1)%Q
          (Some (mkSocket None [Recv "{"; Recv one_line; Recv one_line] "")) true)
     = (inr (PyStr "ok"),
        Pymote.mkClient "h" 9500 (30 # 1)%Q
          (Some (mkSocket None [Recv one_line] one_line)) true).
Proof.
  destruct (execute_reads_one_frame (constant_codec (success_response "ok"))
              "show version" ["{"] one_line [Recv one_line])
    as [Hc Hp]; [repeat constructor|reflexivity|].
  split.
  - etransitivity;
      [apply (Hc false _ (mkSocket None [Recv "{"; Recv one_line; Recv one_line] ""));
       reflexivity|reflexivity].
  - etransitivity;
      [apply (Hp None _ (mkSocket None [Recv "{"; Recv one_line; Recv one_line] ""));
       reflexivity|reflexivity].
Defined.

(** X8. On a connected client whose socket takes the request, [execute]
    appends exactly one request frame to the bytes written, whatever the
    peer answers and whether the call returns or raises. *)
Theorem execute_sends_one_request cd command :
  (forall parse_data c s,
      Client.socket c = Some s ->
      sendall_raises s = None ->
      Client.bytes_sent (snd (Client._execute cd command parse_data c))
      = sent s ++ client_request cd command)
  /\ (forall parameters c s,
        Pymote._connected c = true ->
        Pymote._socket c = Some s ->
        sendall_raises s = None ->
        Pymote.bytes_sent (snd (Pymote._execute_command cd command parameters c))
        = sent s ++ pymote_request cd command parameters).
Proof.
  split.
  - intros parse_data c s Hs Hsend.
    rewrite (client_execute_unfold cd command parse_data c s Hs Hsend).
    destruct (Client.recv_loop (incoming s) "") as [[e|d] rest]; reflexivity.
  - intros parameters c s Hc Hs Hsend.
    rewrite (pymote_execute_unfold cd command parameters c s Hc Hs Hsend).
    destruct (Pymote.recv_loop (incoming s) "") as [[e|d] rest]; reflexivity.
Qed.

Lemma execute_sends_one_request_witness :
  Client.bytes_sent
    (snd (Client._execute one_frame_codec "show version" false
            (Client.mkClient "h" 9500 (30 # 1)%Q (Some (mkSocket None [] "sent before")))))
  = "sent before" ++ client_request one_frame_codec "show version"
  /\ Pymote.bytes_sent
       (snd (Pymote._execute_command one_frame_codec "show version" None
               (Pymote.mkClient "h" 9500 (30 # 1)%Q
                  (Some (mkSocket None [Recv ""] "sent before")) true)))
     = "sent before" ++ pymote_request one_frame_codec "show version" None.
Proof.
  destruct (execute_sends_one_request one_frame_codec "show version") as [Hc Hp].
  split.
  - apply (Hc false _ (mkSocket None [] "sent before")); reflexivity.
  - apply (Hp None _ (mkSocket None [Recv ""] "sent before")); reflexivity.
Defined.

Lemma client_set_socket_same c s :
  Client.socket c = Some s -> Client.set_socket (Some s) c = c.
Proof. destruct c; simpl; intros ->; reflexivity. Qed.

Lemma pymote_set_socket_same c s :
  Pymote._socket c = Some s -> Pymote.set_socket (Some s) c = c.
Proof. destruct c; simpl; intros ->; reflexivity. Qed.

(** X9. When [sendall] fails, [execute] reads nothing and leaves the client
    and its socket as they were; a timeout is reported as ConnectionError
    "Command timeout" and another socket error as CommandError, by both
    clients. *)
Theorem execute_send_failure cd command :
  (forall parse_data c s,
      Client.socket c = Some s ->
      (sendall_raises s = Some socket_timeout ->
       Client._execute cd command parse_data c
       = (inl (ConnectionError "Command timeout"), c))
      /\ (sendall_raises s = Some socket_error ->
          Client._execute cd command parse_data c
          = (inl (CommandError "Command execution failed"), c)))
  /\ (forall parameters c s,
        Pymote._connected c = true ->
        Pymote._socket c = Some s ->
        (sendall_raises s = Some socket_timeout ->
         Pymote._execute_command cd command parameters c
         = (inl (ConnectionError "Command timeout"), c))
        /\ (sendall_raises s = Some socket_error ->
            Pymote._execute_command cd command parameters c
            = (inl (CommandError "Command execution error"), c))).
Proof.
  split.
  - intros parse_data c s Hs.
    split; intro Hsend;
      unfold Client._execute, Client.execute_body, sendall;
      rewrite Hs, Hsend; simpl;
      rewrite (client_set_socket_same c s Hs); reflexivity.
  - intros parameters c s Hc Hs.
    split; intro Hsend;
      unfold Pymote._execute_command, Pymote.execute_body, sendall;
      rewrite Hc, Hs, Hsend; simpl;
      rewrite (pymote_set_socket_same c s Hs); reflexivity.
Qed.

Lemma execute_send_failure_witness :
  Client._execute one_frame_codec "backup" false
    (Client.mkClient "h" 9500 (30 # 1)%Q
       (Some (mkSocket (Some socket_timeout) [Recv one_line] "")))
  = (inl (ConnectionError "Command timeout"),
     Client.mkClient "h" 9500 (30 # 1)%Q
       (Some (mkSocket (Some socket_timeout) [Recv one_line] "")))
  /\ Pymote._execute_command one_frame_codec "backup" None
       (Pymote.mkClient "h" 9500 (30 # 1)%Q
          (Some (mkSocket (Some socket_error) [Recv one_line] "")) true)
     = (inl (CommandError "Command execution error"),
        Pymote.mkClient "h" 9500 (30 # 1)%Q
          (Some (mkSocket (Some socket_error) [Recv one_line] "")) true).
Proof.
  destruct (execute_send_failure one_frame_codec "backup") as [Hc Hp].
  split.
  - apply (Hc false _ (mkSocket (Some socket_timeout) [Recv one_line] ""));
      reflexivity.
  - apply (Hp None _ (mkSocket (Some socket_error) [Recv one_line] ""));
      reflexivity.
Defined.

(** X10. When a call of [recv] raises before any newline was read, both
    clients report a timeout as ConnectionError "Command timeout" and
    another socket error as CommandError; the request was written and the
    reads after the failing one stay on the socket. *)
Theorem execute_recv_failure cd command chunks rest :
  Forall (fun ch => open_chunk ch = true) chunks ->
  (forall parse_data c s,
      Client.socket c = Some s ->
      sendall_raises s = None ->
      (incoming s = raises_then chunks socket_timeout rest ->
       Client._execute cd command parse_data c
       = (inl (ConnectionError "Command timeout"),
          Client.set_socket (Some (socket_after s (client_request cd command) rest)) c))
      /\ (incoming s = raises_then chunks socket_error rest ->
          Client._execute cd command parse_data c
          = (inl (CommandError "Command execution failed"),
             Client.set_socket
               (Some (socket_after s (client_request cd command) rest)) c)))
  /\ (forall parameters c s,
        Pymote._connected c = true ->
        Pymote._socket c = Some s ->
        sendall_raises s = None ->
        (incoming s = raises_then chunks socket_timeout rest ->
         Pymote._execute_command cd command parameters c
         = (inl (ConnectionError "Command timeout"),
            Pymote.set_socket
              (Some (socket_after s (pymote_request cd command parameters) rest)) c))
        /\ (incoming s = raises_then chunks socket_error rest ->
            Pymote._execute_command cd command parameters c
            = (inl (CommandError "Command execution error"),
               Pymote.set_socket
                 (Some (socket_after s (pymote_request cd command parameters) rest)) c))).
Proof.
  intro Hopen. split.
  - intros parse_data c s Hs Hsend.
    split; intro Hin;
      rewrite (client_execute_unfold cd command parse_data c s Hs Hsend), Hin;
      rewrite (client_recv_loop_raises chunks _ rest "" Hopen); reflexivity.
  - intros parameters c s Hc Hs Hsend.
    split; intro Hin;
      rewrite (pymote_execute_unfold cd command parameters c s Hc Hs Hsend), Hin;
      rewrite (pymote_recv_loop_raises chunks _ rest "" Hopen); reflexivity.
Qed.

Lemma execute_recv_failure_witness :
  fst (Client._execute one_frame_codec "backup" false
         (Client.mkClient "h" 9500 (30 # 1)%Q
            (Some (mkSocket None [Recv "{"; RecvRaises socket_timeout] ""))))
  = inl (ConnectionError "Command timeout")
  /\ fst (Pymote._execute_command one_frame_codec "backup" None
            (Pymote.mkClient "h" 9500 (30 # 1)%Q
               (Some (mkSocket None [Recv "{"; RecvRaises socket_error] "")) true))
     = inl (CommandError "Command execution error").
Proof.
  destruct (execute_recv_failure one_frame_codec "backup" ["{"] [])
    as [Hc Hp]; [repeat constructor|].
  split.
  - destruct (Hc false (Client.mkClient "h" 9500 (30 # 1)%Q
                          (Some (mkSocket None [Recv "{"; RecvRaises socket_timeout] "")))
                (mkSocket None [Recv "{"; RecvRaises socket_timeout] "")
                eq_refl eq_refl) as [Ht _].
    rewrite (Ht eq_refl). reflexivity.
  - destruct (Hp None (Pymote.mkClient "h" 9500 (30 # 1)%Q
                         (Some (mkSocket None [Recv "{"; RecvRaises socket_error] "")) true)
                (mkSocket None [Recv "{"; RecvRaises socket_error] "")
                eq_refl eq_refl eq_refl) as [_ He].
    rewrite (He eq_refl). reflexivity.
Defined.

(** X11. Whatever the socket and the codec do, the only exceptions that
    leave [execute] are ConnectionError and CommandError; client.py raises
    ConnectionError only for a client that is not connected and for a
    timeout. *)
Theorem execute_raises_documented_errors cd command :
  (forall parse_data c e c',
      Client._execute cd command parse_data c = (inl e, c') ->
      e = ConnectionError "Not connected to server"
      \/ e = ConnectionError "Command timeout"
      \/ exists msg, e = CommandError msg)
  /\ (forall parameters c e c',
        Pymote._execute_command cd command parameters c = (inl e, c') ->
        documented_error e).
Proof.
  split.
  - intros parse_data c e c'. unfold Client._execute.
    destruct (Client.socket c) as [s|]; [|intros [= <- <-]; left; reflexivity].
    destruct (Client.execute_body cd command parse_data s) as [[e0|r] s'];
      [|discriminate].
    intros [= <- <-]. right.
    destruct e0; simpl; eauto.
  - intros parameters c e c'. unfold Pymote._execute_command, documented_error.
    destruct (Pymote._connected c); [|intros [= <- <-]; left; eauto].
    destruct (Pymote._socket c) as [s|]; [|intros [= <- <-]; left; eauto].
    match goal with |- context [Pymote.execute_body ?a ?b ?c] =>
      destruct (Pymote.execute_body a b c) as [[e0|r] s'] end; [|discriminate].
    intros [= <- <-].
    destruct e0; simpl; eauto.
Qed.

Lemma execute_raises_documented_errors_witness :
  documented_error (CommandError "Invalid response from server").
Proof.
  destruct (execute_raises_documented_errors one_frame_codec "kick user No Body")
    as [_ Hp].
  apply (Hp None (Pymote.mkClient "h" 9500 (30 # 1)%Q (Some failing_socket) true)
            _ (Pymote.mkClient "h" 9500 (30 # 1)%Q
                 (Some (mkSocket None []
                          (pymote_request one_frame_codec "kick user No Body" None)))
                 true)).
  reflexivity.
Defined.

(** ** Classification of the response *)

Lemma get_not_dict v key dflt : not_dict v -> get v key dflt = inl AttributeError.
Proof.
  intro H. destruct v; try reflexivity. exfalso. apply (H d). reflexivity.
Qed.

(** X12. A complete response frame that cannot be decoded is reported as
    CommandError by both clients: bytes that are not UTF-8, a text that is
    not JSON ("Invalid JSON response" in client.py, "Invalid response from
    server" in pymote.py) and a JSON value that is not an object. *)
Theorem execute_undecodable_response cd command chunks last rest :
  Forall (fun ch => open_chunk ch = true) chunks ->
  closing_chunk last = true ->
  (forall parse_data c s,
      Client.socket c = Some s ->
      sendall_raises s = None ->
      incoming s = frame_then chunks last rest ->
      (decode_utf8 cd (joined chunks ++ last) = None ->
       fst (Client._execute cd command parse_data c)
       = inl (CommandError "Command execution failed"))
      /\ (forall t, decode_utf8 cd (joined chunks ++ last) = Some t ->
                    json_loads cd (strip t) = None ->
                    fst (Client._execute cd command parse_data c)
                    = inl (CommandError "Invalid JSON response"))
      /\ (forall t v, decode_utf8 cd (joined chunks ++ last) = Some t ->
                      json_loads cd (strip t) = Some v -> not_dict v ->
                      fst (Client._execute cd command parse_data c)
                      = inl (CommandError "Command execution failed")))
  /\ (forall parameters c s,
        Pymote._connected c = true ->
        Pymote._socket c = Some s ->
        sendall_raises s = None ->
        incoming s = frame_then chunks last rest ->
        (decode_utf8 cd (joined chunks ++ last) = None ->
         fst (Pymote._execute_command cd command parameters c)
         = inl (CommandError "Command execution error"))
        /\ (forall t, decode_utf8 cd (joined chunks ++ last) = Some t ->
                      json_loads cd t = None ->
                      fst (Pymote._execute_command cd command parameters c)
                      = inl (CommandError "Invalid response from server"))
        /\ (forall t v, decode_utf8 cd (joined chunks ++ last) = Some t ->
                        json_loads cd t = Some v -> not_dict v ->
                        fst (Pymote._execute_command cd command parameters c)
                        = inl (CommandError "Command execution error"))).
Proof.
  intros Hopen Hlast. split.
  - intros parse_data c s Hs Hsend Hin.
    rewrite (client_execute_frame cd command parse_data c s chunks last rest
               Hs Hsend Hin Hopen Hlast).
    unfold client_outcome, Client.classify. simpl fst.
    split; [|split].
    + intros ->. reflexivity.
    + intros t -> Hj. simpl. rewrite Hj. reflexivity.
    + intros t v -> Hj Hv. simpl. rewrite Hj. simpl.
      rewrite (get_not_dict v _ _ Hv). reflexivity.
  - intros parameters c s Hc Hs Hsend Hin.
    rewrite (pymote_execute_frame cd command parameters c s chunks last rest
               Hc Hs Hsend Hin Hopen Hlast).
    unfold pymote_outcome, Pymote.classify. simpl fst.
    split; [|split].
    + intros ->. reflexivity.
    + intros t -> Hj. simpl. rewrite Hj. reflexivity.
    + intros t v -> Hj Hv. simpl. rewrite Hj. simpl.
      rewrite (get_not_dict v _ _ Hv). reflexivity.
Qed.

Lemma execute_undecodable_response_witness :
  fst (Client._execute one_frame_codec "backup" false
         (Client.mkClient "h" 9500 (30 # 1)%Q (Some (mkSocket None [Recv one_line] ""))))
  = inl (CommandError "Invalid JSON response")
  /\ fst (Pymote._execute_command (constant_codec (PyList [])) "backup" None
            (Pymote.mkClient "h" 9500 (30 # 1)%Q
               (Some (mkSocket None [Recv one_line] "")) true))
     = inl (CommandError "Command execution error").
Proof.
  split.
  - destruct (execute_undecodable_response one_frame_codec "backup" [] one_line [])
      as [Hc _]; [constructor|reflexivity|].
    destruct (Hc false (Client.mkClient "h" 9500 (30 # 1)%Q
                          (Some (mkSocket None [Recv one_line] "")))
                (mkSocket None [Recv one_line] "") eq_refl eq_refl eq_refl)
      as [_ [Hj _]].
    apply (Hj one_line); reflexivity.
  - destruct (execute_undecodable_response (constant_codec (PyList [])) "backup"
                [] one_line [])
      as [_ Hp]; [constructor|reflexivity|].
    destruct (Hp None (Pymote.mkClient "h" 9500 (30 # 1)%Q
                         (Some (mkSocket None [Recv one_line] "")) true)
                (mkSocket None [Recv one_line] "") eq_refl eq_refl eq_refl eq_refl)
      as [_ [_ Hv]].
    apply (Hv one_line (PyList [])); [reflexivity|reflexivity|].
    intros d H; discriminate H.
Defined.

Lemma client_execute_result cd command parse_data c r c' :
  Client._execute cd command parse_data c = (inr r, c') ->
  exists response_data, Client.classify cd command parse_data response_data = inr r.
Proof.
  unfold Client._execute, Client.execute_body.
  destruct (Client.socket c) as [s|]; [|discriminate].
  destruct (sendall s _) as [[e|u] s1]; [discriminate|].
  destruct (Client.recv_loop (incoming s1) "") as [[e|d] rest]; [discriminate|].
  destruct (Client.classify cd command parse_data d) as [e|r0] eqn:E; [discriminate|].
  intros [= <- <-]. exists d. exact E.
Qed.

Lemma client_classify_no_parse cd command response_data r :
  Client.classify cd command false response_data = inr r -> Client.data r = NoData.
Proof.
  unfold Client.classify.
  destruct (decode_utf8 cd response_data) as [t|]; simpl; [|discriminate].
  destruct (json_loads cd (strip t)) as [v|]; simpl; [|discriminate].
  destruct (get v "Success" (PyBool false)) as [e1|sv]; simpl; [discriminate|].
  destruct (get v "Result" (PyStr "")) as [e2|ov]; simpl; [discriminate|].
  destruct (get v "Error" PyNone) as [e3|ev]; simpl; [discriminate|].
  destruct (truthy sv); simpl; intros [= <-]; reflexivity.
Qed.

(** X13. Every CommandResult that [_execute] of client.py returns obeys:
    a failure has the empty output and no structured payload, whatever the
    command; a success has no error; and without [parse_data] there is no
    payload. *)
Theorem client_result_invariant cd command parse_data c r c' :
  Client._execute cd command parse_data c = (inr r, c') ->
  (Client.success r = false ->
   Client.output r = PyStr "" /\ Client.data r = NoData)
  /\ (Client.success r = true -> Client.error r = PyNone)
  /\ (parse_data = false -> Client.data r = NoData).
Proof.
  intro H. destruct (client_execute_result _ _ _ _ _ _ H) as [d Hd].
  destruct (client_classify_result _ _ _ _ _ Hd) as [Hf Hs].
  split; [exact Hf|]. split; [exact Hs|].
  intros ->. apply (client_classify_no_parse _ _ _ _ Hd).
Qed.

Lemma client_result_invariant_witness :
  (false = false -> PyStr "" = PyStr "" /\ NoData = NoData)
  /\ (false = true -> PyNone = PyNone)
  /\ (true = false -> NoData = NoData).
Proof.
  apply (client_result_invariant one_frame_codec "show regions" true
           (Client.mkClient "127.0.0.1" 9500 (30 # 1)%Q (Some failing_socket))
           (Client.mkCommandResult false (PyStr "") NoData PyNone)
           (Client.mkClient "127.0.0.1" 9500 (30 # 1)%Q
              (Some (mkSocket None [] (client_request one_frame_codec "show regions"))))).
  reflexivity.
Defined.

(** X14. On a response that is a JSON object, pymote.py returns a value only
    when the Success field is true: the value is the Result field, and the
    empty string when there is none.  When Success is false or missing it
    raises CommandError "Command failed", with or without an Error field. *)
Theorem pymote_execute_outcome cd command parameters c s chunks last rest t d :
  Pymote._connected c = true ->
  Pymote._socket c = Some s ->
  sendall_raises s = None ->
  incoming s = frame_then chunks last rest ->
  Forall (fun ch => open_chunk ch = true) chunks ->
  closing_chunk last = true ->
  decode_utf8 cd (joined chunks ++ last) = Some t ->
  json_loads cd t = Some (PyDict d) ->
  (truthy (dict_get d "Success" (PyBool false)) = true ->
   fst (Pymote._execute_command cd command parameters c)
   = inr (dict_get d "Result" (PyStr "")))
  /\ (truthy (dict_get d "Success" (PyBool false)) = false ->
      fst (Pymote._execute_command cd command parameters c)
      = inl (CommandError "Command failed")).
Proof.
  intros Hc Hs Hsend Hin Hopen Hlast Hd Hj.
  rewrite (pymote_execute_frame cd command parameters c s chunks last rest
             Hc Hs Hsend Hin Hopen Hlast).
  unfold pymote_outcome, Pymote.classify, dict_get. simpl fst.
  rewrite Hd. simpl. rewrite Hj. simpl.
  split; intros ->; reflexivity.
Qed.

Lemma pymote_execute_outcome_witness :
  fst (Pymote._execute_command (constant_codec (success_response "0.9.3")) "show version"
         None
         (Pymote.mkClient "h" 9500 (30 # 1)%Q (Some (mkSocket None [Recv one_line] "")) true))
  = inr (PyStr "0.9.3")
  /\ fst (Pymote._execute_command (constant_codec (PyDict [])) "show version" None
            (Pymote.mkClient "h" 9500 (30 # 1)%Q
               (Some (mkSocket None [Recv one_line] "")) true))
     = inl (CommandError "Command failed").
Proof.
  split.
  - apply (pymote_execute_outcome (constant_codec (success_response "0.9.3"))
             "show version" None _ (mkSocket None [Recv one_line] "") [] one_line []
             one_line [("Success", PyBool true); ("Result", PyStr "0.9.3")]);
      try reflexivity. constructor.
  - apply (pymote_execute_outcome (constant_codec (PyDict []))
             "show version" None _ (mkSocket None [Recv one_line] "") [] one_line []
             one_line []);
      try reflexivity. constructor.
Defined.

(** X15. On a response that is a JSON object, client.py returns a
    CommandResult and does not raise for a failure: when the Success field
    is false or missing the result is a failure that carries the Error field
    (None when there is none); when it is true and no parsing is asked for,
    the result is a success whose output is the Result field, and the empty
    string when there is none. *)
Theorem client_execute_outcome cd command c s chunks last rest t d :
  Client.socket c = Some s ->
  sendall_raises s = None ->
  incoming s = frame_then chunks last rest ->
  Forall (fun ch => open_chunk ch = true) chunks ->
  closing_chunk last = true ->
  decode_utf8 cd (joined chunks ++ last) = Some t ->
  json_loads cd (strip t) = Some (PyDict d) ->
  (truthy (dict_get d "Success" (PyBool false)) = false ->
   forall parse_data,
     fst (Client._execute cd command parse_data c)
     = inr (Client.mkCommandResult false (PyStr "") NoData (dict_get d "Error" PyNone)))
  /\ (truthy (dict_get d "Success" (PyBool false)) = true ->
      fst (Client._execute cd command false c)
      = inr (Client.mkCommandResult true (dict_get d "Result" (PyStr "")) NoData PyNone)).
Proof.
  intros Hs Hsend Hin Hopen Hlast Hd Hj.
  split.
  - intros Hf parse_data.
    rewrite (client_execute_frame cd command parse_data c s chunks last rest
               Hs Hsend Hin Hopen Hlast).
    unfold client_outcome, Client.classify, dict_get in *. simpl fst.
    rewrite Hd. simpl. rewrite Hj. simpl. rewrite Hf. reflexivity.
  - intros Ht.
    rewrite (client_execute_frame cd command false c s chunks last rest
               Hs Hsend Hin Hopen Hlast).
    unfold client_outcome, Client.classify, dict_get in *. simpl fst.
    rewrite Hd. simpl. rewrite Hj. simpl. rewrite Ht. reflexivity.
Qed.

Lemma client_execute_outcome_witness :
  fst (Client._execute
         (constant_codec (PyDict [("Success", PyBool false); ("Error", PyStr "no such user")]))
         "kick user No Body" true
         (Client.mkClient "h" 9500 (30 # 1)%Q (Some (mkSocket None [Recv one_line] ""))))
  = inr (Client.mkCommandResult false (PyStr "") NoData (PyStr "no such user"))
  /\ fst (Client._execute (constant_codec (PyDict [("Success", PyBool true)]))
            "backup" false
            (Client.mkClient "h" 9500 (30 # 1)%Q (Some (mkSocket None [Recv one_line] ""))))
     = inr (Client.mkCommandResult true (PyStr "") NoData PyNone).
Proof.
  split.
  - apply (client_execute_outcome
             (constant_codec (PyDict [("Success", PyBool false);
                                      ("Error", PyStr "no such user")]))
             "kick user No Body" _ (mkSocket None [Recv one_line] "") [] one_line []
             one_line [("Success", PyBool false); ("Error", PyStr "no such user")]);
      try reflexivity. constructor.
  - apply (client_execute_outcome (constant_codec (PyDict [("Success", PyBool true)]))
             "backup" _ (mkSocket None [Recv one_line] "") [] one_line []
             one_line [("Success", PyBool true)]);
      try reflexivity. constructor.
Defined.

(** ** Connection state *)

(** X16. pymote.py keeps its two state fields consistent: a new client is
    not connected, and [connect], [disconnect] and [_execute_command] keep
    the invariant that a client marked connected holds a socket, so that
    the second half of the connection test of [_execute_command] never
    decides alone. *)
Theorem pymote_connected_has_socket :
  (forall host port, pymote_well_formed (Pymote.new_client host port)
                     /\ Pymote.is_connected (Pymote.new_client host port) = false)
  /\ (forall net c, pymote_well_formed c ->
                    pymote_well_formed (snd (Pymote.connect net c)))
  /\ (forall c, pymote_well_formed c -> pymote_well_formed (Pymote.disconnect c))
  /\ (forall cd command parameters c,
        pymote_well_formed c ->
        pymote_well_formed (snd (Pymote._execute_command cd command parameters c))).
Proof.
  unfold pymote_well_formed. split; [|split; [|split]].
  - intros host port. split; [discriminate|reflexivity].
  - intros net c Hc. unfold Pymote.connect.
    destruct (socket_socket net) as [e|s]; [exact Hc|]. simpl.
    destruct (settimeout net (Pymote.timeout c)); [simpl; discriminate|].
    destruct (socket_connect net (Pymote.host c) (Pymote.port c));
      simpl; discriminate.
  - intros c Hc. unfold Pymote.disconnect.
    destruct (Pymote._socket c) eqn:Es; [simpl; discriminate|].
    rewrite Es. exact Hc.
  - intros cd command parameters c Hc. unfold Pymote._execute_command.
    destruct (Pymote._connected c) eqn:Ec; [|simpl; rewrite Ec; discriminate].
    destruct (Pymote._socket c) as [s|] eqn:Es;
      [|exfalso; apply (Hc eq_refl); reflexivity].
    match goal with |- context [Pymote.execute_body ?a ?b ?c] =>
      destruct (Pymote.execute_body a b c) as [[e0|r] s'] end;
      simpl; discriminate.
Qed.

Lemma pymote_connected_has_socket_witness :
  pymote_well_formed
    (snd (Pymote.connect refusing_network (Pymote.new_client "127.0.0.1" 9500)))
  /\ pymote_well_formed
       (snd (Pymote._execute_command one_frame_codec "backup" None
               (Pymote.new_client "127.0.0.1" 9500))).
Proof.
  destruct pymote_connected_has_socket as [Hnew [Hconn [_ Hexec]]].
  split.
  - apply Hconn. apply (Hnew "127.0.0.1" 9500%Z).
  - apply Hexec. apply (Hnew "127.0.0.1" 9500%Z).
Defined.

(** X17. [disconnect] always succeeds and leaves the client disconnected:
    [is_connected()] is false afterwards (also after a failed [connect] of
    client.py), a second [disconnect] changes nothing, a client that was
    never connected is left as it is, and [execute] after [disconnect]
    raises ConnectionError without touching the client. *)
Theorem disconnect_is_final :
  (forall c, Client.is_connected (Client.disconnect c) = false
             /\ Client.disconnect (Client.disconnect c) = Client.disconnect c)
  /\ (forall host port timeout,
        Client.disconnect (Client.new_client host port timeout)
        = Client.new_client host port timeout)
  /\ (forall cd command parse_data c,
        Client._execute cd command parse_data (Client.disconnect c)
        = (inl (ConnectionError "Not connected to server"), Client.disconnect c))
  /\ (forall c, pymote_well_formed c ->
                Pymote.is_connected (Pymote.disconnect c) = false)
  /\ (forall c, Pymote.disconnect (Pymote.disconnect c) = Pymote.disconnect c)
  /\ (forall host port,
        Pymote.disconnect (Pymote.new_client host port) = Pymote.new_client host port)
  /\ (forall cd command parameters c,
        pymote_well_formed c ->
        Pymote._execute_command cd command parameters (Pymote.disconnect c)
        = (inl (ConnectionError "Not connected to server"), Pymote.disconnect c)).
Proof.
  assert (Hp : forall c, pymote_well_formed c ->
                         Pymote.is_connected (Pymote.disconnect c) = false).
  { intros c Hc. unfold pymote_well_formed, Pymote.disconnect, Pymote.is_connected in *.
    destruct (Pymote._socket c); [reflexivity|].
    destruct (Pymote._connected c); [|reflexivity].
    exfalso. apply (Hc eq_refl). reflexivity. }
  repeat split; try reflexivity.
  - exact Hp.
  - intro c. unfold Pymote.disconnect.
    destruct (Pymote._socket c) eqn:E; [reflexivity|]. rewrite E. reflexivity.
  - intros cd command parameters c Hc. unfold Pymote._execute_command.
    specialize (Hp c Hc). unfold Pymote.is_connected in Hp. rewrite Hp. reflexivity.
Qed.

Lemma disconnect_is_final_witness :
  Pymote.is_connected
    (Pymote.disconnect
       (Pymote.mkClient "h" 9500 (30 # 1)%Q (Some closed_socket) true)) = false
  /\ Client.is_connected
       (Client.disconnect
          (snd (Client.connect refusing_network
                  (Client.new_client None None None)))) = false.
Proof.
  destruct disconnect_is_final as [Hc [_ [_ [Hp _]]]].
  split.
  - apply Hp. intros _. discriminate.
  - apply Hc.
Defined.

(** X18. The scoped use of a client: when [connect] fails the body is not
    run and the failure of [connect] is the outcome; when it succeeds the
    outcome is that of the body and the client is disconnected afterwards,
    whether the body returned or raised.  [quick_command] of pymote.py
    therefore always leaves its client disconnected, raises nothing but
    ConnectionError and CommandError, and fails with ConnectionError "Failed
    to connect" when the connection cannot be made. *)
Theorem scoped_client_disconnects :
  (forall (A : Type) net c (body : Client.OpenSimClient -> M A * Client.OpenSimClient),
      (forall e, fst (Client.connect net c) = inl e ->
                 Client.with_client net c body = (inl e, snd (Client.connect net c)))
      /\ (forall b, fst (Client.connect net c) = inr b ->
                    fst (Client.with_client net c body)
                    = fst (body (snd (Client.connect net c)))
                    /\ Client.is_connected (snd (Client.with_client net c body)) = false))
  /\ (forall net cd command host port,
        Pymote.is_connected (snd (Pymote.quick_command net cd command host port)) = false
        /\ (forall e, fst (Pymote.quick_command net cd command host port) = inl e ->
                      documented_error e)
        /\ (forall e, fst (Pymote.connect net (Pymote.new_client host port)) = inl e ->
                      fst (Pymote.quick_command net cd command host port)
                      = inl (ConnectionError "Failed to connect"))).
Proof.
  split.
  - intros A net c body. unfold Client.with_client.
    destruct (Client.connect net c) as [[e|b] c1]; simpl.
    + split; [intros e' [= <-]; reflexivity|discriminate].
    + split; [discriminate|]. intros b' _.
      destruct (body c1) as [r c2]. split; reflexivity.
  - intros net cd command host port.
    unfold Pymote.quick_command, Pymote.with_client, Pymote.connect.
    destruct (socket_socket net) as [e0|s]; simpl.
    { split; [reflexivity|]. split.
      + intros e [= <-]. left; eexists; reflexivity.
      + intros e _. reflexivity. }
    destruct (settimeout net (30 # 1)%Q) as [e1|]; simpl.
    { split; [reflexivity|]. split.
      + intros e [= <-]. left; eexists; reflexivity.
      + intros e _. reflexivity. }
    destruct (socket_connect net host port) as [e2|]; simpl.
    { split; [reflexivity|]. split.
      + intros e [= <-]. left; eexists; reflexivity.
      + intros e _. reflexivity. }
    unfold Pymote._execute_command. simpl.
    match goal with |- context [Pymote.execute_body ?a ?b ?c] =>
      destruct (Pymote.execute_body a b c) as [[e3|r] s'] end; simpl.
    + split; [reflexivity|]. split; [|discriminate].
      intros e [= <-]. unfold documented_error. destruct e3; simpl; eauto.
    + split; [reflexivity|]. split; discriminate.
Qed.

Lemma scoped_client_disconnects_witness :
  Client.with_client refusing_network (Client.new_client None None None)
    (fun c => Client._execute one_frame_codec "backup" false c)
  = (inl (ConnectionError "Failed to connect"),
     snd (Client.connect refusing_network (Client.new_client None None None)))
  /\ Client.is_connected
       (snd (Client.with_client (accepting_network failing_socket)
               (Client.new_client None None None)
               (fun c => Client._execute one_frame_codec "backup" false c))) = false
  /\ fst (Pymote.quick_command refusing_network one_frame_codec "backup" "127.0.0.1" 9500)
     = inl (ConnectionError "Failed to connect").
Proof.
  destruct scoped_client_disconnects as [Hc Hq].
  split; [|split].
  - destruct (Hc Client.CommandResult refusing_network (Client.new_client None None None)
                (fun c => Client._execute one_frame_codec "backup" false c)) as [Hfail _].
    apply Hfail. reflexivity.
  - destruct (Hc Client.CommandResult (accepting_network failing_socket)
                (Client.new_client None None None)
                (fun c => Client._execute one_frame_codec "backup" false c)) as [_ Hok].
    destruct (Hok true eq_refl) as [_ Hdis]. exact Hdis.
  - destruct (Hq refusing_network one_frame_codec "backup" "127.0.0.1" 9500%Z)
      as [_ [_ Hfail]].
    apply (Hfail (ConnectionError "Failed to connect")). reflexivity.
Defined.

(** ** The typed accessors of client.py *)

Lemma client_classify_success cd command response_data r :
  Client.classify cd command true response_data = inr r ->
  Client.success r = true ->
  Client._parse_output command (Client.output r) = inr (Client.data r).
Proof.
  unfold Client.classify.
  destruct (decode_utf8 cd response_data) as [t|]; simpl; [|discriminate].
  destruct (json_loads cd (strip t)) as [v|]; simpl; [|discriminate].
  destruct (get v "Success" (PyBool false)) as [e1|sv]; simpl; [discriminate|].
  destruct (get v "Result" (PyStr "")) as [e2|ov]; simpl; [discriminate|].
  destruct (get v "Error" PyNone) as [e3|ev]; simpl; [discriminate|].
  destruct (truthy sv); simpl; [|intros [= <-]; discriminate].
  destruct (Client._parse_output command ov) as [e4|dv] eqn:E; simpl; [discriminate|].
  intros [= <-] _. exact E.
Qed.

Lemma client_execute_failure_data cd command parse_data c r c' :
  Client._execute cd command parse_data c = (inr r, c') ->
  Client.success r = false -> Client.data r = NoData.
Proof.
  intros H Hf. destruct (client_execute_result _ _ _ _ _ _ H) as [d Hd].
  destruct (client_classify_result _ _ _ _ _ Hd) as [Hfail _].
  apply Hfail, Hf.
Qed.

(** X19. The accessors [get_regions], [get_users] and [get_stats] do not
    raise on a failure reported by the server: they return the empty list,
    respectively None; an exception of the underlying command is passed
    on unchanged. *)
Theorem getters_on_failure cd c :
  (forall r c', Client.show_regions cd c = (inr r, c') -> Client.success r = false ->
                Client.get_regions cd c = (inr (RegionList []), c'))
  /\ (forall full r c',
        Client.show_users cd full c = (inr r, c') -> Client.success r = false ->
        Client.get_users cd full c = (inr (UserList []), c'))
  /\ (forall category r c',
        Client.show_stats cd category c = (inr r, c') -> Client.success r = false ->
        Client.get_stats cd category c = (inr NoData, c'))
  /\ (forall e c', Client.show_regions cd c = (inl e, c') ->
                   Client.get_regions cd c = (inl e, c'))
  /\ (forall full e c', Client.show_users cd full c = (inl e, c') ->
                        Client.get_users cd full c = (inl e, c'))
  /\ (forall category e c', Client.show_stats cd category c = (inl e, c') ->
                            Client.get_stats cd category c = (inl e, c')).
Proof.
  split; [|split; [|split; [|split; [|split]]]].
  - intros r c' H Hf. unfold Client.get_regions, Client.data_or. rewrite H.
    unfold Client.show_regions in H.
    rewrite (client_execute_failure_data _ _ _ _ _ _ H Hf). reflexivity.
  - intros full r c' H Hf. unfold Client.get_users, Client.data_or. rewrite H.
    unfold Client.show_users in H.
    rewrite (client_execute_failure_data _ _ _ _ _ _ H Hf). reflexivity.
  - intros category r c' H Hf. unfold Client.get_stats, Client.data_or. rewrite H.
    unfold Client.show_stats in H.
    rewrite (client_execute_failure_data _ _ _ _ _ _ H Hf). reflexivity.
  - intros e c' H. unfold Client.get_regions, Client.data_or. rewrite H. reflexivity.
  - intros full e c' H. unfold Client.get_users, Client.data_or. rewrite H. reflexivity.
  - intros category e c' H. unfold Client.get_stats, Client.data_or. rewrite H.
    reflexivity.
Qed.

Lemma getters_on_failure_witness :
  Client.get_regions one_frame_codec
    (Client.mkClient "h" 9500 (30 # 1)%Q (Some failing_socket))
  = (inr (RegionList []),
     Client.mkClient "h" 9500 (30 # 1)%Q
       (Some (mkSocket None [] (client_request one_frame_codec "show regions"))))
  /\ Client.get_stats one_frame_codec None (Client.new_client None None None)
     = (inl (ConnectionError "Not connected to server"), Client.new_client None None None).
Proof.
  split.
  - destruct (getters_on_failure one_frame_codec
                (Client.mkClient "h" 9500 (30 # 1)%Q (Some failing_socket)))
      as [Hr _].
    apply (Hr (Client.mkCommandResult false (PyStr "") NoData PyNone)); reflexivity.
  - destruct (getters_on_failure one_frame_codec (Client.new_client None None None))
      as [_ [_ [_ [_ [_ Hs]]]]].
    apply (Hs None). reflexivity.
Defined.

Lemma stats_command_routing cat :
  contains "show regions" ("show stats" ++ " " ++ cat) = contains "show regions" cat
  /\ contains "show users" ("show stats" ++ " " ++ cat) = contains "show users" cat
  /\ contains "show stats" ("show stats" ++ " " ++ cat) = true.
Proof. repeat split; reflexivity. Qed.

Lemma client_execute_success_data cd command c r c' :
  Client._execute cd command true c = (inr r, c') ->
  Client.success r = true ->
  Client._parse_output command (Client.output r) = inr (Client.data r).
Proof.
  intros H Hs. destruct (client_execute_result _ _ _ _ _ _ H) as [d Hd].
  apply (client_classify_success _ _ _ _ Hd Hs).
Qed.

(** X20. On a success, the result of [show_regions], [show_users] and
    [show_stats] carries a text output and its payload is that output run
    through the region, user and stats parser; [get_regions] and
    [get_users] return that list and [get_stats] that Stats record (never
    None).  For [show_stats] this needs a category that contains neither
    "show regions" nor "show users". *)
Theorem getters_on_success cd c :
  (forall r c', Client.show_regions cd c = (inr r, c') -> Client.success r = true ->
     exists t regions,
       Client.output r = PyStr t /\ parse_regions t = inr regions
       /\ Client.data r = RegionList regions
       /\ Client.get_regions cd c = (inr (RegionList regions), c'))
  /\ (forall full r c',
        Client.show_users cd full c = (inr r, c') -> Client.success r = true ->
        exists t users,
          Client.output r = PyStr t /\ parse_users t = inr users
          /\ Client.data r = UserList users
          /\ Client.get_users cd full c = (inr (UserList users), c'))
  /\ (forall category r c',
        match category with
        | Some cat => contains "show regions" cat = false
                      /\ contains "show users" cat = false
        | None => True
        end ->
        Client.show_stats cd category c = (inr r, c') -> Client.success r = true ->
        exists t stats,
          Client.output r = PyStr t /\ parse_stats t = inr stats
          /\ Client.data r = StatsRecord stats
          /\ Client.get_stats cd category c = (inr (StatsRecord stats), c')).
Proof.
  split; [|split].
  - intros r c' H Hs. unfold Client.get_regions, Client.data_or. rewrite H.
    unfold Client.show_regions in H.
    pose proof (client_execute_success_data _ _ _ _ _ H Hs) as Hp.
    unfold Client._parse_output, Client.as_str in Hp. simpl in Hp.
    destruct (Client.output r) as [| | | |t| |]; try discriminate. simpl in Hp.
    destruct (parse_regions t) as [|regions] eqn:E; [discriminate|].
    simpl in Hp. injection Hp as Hp. rewrite <- Hp.
    exists t, regions. repeat split; try assumption. destruct regions; reflexivity.
  - intros full r c' H Hs. unfold Client.get_users, Client.data_or. rewrite H.
    unfold Client.show_users in H.
    assert (Hp : Client._parse_output "show users" (Client.output r)
                 = inr (Client.data r)).
    { destruct full;
        pose proof (client_execute_success_data _ _ _ _ _ H Hs) as Hp; exact Hp. }
    unfold Client._parse_output, Client.as_str in Hp. simpl in Hp.
    destruct (Client.output r) as [| | | |t| |]; try discriminate. simpl in Hp.
    destruct (parse_users t) as [|users] eqn:E; [discriminate|].
    simpl in Hp. injection Hp as Hp. rewrite <- Hp.
    exists t, users. repeat split; try assumption. destruct users; reflexivity.
  - intros category r c' Hcat H Hs. unfold Client.get_stats, Client.data_or. rewrite H.
    unfold Client.show_stats in H.
    pose proof (client_execute_success_data _ _ _ _ _ H Hs) as Hp.
    unfold Client._parse_output, Client.as_str in Hp.
    match type of Hp with
    | context [contains "show regions" ?cmd] =>
        assert (Hroute : contains "show regions" cmd = false
                         /\ contains "show users" cmd = false
                         /\ contains "show stats" cmd = true)
    end.
    { destruct category as [cat|]; [|repeat split; reflexivity].
      destruct (is_empty cat); [repeat split; reflexivity|].
      destruct Hcat as [C1 C2].
      destruct (stats_command_routing cat) as [S1 [S2 S3]].
      rewrite S1, S2, S3. auto. }
    destruct Hroute as [R1 [R2 R3]]. rewrite R1, R2, R3 in Hp.
    destruct (Client.output r) as [| | | |t| |]; try discriminate. simpl in Hp.
    destruct (parse_stats t) as [|stats] eqn:E; [discriminate|].
    simpl in Hp. injection Hp as Hp. rewrite <- Hp.
    exists t, stats. repeat split; assumption.
Qed.

Lemma getters_on_success_witness :
  exists t regions,
    PyStr regions_alpha = PyStr t /\ parse_regions t = inr regions
    /\ RegionList [mkRegion "Alpha" "1111-..." 1000 1000 256 256 None (Some 9000%Z)]
       = RegionList regions
    /\ Client.get_regions (constant_codec (success_response regions_alpha))
         (Client.mkClient "h" 9500 (30 # 1)%Q (Some (mkSocket None [Recv one_line] "")))
       = (inr (RegionList regions),
          Client.mkClient "h" 9500 (30 # 1)%Q (Some (mkSocket None [] one_line))).
Proof.
  destruct (getters_on_success (constant_codec (success_response regions_alpha))
              (Client.mkClient "h" 9500 (30 # 1)%Q
                 (Some (mkSocket None [Recv one_line] "")))) as [Hr _].
  apply (Hr (Client.mkCommandResult true (PyStr regions_alpha)
               (RegionList [mkRegion "Alpha" "1111-..." 1000 1000 256 256 None
                                     (Some 9000%Z)]) PyNone)); reflexivity.
Defined.

(** X21. A command that contains none of "show regions", "show users" and
    "show stats" never gets a structured payload, even when parsing is asked
    for: in particular the result of [terrain_stats] carries no payload (the
    terrain parser is not reached from the client). *)
Theorem unparsed_commands_have_no_payload cd c :
  (forall command parse_data r c',
      contains "show regions" command = false ->
      contains "show users" command = false ->
      contains "show stats" command = false ->
      Client._execute cd command parse_data c = (inr r, c') ->
      Client.data r = NoData)
  /\ (forall r c', Client.terrain_stats cd c = (inr r, c') -> Client.data r = NoData).
Proof.
  assert (H : forall command parse_data r c',
             contains "show regions" command = false ->
             contains "show users" command = false ->
             contains "show stats" command = false ->
             Client._execute cd command parse_data c = (inr r, c') ->
             Client.data r = NoData).
  { intros command parse_data r c' H1 H2 H3 H.
    destruct (Client.success r) eqn:Es;
      [|apply (client_execute_failure_data _ _ _ _ _ _ H Es)].
    destruct parse_data.
    - pose proof (client_execute_success_data _ _ _ _ _ H Es) as Hp.
      unfold Client._parse_output in Hp. rewrite H1, H2, H3 in Hp.
      unfold ret in Hp. congruence.
    - destruct (client_execute_result _ _ _ _ _ _ H) as [d Hd].
      apply (client_classify_no_parse _ _ _ _ Hd). }
  split; [exact H|].
  intros r c'. unfold Client.terrain_stats. apply H; reflexivity.
Qed.

Lemma unparsed_commands_have_no_payload_witness :
  Client.data (Client.mkCommandResult true (PyStr "Min: 1 Max: 2") NoData PyNone) = NoData.
Proof.
  destruct (unparsed_commands_have_no_payload
              (constant_codec (success_response "Min: 1 Max: 2"))
              (Client.mkClient "h" 9500 (30 # 1)%Q
                 (Some (mkSocket None [Recv one_line] "")))) as [_ Ht].
  apply (Ht _ (Client.mkClient "h" 9500 (30 # 1)%Q (Some (mkSocket None [] one_line)))).
  reflexivity.
Defined.

(** ** Connecting, and commands in sequence *)

(** X22. On a connected client of pymote.py whose peer closes before any
    newline was read, [_execute_command] raises ConnectionError "Connection
    closed by server", whatever was received before; the request was
    written and the reads after the zero-length one stay on the socket. *)
Theorem pymote_peer_close_raises cd command parameters c s chunks rest :
  Pymote._connected c = true ->
  Pymote._socket c = Some s ->
  sendall_raises s = None ->
  incoming s = closes_before_newline chunks rest ->
  Forall (fun ch => open_chunk ch = true) chunks ->
  Pymote._execute_command cd command parameters c
  = (inl (ConnectionError "Connection closed by server"),
     Pymote.set_socket
       (Some (socket_after s (pymote_request cd command parameters) rest)) c).
Proof.
  intros Hc Hs Hsend Hin Hopen.
  rewrite (pymote_execute_unfold cd command parameters c s Hc Hs Hsend), Hin.
  rewrite (pymote_recv_loop_closed chunks rest "" Hopen). reflexivity.
Qed.

Lemma pymote_peer_close_raises_witness :
  Pymote._execute_command one_frame_codec "show version" None
    (Pymote.mkClient "127.0.0.1" 9500 (30 # 1)%Q
       (Some (mkSocket None [Recv "{"; Recv ""; Recv one_line] "")) true)
  = (inl (ConnectionError "Connection closed by server"),
     Pymote.mkClient "127.0.0.1" 9500 (30 # 1)%Q
       (Some (mkSocket None [Recv one_line] one_line)) true).
Proof.
  etransitivity;
    [apply (pymote_peer_close_raises one_frame_codec "show version" None _
              (mkSocket None [Recv "{"; Recv ""; Recv one_line] "") ["{"] [Recv one_line]);
     try reflexivity; repeat constructor
    |reflexivity].
Defined.

(** X23. A successful [connect] returns True and leaves the client
    connected, for both clients.  On failure pymote.py always raises
    ConnectionError and a client that was not connected stays so; client.py
    raises ConnectionError "Failed to connect" exactly when the failing
    library call raised a socket error, and raises any other exception of
    that call unchanged. *)
Theorem connect_outcomes net :
  (forall c b c', Client.connect net c = (inr b, c') ->
                  b = true /\ Client.is_connected c' = true)
  /\ (forall c b c', Pymote.connect net c = (inr b, c') ->
                     b = true /\ Pymote.is_connected c' = true
                     /\ Pymote._socket c' <> None)
  /\ (forall c e c', Pymote.connect net c = (inl e, c') ->
                     e = ConnectionError "Failed to connect"
                     /\ Pymote.is_connected c' = Pymote.is_connected c)
  /\ (forall c e0,
        connect_raises net (Pymote.host c) (Pymote.port c) (Pymote.timeout c) e0 ->
        fst (Pymote.connect net c) = inl (ConnectionError "Failed to connect"))
  /\ (forall c e0,
        connect_raises net (Client.host c) (Client.port c) (Client.timeout c) e0 ->
        (is_OSError e0 = true ->
         fst (Client.connect net c) = inl (ConnectionError "Failed to connect"))
        /\ (is_OSError e0 = false -> fst (Client.connect net c) = inl e0))
  /\ (forall c e c', Client.connect net c = (inl e, c') ->
        exists e0,
          connect_raises net (Client.host c) (Client.port c) (Client.timeout c) e0
          /\ e = if is_OSError e0 then ConnectionError "Failed to connect" else e0).
Proof.
  split; [|split; [|split; [|split; [|split]]]].
  - intros c b c'. unfold Client.connect.
    destruct (socket_socket net) as [e0|s]; [discriminate|]. simpl.
    destruct (settimeout net (Client.timeout c)); [discriminate|].
    destruct (socket_connect net (Client.host c) (Client.port c)); [discriminate|].
    intros [= <- <-]. split; reflexivity.
  - intros c b c'. unfold Pymote.connect.
    destruct (socket_socket net) as [e0|s]; [discriminate|]. simpl.
    destruct (settimeout net (Pymote.timeout c)); [discriminate|].
    destruct (socket_connect net (Pymote.host c) (Pymote.port c)); [discriminate|].
    intros [= <- <-]. repeat split. simpl. discriminate.
  - intros c e c'. unfold Pymote.connect.
    destruct (socket_socket net) as [e0|s]; [intros [= <- <-]; split; reflexivity|].
    simpl.
    destruct (settimeout net (Pymote.timeout c));
      [intros [= <- <-]; split; reflexivity|].
    destruct (socket_connect net (Pymote.host c) (Pymote.port c));
      [intros [= <- <-]; split; reflexivity|discriminate].
  - intros c e0 [H|[[s [Hs H]]|[s [Hs [Ht H]]]]]; unfold Pymote.connect.
    + rewrite H. reflexivity.
    + rewrite Hs. simpl. rewrite H. reflexivity.
    + rewrite Hs. simpl. rewrite Ht, H. reflexivity.
  - intros c e0 Hr.
    assert (E : fst (Client.connect net c) = inl (Client.connect_handler e0)).
    { destruct Hr as [H|[[s [Hs H]]|[s [Hs [Ht H]]]]]; unfold Client.connect.
      - rewrite H. reflexivity.
      - rewrite Hs. simpl. rewrite H. reflexivity.
      - rewrite Hs. simpl. rewrite Ht, H. reflexivity. }
    rewrite E. unfold Client.connect_handler.
    split; intros ->; reflexivity.
  - intros c e c'. unfold Client.connect, connect_raises, Client.connect_handler.
    destruct (socket_socket net) as [e0|s].
    { intros [= <- <-]. exists e0. split; [left; reflexivity|reflexivity]. }
    simpl.
    destruct (settimeout net (Client.timeout c)) as [e1|].
    { intros [= <- <-]. exists e1. split; [right; left; eauto|reflexivity]. }
    destruct (socket_connect net (Client.host c) (Client.port c)) as [e2|];
      [|discriminate].
    intros [= <- <-]. exists e2. split; [right; right; eauto|reflexivity].
Qed.

Lemma connect_outcomes_witness :
  (true = true
   /\ Client.is_connected
        (Client.mkClient "127.0.0.1" 9500 (30 # 1)%Q (Some closed_socket)) = true)
  /\ fst (Client.connect
            (mkNetwork (inr closed_socket) (fun _ => Some ValueError) (fun _ _ => None))
            (Client.new_client None None (Some (-1 # 1)%Q)))
     = inl ValueError
  /\ fst (Client.connect refusing_network (Client.new_client None None None))
     = inl (ConnectionError "Failed to connect")
  /\ fst (Pymote.connect
            (mkNetwork (inr closed_socket) (fun _ => Some ValueError) (fun _ _ => None))
            (Pymote.new_client "127.0.0.1" 9500))
     = inl (ConnectionError "Failed to connect").
Proof.
  split; [|split; [|split]].
  - destruct (connect_outcomes (accepting_network closed_socket)) as [Hc _].
    apply (Hc (Client.new_client None None None)). reflexivity.
  - destruct (connect_outcomes
                (mkNetwork (inr closed_socket) (fun _ => Some ValueError)
                           (fun _ _ => None))) as [_ [_ [_ [_ [Hf _]]]]].
    destruct (Hf (Client.new_client None None (Some (-1 # 1)%Q)) ValueError) as [_ H].
    + right; left. exists closed_socket. split; reflexivity.
    + apply H. reflexivity.
  - destruct (connect_outcomes refusing_network) as [_ [_ [_ [_ [Hf _]]]]].
    destruct (Hf (Client.new_client None None None) socket_error) as [H _].
    + right; right. exists (mkSocket None [] ""). repeat split.
    + apply H. reflexivity.
  - destruct (connect_outcomes
                (mkNetwork (inr closed_socket) (fun _ => Some ValueError)
                           (fun _ _ => None))) as [_ [_ [_ [Hp _]]]].
    apply (Hp (Pymote.new_client "127.0.0.1" 9500) ValueError).
    right; left. exists closed_socket. split; reflexivity.
Defined.

(** X24. Two commands sent one after the other on a client of client.py,
    with one response frame per read waiting on the socket: the first call
    is answered from the first frame and the second call from the second,
    both requests are written in order, and what follows stays on the
    socket. *)
Theorem client_two_commands cd command1 command2 c s frame1 frame2 rest :
  Client.socket c = Some s ->
  sendall_raises s = None ->
  incoming s = Recv frame1 :: Recv frame2 :: rest ->
  closing_chunk frame1 = true ->
  closing_chunk frame2 = true ->
  let '(r1, c1) := Client._execute cd command1 false c in
  let '(r2, c2) := Client._execute cd command2 false c1 in
  r1 = client_outcome cd command1 false frame1
  /\ r2 = client_outcome cd command2 false frame2
  /\ Client.socket c2
     = Some (mkSocket None rest
               (sent s ++ client_request cd command1 ++ client_request cd command2)).
Proof.
  intros Hs Hsend Hin H1 H2.
  rewrite (client_execute_frame cd command1 false c s [] frame1 (Recv frame2 :: rest)
             Hs Hsend Hin (Forall_nil _) H1).
  rewrite (client_execute_frame cd command2 false
             (Client.set_socket
                (Some (socket_after s (client_request cd command1) (Recv frame2 :: rest)))
                c)
             (socket_after s (client_request cd command1) (Recv frame2 :: rest))
             [] frame2 rest eq_refl Hsend eq_refl (Forall_nil _) H2).
  simpl. unfold socket_after. simpl. rewrite Hsend, append_assoc.
  repeat split.
Qed.

Lemma client_two_commands_witness :
  let '(r1, c1) := Client._execute (constant_codec (success_response "ok")) "backup" false
                     (Client.mkClient "h" 9500 (30 # 1)%Q
                        (Some (mkSocket None [Recv one_line; Recv one_line] ""))) in
  let '(r2, c2) := Client._execute (constant_codec (success_response "ok")) "force gc"
                     false c1 in
  r1 = client_outcome (constant_codec (success_response "ok")) "backup" false one_line
  /\ r2 = client_outcome (constant_codec (success_response "ok")) "force gc" false one_line
  /\ Client.socket c2
     = Some (mkSocket None []
               ("" ++ client_request (constant_codec (success_response "ok")) "backup"
                ++ client_request (constant_codec (success_response "ok")) "force gc")).
Proof.
  apply (client_two_commands (constant_codec (success_response "ok")) "backup" "force gc"
           (Client.mkClient "h" 9500 (30 # 1)%Q
              (Some (mkSocket None [Recv one_line; Recv one_line] "")))
           (mkSocket None [Recv one_line; Recv one_line] "") one_line one_line []);
    reflexivity.
Defined.
